(** * Cognitive-State-Estimation: the raw-data processing script, the
      score statistics and the plots, embedded and verified.

    Part I embeds the sources:
    - [process_data_raw.py]  : module [ProcessDataRaw];
    - [lib/dataprocessing/statistics.py] : module [Statistics];
    - [lib/plot/axisplot.py] : module [AxisPlot];
    - the POSIX [os.path.join] the script calls : module [OsPath];
    - the Python constructs they use (exceptions, dicts, [range],
      [enumerate]) : module [Py].
    Part II proves their properties, module by module.

    [lib.dataprocessing.ExperimentData], [lib.dataprocessing.VideoHandler] and
    [lib.dataprocessing.util] are imported by the script but are not part of
    the sources at hand: they, the file-system queries and [int()] on a
    string are taken as fields of a record [World], so every theorem holds
    for all of their behaviours. NumPy's [np.mean], which computes in
    float64, is a parameter of the statistics likewise (record [Numpy]),
    and [np.arange] one of the plots. Only for the length of an optical-flow
    sequence is the video handler modelled from the specification (module
    [OpticalFlow]). *)

From Stdlib Require Import ZArith String Ascii List Lia QArith Qcanon Qround Qabs.
From stdpp Require Import base tactics option list gmap strings pretty numbers.

Local Open Scope string_scope.
Local Open Scope list_scope.
Local Open Scope nat_scope.

(** * Part I: the programs *)

(** ** The Python runtime: exceptions, results, and the effects of a run *)

Module Py.

(** The exceptions the embedded code can end with. [SystemExit] is what
    [argparse] raises on a rejected command line (status 2); [LibError]
    stands for whatever an operation of [lib.dataprocessing] raises. *)
Inductive exn : Type :=
| SystemExit (status : Z)
| ValueError
| AssertionError
| KeyError (key : string)
| IndexError
| AxisError
| OSError (path : string)
| LibError (name : string).

Inductive result (A : Type) : Type :=
| Ok (a : A)
| Raise (e : exn).

Arguments Ok {A} a.
Arguments Raise {A} e.

Definition is_ok {A} (r : result A) : bool :=
  match r with Ok _ => true | Raise _ => false end.

Definition result_bind {A B} (f : A → result B) (r : result A) : result B :=
  match r with Ok a => f a | Raise e => Raise e end.

#[global] Instance result_ret : MRet result := @Ok.
#[global] Instance result_mbind : MBind result := @result_bind.

(** A [for] loop that updates a local variable of type [S]. *)
Fixpoint for_fold {A S} (xs : list A) (body : S → A → result S) (s : S) : result S :=
  match xs with
  | [] => Ok s
  | x :: xs' => s' ← body s x; for_fold xs' body s'
  end.

(** [d[k]] on a dict. *)
Definition getitem {A} (d : gmap string A) (k : string) : result A :=
  match d !! k with
  | Some v => Ok v
  | None => Raise (KeyError k)
  end.

(** [range(a, b)] and [enumerate(l, start)]; [start] is 0 when not given. *)
Definition range (a b : nat) : list nat := seq a (b - a).

Fixpoint enumerate_from {A} (start : nat) (l : list A) : list (nat * A) :=
  match l with
  | [] => []
  | x :: l' => (start, x) :: enumerate_from (S start) l'
  end.

Definition enumerate {A} (l : list A) : list (nat * A) := enumerate_from 0 l.

(** [s.startswith(p)] *)
Fixpoint startswith (p s : string) : bool :=
  match p with
  | EmptyString => true
  | String a p' =>
      match s with
      | String b s' => if decide (a = b) then startswith p' s' else false
      | EmptyString => false
      end
  end.

End Py.

Import Py.

(** ** [os.path.join] (posixpath) *)

Module OsPath.

Definition startswith_sep (s : string) : bool :=
  match s with
  | String c _ => if decide (c = "/"%char) then true else false
  | EmptyString => false
  end.

Fixpoint endswith_sep (s : string) : bool :=
  match s with
  | EmptyString => false
  | String c EmptyString => if decide (c = "/"%char) then true else false
  | String _ s' => endswith_sep s'
  end.

(** One round of the loop of [posixpath.join]: a component that starts with
    the separator replaces what was joined so far, otherwise it is appended,
    with a separator unless the path is empty or already ends in one. *)
Definition join_step (path b : string) : string :=
  if startswith_sep b || bool_decide (path = "") then b
  else if endswith_sep path then path +:+ b
  else path +:+ "/" +:+ b.

Definition join (a : string) (p : list string) : string :=
  foldl join_step a p.

(** [d] followed by a separator when [join] would put one. *)
Definition with_sep (d : string) : string :=
  if bool_decide (d = "") || endswith_sep d then d else d +:+ "/".

End OsPath.

(** ** [process_data_raw.py] *)

Module ProcessDataRaw.

Section script.

(** [V] is the type of the values the script only passes along (the
    timestamps and the score of a trial), [Frames] the array a processing
    function returns. *)
Context {V Frames : Type}.

Inductive jvalue : Type :=
| JInt (z : Z)
| JVal (v : V).

(** What a run does to the outside, in the order it does it: a line on the
    console, a call of [os.makedirs] that returns (it has made the directory
    of its path and every missing directory above it), the construction of
    the two processing objects, a call of the chosen processing function,
    and the three ways a file is touched ([np.save], [open(_, 'w')],
    [json.dump]). *)
Inductive event : Type :=
| EPrint (line : string)
| ENewExperimentData (path : string)
| ENewVideoHandler (path : string)
| EMakedirs (path : string)
| EProcessFrames (start end_ : V) (cropsize : Z)
| ENpSave (path : string) (frames : Frames)
| EOpenW (path : string)
| EJsonDump (path : string) (obj : list (string * jvalue)).

(** A computation: the events performed so far and how it ended. The events
    of a computation that raises stay performed. *)
Record Run (A : Type) : Type := MkRun { trace : list event; outcome : result A }.

Arguments MkRun {A} trace outcome.
Arguments trace {A} r.
Arguments outcome {A} r.

Definition run_ret {A} (a : A) : Run A := MkRun [] (Ok a).

Definition run_bind {A B} (f : A → Run B) (m : Run A) : Run B :=
  match outcome m with
  | Ok a => let r := f a in MkRun (trace m ++ trace r) (outcome r)
  | Raise e => MkRun (trace m) (Raise e)
  end.

#[global] Instance Run_ret : MRet Run := @run_ret.
#[global] Instance Run_bind : MBind Run := @run_bind.

Definition emit (e : event) : Run unit := MkRun [e] (Ok tt).
Definition lift {A} (r : result A) : Run A := MkRun [] r.
Definition raise {A} (e : exn) : Run A := MkRun [] (Raise e).

(** [for x in xs: body(x)] *)
Fixpoint for_ {A} (xs : list A) (body : A → Run unit) : Run unit :=
  match xs with
  | [] => mret tt
  | x :: xs' => body x ;; for_ xs' body
  end.

Definition print (line : string) : Run unit := emit (EPrint line).

(** [assert b] *)
Definition assert_ (b : bool) : Run unit :=
  if b then mret tt else raise AssertionError.

(** *** The collaborators that are not in the sources *)

(** A trial is a dict; the script reads its keys ['start'], ['end'] and
    ['score']. *)
Record ExperimentData : Type := {
  get_trials : nat → result (list (gmap string V));
  get_video_lecture_timestamps : result (V * V)
}.

Record VideoHandler : Type := {
  get_frames : V → V → Z → result Frames;
  get_eye_frames : V → V → Z → result Frames;
  get_optical_flow_frames : V → V → Z → result Frames
}.

Record World : Type := {
  abspath : string → string;
  path_exists : string → bool;
  isdir : string → bool;
  isfile : string → bool;
  splitext : string → string * string;
  (** [int(s)] on a string: [None] is a [ValueError] *)
  int_of_str : string → option Z;
  (** [dp.util.getExperimentInfo]: the log, the video and the participant *)
  getExperimentInfo : string → result (string * string * string);
  new_ExperimentData : string → result ExperimentData;
  new_VideoHandler : string → result VideoHandler;
  (** whether [os.makedirs(p, exist_ok=True)] succeeds *)
  makedirs_ok : string → bool;
  (** whether the file [p] can be created or overwritten *)
  writable : string → bool
}.

(** *** Argument parsing *)

(** The command line as [argparse] has matched it to the declared
    arguments: the two positionals, the value given to [--output] and to
    [--crop] ([None]: the option is not on the command line), and whether
    [--lecture-video] is on it. *)
Record CommandLine : Type := {
  cl_ProcessingMethod : string;
  cl_ExperimentData : string;
  cl_output : option string;
  cl_crop : option string;
  cl_lecture_video : bool
}.

(** A value that is the integer default or a string of the command line. *)
Inductive pyarg : Type :=
| PInt (z : Z)
| PStr (s : string).

Record Namespace : Type := {
  ns_ProcessingMethod : string;
  ns_ExperimentData : string;
  ns_output : string;
  ns_crop : pyarg;
  ns_lecture_video : bool
}.

Definition choices : list string := ["eye"; "face"; "opticalflow"].

Definition parse_args (cl : CommandLine) : result Namespace :=
  if bool_decide (cl_ProcessingMethod cl ∈ choices) then
    Ok {| ns_ProcessingMethod := cl_ProcessingMethod cl;
          ns_ExperimentData := cl_ExperimentData cl;
          ns_output := default "." (cl_output cl);
          ns_crop := from_option PStr (PInt 64) (cl_crop cl);
          ns_lecture_video := cl_lecture_video cl |}
  else Raise (SystemExit 2).

(** [int(x)] *)
Definition int_ (w : World) (x : pyarg) : result Z :=
  match x with
  | PInt z => Ok z
  | PStr s => match int_of_str w s with Some z => Ok z | None => Raise ValueError end
  end.

(** *** Effects on files *)

Definition makedirs (w : World) (p : string) : Run unit :=
  if makedirs_ok w p then emit (EMakedirs p) else raise (OSError p).

Definition np_save (w : World) (p : string) (frames : Frames) : Run unit :=
  if writable w p then emit (ENpSave p frames) else raise (OSError p).

Definition open_w (w : World) (p : string) : Run unit :=
  if writable w p then emit (EOpenW p) else raise (OSError p).

Definition json_dump (p : string) (obj : list (string * jvalue)) : Run unit :=
  emit (EJsonDump p obj).

(** *** The script *)

Definition method_functions (video_handler : VideoHandler)
  : gmap string (V → V → Z → result Frames) :=
  {[ "face" := get_frames video_handler;
     "eye" := get_eye_frames video_handler;
     "opticalflow" := get_optical_flow_frames video_handler ]}.

(** A call [process_frames(start, end, cropsize)]. *)
Definition call (process_frames : V → V → Z → result Frames)
    (start end_ : V) (cropsize : Z) : Run Frames :=
  emit (EProcessFrames start end_ cropsize) ;; lift (process_frames start end_ cropsize).

(** The body of the inner loop, lines 134-147. *)
Definition trial_body (w : World) (method output_path participant : string)
    (cropsize : Z) (process_frames : V → V → Z → result Frames)
    (n : nat) (it : nat * gmap string V) : Run unit :=
  let i := it.1 in
  let trial := it.2 in
  print ("  Trial " +:+ pretty (i + 1)%nat) ;;
  start ← lift (getitem trial "start");
  end_ ← lift (getitem trial "end");
  frames ← call process_frames start end_ cropsize;
  let out := OsPath.join output_path
               [participant; pretty n +:+ "-" +:+ pretty i +:+ "-" +:+ method] in
  np_save w (out +:+ ".npy") frames ;;
  open_w w (out +:+ ".json") ;;
  score ← lift (getitem trial "score");
  json_dump (out +:+ ".json") [("n", JInt (Z.of_nat n)); ("score", JVal score)].

(** The body of the outer loop, lines 128-147. *)
Definition level_body (w : World) (method output_path participant : string)
    (cropsize : Z) (process_frames : V → V → Z → result Frames)
    (exp_data : ExperimentData) (n : nat) : Run unit :=
  print ("N=" +:+ pretty n) ;;
  trials ← lift (get_trials exp_data n);
  for_ (enumerate trials)
       (trial_body w method output_path participant cropsize process_frames n).

(** The [else] branch, lines 151-159. *)
Definition lecture_body (w : World) (method output_path participant : string)
    (cropsize : Z) (process_frames : V → V → Z → result Frames)
    (exp_data : ExperimentData) : Run unit :=
  print "Processing Lecture Video" ;;
  se ← lift (get_video_lecture_timestamps exp_data);
  frames ← call process_frames se.1 se.2 cropsize;
  let out := OsPath.join output_path [participant; method +:+ "_lecture_video"] in
  np_save w (out +:+ ".npy") frames.

Definition main (w : World) (cl : CommandLine) : Run unit :=
  arguments ← lift (parse_args cl);
  let method := ns_ProcessingMethod arguments in
  let exp_data_path := abspath w (ns_ExperimentData arguments) in
  let output_path := abspath w (ns_output arguments) in
  cropsize ← lift (int_ w (ns_crop arguments));
  let lecture_video := ns_lecture_video arguments in
  assert_ (path_exists w exp_data_path && isdir w exp_data_path) ;;
  assert_ (path_exists w output_path && isdir w output_path) ;;
  assert_ (bool_decide (cropsize > 0)%Z) ;;
  info ← lift (getExperimentInfo w exp_data_path);
  let exp_json := info.1.1 in
  let video_path := info.1.2 in
  let participant := info.2 in
  assert_ (path_exists w video_path && isfile w video_path
           && bool_decide ((splitext w video_path).2 = ".mp4")) ;;
  assert_ (path_exists w exp_json && isfile w exp_json
           && bool_decide ((splitext w exp_json).2 = ".json")) ;;
  print "" ;;
  print ("Processing Method: " +:+ method) ;;
  print ("Experiment Data: " +:+ exp_json) ;;
  print ("Video: " +:+ video_path) ;;
  print ("Output Path: " +:+ output_path) ;;
  print ("Cropsize: " +:+ pretty cropsize) ;;
  print ("Participant: " +:+ participant) ;;
  print ("Video Part: " +:+ (if lecture_video then "Lecture Video" else "N-Back")) ;;
  print "" ;;
  emit (ENewExperimentData exp_json) ;;
  exp_data ← lift (new_ExperimentData w exp_json);
  emit (ENewVideoHandler video_path) ;;
  video_handler ← lift (new_VideoHandler w video_path);
  process_frames ← lift (getitem (method_functions video_handler) method);
  makedirs w (OsPath.join output_path [participant]) ;;
  (if negb lecture_video then
     print "Processing N-levels..." ;;
     for_ (range 1 6)
          (level_body w method output_path participant cropsize process_frames exp_data)
   else
     lecture_body w method output_path participant cropsize process_frames exp_data) ;;
  print ("Output written to " +:+ OsPath.join output_path [participant]).

(** *** The script in two parts

    [startup] is the script up to line 121 (argument parsing and processing,
    the assertion checks, the banner, the processing objects, the
    participant's directory) and returns the script's variables; [body] is
    the [if] of lines 123-159. [main_split] below shows that [main] is the
    one followed by the other and the closing [print]. *)

Record Vars : Type := {
  method : string;
  output_path : string;
  cropsize : Z;
  lecture_video : bool;
  exp_json : string;
  video_path : string;
  participant : string;
  exp_data : ExperimentData;
  video_handler : VideoHandler;
  process_frames : V → V → Z → result Frames
}.

Definition startup (w : World) (cl : CommandLine) : Run Vars :=
  arguments ← lift (parse_args cl);
  let method := ns_ProcessingMethod arguments in
  let exp_data_path := abspath w (ns_ExperimentData arguments) in
  let output_path := abspath w (ns_output arguments) in
  cropsize ← lift (int_ w (ns_crop arguments));
  let lecture_video := ns_lecture_video arguments in
  assert_ (path_exists w exp_data_path && isdir w exp_data_path) ;;
  assert_ (path_exists w output_path && isdir w output_path) ;;
  assert_ (bool_decide (cropsize > 0)%Z) ;;
  info ← lift (getExperimentInfo w exp_data_path);
  let exp_json := info.1.1 in
  let video_path := info.1.2 in
  let participant := info.2 in
  assert_ (path_exists w video_path && isfile w video_path
           && bool_decide ((splitext w video_path).2 = ".mp4")) ;;
  assert_ (path_exists w exp_json && isfile w exp_json
           && bool_decide ((splitext w exp_json).2 = ".json")) ;;
  print "" ;;
  print ("Processing Method: " +:+ method) ;;
  print ("Experiment Data: " +:+ exp_json) ;;
  print ("Video: " +:+ video_path) ;;
  print ("Output Path: " +:+ output_path) ;;
  print ("Cropsize: " +:+ pretty cropsize) ;;
  print ("Participant: " +:+ participant) ;;
  print ("Video Part: " +:+ (if lecture_video then "Lecture Video" else "N-Back")) ;;
  print "" ;;
  emit (ENewExperimentData exp_json) ;;
  exp_data ← lift (new_ExperimentData w exp_json);
  emit (ENewVideoHandler video_path) ;;
  video_handler ← lift (new_VideoHandler w video_path);
  process_frames ← lift (getitem (method_functions video_handler) method);
  makedirs w (OsPath.join output_path [participant]) ;;
  mret {| method := method; output_path := output_path; cropsize := cropsize;
          lecture_video := lecture_video; exp_json := exp_json;
          video_path := video_path; participant := participant;
          exp_data := exp_data; video_handler := video_handler;
          process_frames := process_frames |}.

Definition trial_loop (w : World) (v : Vars) : Run unit :=
  for_ (range 1 6)
       (level_body w (method v) (output_path v) (participant v) (cropsize v)
                   (process_frames v) (exp_data v)).

Definition body (w : World) (v : Vars) : Run unit :=
  if negb (lecture_video v) then
    print "Processing N-levels..." ;; trial_loop w v
  else
    lecture_body w (method v) (output_path v) (participant v) (cropsize v)
                 (process_frames v) (exp_data v).

(** *** What the theorems speak of *)

(** The [out] of a trial (line 139) and of the lecture segment (line 158). *)
Definition trial_out (v : Vars) (n i : nat) : string :=
  OsPath.join (output_path v)
    [participant v; pretty n +:+ "-" +:+ pretty i +:+ "-" +:+ method v].

Definition lecture_out (v : Vars) : string :=
  OsPath.join (output_path v) [participant v; method v +:+ "_lecture_video"].

(** The artifacts a trace has written: tensors ([np.save]) and labels
    ([json.dump]). *)
Definition is_artifact (e : event) : bool :=
  match e with
  | ENpSave _ _ | EJsonDump _ _ => true
  | _ => false
  end.

Definition artifacts (tr : list event) : list event := List.filter is_artifact tr.

Definition is_tensor (e : event) : bool :=
  match e with ENpSave _ _ => true | _ => false end.

Definition is_label (e : event) : bool :=
  match e with EJsonDump _ _ => true | _ => false end.

Definition tensors (tr : list event) : list event := List.filter is_tensor tr.
Definition labels (tr : list event) : list event := List.filter is_label tr.

(** The path an event touches. *)
Definition event_path (e : event) : option string :=
  match e with
  | ENpSave p _ | EOpenW p | EJsonDump p _ | EMakedirs p => Some p
  | _ => None
  end.

(** The steps of processing: every event but the console lines. *)
Definition is_step (e : event) : bool :=
  match e with EPrint _ => false | _ => true end.

Definition steps (tr : list event) : list event := List.filter is_step tr.

(** The label of a trial: the dict of lines 144-147. *)
Definition label_of (n : nat) (score : V) : list (string * jvalue) :=
  [("n", JInt (Z.of_nat n)); ("score", JVal score)].

(** The two artifacts of the trial [i] of level [n]. *)
Definition trial_artifacts (v : Vars) (n i : nat) (frames : Frames) (score : V)
  : list event :=
  [ENpSave (trial_out v n i +:+ ".npy") frames;
   EJsonDump (trial_out v n i +:+ ".json") (label_of n score)].

(** The steps of the trial [i] of level [n], in the order extract and
    feature-extract (the call of the processing function), then serialize. *)
Definition trial_steps (v : Vars) (n i : nat) (start end_ : V) (frames : Frames)
    (score : V) : list event :=
  [EProcessFrames start end_ (cropsize v);
   ENpSave (trial_out v n i +:+ ".npy") frames;
   EOpenW (trial_out v n i +:+ ".json");
   EJsonDump (trial_out v n i +:+ ".json") (label_of n score)].

(** All the events of a trial the script gets through, and of a level all
    of whose [k] trials it gets through. *)
Definition trial_trace (v : Vars) (n i : nat) (start end_ : V) (frames : Frames)
    (score : V) : list event :=
  EPrint ("  Trial " +:+ pretty (i + 1)) :: trial_steps v n i start end_ frames score.

Definition level_trace (v : Vars) (n k : nat) (st en : nat → V)
    (fr : nat → Frames) (sc : nat → V) : list event :=
  EPrint ("N=" +:+ pretty n)
  :: flat_map (λ i, trial_trace v n i (st i) (en i) (fr i) (sc i)) (seq 0 k).

(** A trial the script gets through: its dict has the three keys, the
    processing function returns [frames] on its window, and its two files
    can be written. *)
Definition trial_ok (w : World) (v : Vars) (n i : nat) (trial : gmap string V)
    (start end_ score : V) (frames : Frames) : Prop :=
  trial !! "start" = Some start ∧ trial !! "end" = Some end_ ∧
  trial !! "score" = Some score ∧
  process_frames v start end_ (cropsize v) = Ok frames ∧
  writable w (trial_out v n i +:+ ".npy") = true ∧
  writable w (trial_out v n i +:+ ".json") = true.

(** The five assertion checks of lines 84-95. *)
Definition assertion_checks (w : World) (exp_data_path output_path : string)
    (cropsize : Z) (exp_json video_path : string) : Prop :=
  (path_exists w exp_data_path = true ∧ isdir w exp_data_path = true) ∧
  (path_exists w output_path = true ∧ isdir w output_path = true) ∧
  (cropsize > 0)%Z ∧
  (path_exists w video_path = true ∧ isfile w video_path = true ∧
   (splitext w video_path).2 = ".mp4") ∧
  (path_exists w exp_json = true ∧ isfile w exp_json = true ∧
   (splitext w exp_json).2 = ".json").

(** What it takes for [startup] to return the variables [v]. *)
Definition started (w : World) (cl : CommandLine) (v : Vars) : Prop :=
  cl_ProcessingMethod cl ∈ choices ∧
  method v = cl_ProcessingMethod cl ∧
  output_path v = abspath w (default "." (cl_output cl)) ∧
  int_ w (from_option PStr (PInt 64) (cl_crop cl)) = Ok (cropsize v) ∧
  lecture_video v = cl_lecture_video cl ∧
  getExperimentInfo w (abspath w (cl_ExperimentData cl))
    = Ok (exp_json v, video_path v, participant v) ∧
  assertion_checks w (abspath w (cl_ExperimentData cl)) (output_path v)
    (cropsize v) (exp_json v) (video_path v) ∧
  new_ExperimentData w (exp_json v) = Ok (exp_data v) ∧
  new_VideoHandler w (video_path v) = Ok (video_handler v) ∧
  method_functions (video_handler v) !! method v = Some (process_frames v) ∧
  makedirs_ok w (OsPath.join (output_path v) [participant v]) = true.

(** The events of a [startup] that returns [v]. *)
Definition banner (v : Vars) : list event :=
  [EPrint "";
   EPrint ("Processing Method: " +:+ method v);
   EPrint ("Experiment Data: " +:+ exp_json v);
   EPrint ("Video: " +:+ video_path v);
   EPrint ("Output Path: " +:+ output_path v);
   EPrint ("Cropsize: " +:+ pretty (cropsize v));
   EPrint ("Participant: " +:+ participant v);
   EPrint ("Video Part: " +:+ (if lecture_video v then "Lecture Video" else "N-Back"));
   EPrint "";
   ENewExperimentData (exp_json v);
   ENewVideoHandler (video_path v);
   EMakedirs (OsPath.join (output_path v) [participant v])].

(** The last line of a run that returns. *)
Definition closing (v : Vars) : event :=
  EPrint ("Output written to " +:+ OsPath.join (output_path v) [participant v]).

(** The first line of the lecture branch. *)
Definition lecture_line : event := EPrint "Processing Lecture Video".

(** The directory of the participant, line 121. *)
Definition participant_dir (v : Vars) : string :=
  OsPath.join (output_path v) [participant v].

(** The 50 names a complete trial-mode run writes to, as keys. *)
Definition trial_keys : list (nat * nat * string) :=
  flat_map (λ n, flat_map (λ i, [(n, i, ".npy"); (n, i, ".json")]) (seq 0 5)) (seq 1 5).

(** What the run has validated once it prints its first line: the command
    line is accepted, the crop size is an integer, the experiment directory
    has yielded its files, and the five assertions hold. *)
Definition validated (w : World) (cl : CommandLine) : Prop :=
  ∃ c ej vp pt,
    cl_ProcessingMethod cl ∈ choices ∧
    int_ w (from_option PStr (PInt 64) (cl_crop cl)) = Ok c ∧
    getExperimentInfo w (abspath w (cl_ExperimentData cl)) = Ok (ej, vp, pt) ∧
    assertion_checks w (abspath w (cl_ExperimentData cl))
      (abspath w (default "." (cl_output cl))) c ej vp.

(** The assertions as the script evaluates them. *)
Definition first_checks (w : World) (exp_data_path output_path : string)
    (cropsize : Z) : bool :=
  (path_exists w exp_data_path && isdir w exp_data_path)
  && (path_exists w output_path && isdir w output_path)
  && bool_decide (cropsize > 0)%Z.

Definition file_checks (w : World) (exp_json video_path : string) : bool :=
  (path_exists w video_path && isfile w video_path
   && bool_decide ((splitext w video_path).2 = ".mp4"))
  && (path_exists w exp_json && isfile w exp_json
      && bool_decide ((splitext w exp_json).2 = ".json")).

(** An artifact of the trial [i] of level [n], whose dict is [trial]: in
    [out + ".npy"] the tensor the processing function returns on the
    trial's window, or in [out + ".json"] the label of the trial's level
    and score, for the [out] of line 139. *)
Definition trial_artifact (v : Vars) (n i : nat) (trial : gmap string V)
    (ev : event) : Prop :=
  (∃ start end_ frames,
     trial !! "start" = Some start ∧ trial !! "end" = Some end_ ∧
     process_frames v start end_ (cropsize v) = Ok frames ∧
     ev = ENpSave (trial_out v n i +:+ ".npy") frames) ∨
  (∃ score,
     trial !! "score" = Some score ∧
     ev = EJsonDump (trial_out v n i +:+ ".json") (label_of n score)).

(** The artifact of the lecture segment: in [out + ".npy"] the tensor the
    processing function returns on the segment's window, for the [out] of
    line 158. *)
Definition lecture_artifact (v : Vars) (ev : event) : Prop :=
  ∃ start end_ frames,
    get_video_lecture_timestamps (exp_data v) = Ok (start, end_) ∧
    process_frames v start end_ (cropsize v) = Ok frames ∧
    ev = ENpSave (lecture_out v +:+ ".npy") frames.

(** An artifact is that of what the run has processed, in the
    participant's directory of the output directory under its base name:
    in lecture mode that of the lecture segment, under
    ["{method}_lecture_video"]; in trial mode that of the trial [i] of a
    level [n] of the log, under ["{n}-{i}-{method}"]. *)
Definition placed (w : World) (cl : CommandLine) (ev : event) : Prop :=
  ∃ v,
    started w cl v ∧
    if lecture_video v then
      lecture_artifact v ev ∧
      lecture_out v
      = OsPath.with_sep (participant_dir v) +:+ method v +:+ "_lecture_video"
    else
      ∃ (n i : nat) trials trial,
        1 ≤ n ≤ 5 ∧
        get_trials (exp_data v) n = Ok trials ∧ trials !! i = Some trial ∧
        trial_artifact v n i trial ev ∧
        trial_out v n i
        = OsPath.with_sep (participant_dir v)
          +:+ pretty n +:+ "-" +:+ pretty i +:+ "-" +:+ method v.

(** The calls of the processing function in a trace. *)
Definition is_call (e : event) : bool :=
  match e with EProcessFrames _ _ _ => true | _ => false end.

Definition calls (tr : list event) : list event := List.filter is_call tr.

(** A call on the window of a trial of the log, with the crop size. *)
Definition trial_call (v : Vars) (ev : event) : Prop :=
  ∃ (n i : nat) trials trial start end_,
    1 ≤ n ≤ 5 ∧
    get_trials (exp_data v) n = Ok trials ∧ trials !! i = Some trial ∧
    trial !! "start" = Some start ∧ trial !! "end" = Some end_ ∧
    ev = EProcessFrames start end_ (cropsize v).

(** One call per trial of the levels 1 to 5, in the order of the log, for
    the trials [T n] of level [n] and their windows. *)
Definition trial_calls (v : Vars) (T : nat → list (gmap string V))
    (st en : nat → nat → V) : list event :=
  flat_map (λ n, flat_map (λ i, [EProcessFrames (st n i) (en n i) (cropsize v)])
                          (seq 0 (length (T n)))) (seq 1 5).

(** A console line that starts as the line of line 160 does. *)
Definition is_closing_line (e : event) : bool :=
  match e with
  | EPrint line => startswith "Output written to " line
  | _ => false
  end.

(** The function the dict of lines 113-117 holds for a method. *)
Definition function_of (video_handler : VideoHandler) (method : string)
  : V → V → Z → result Frames :=
  if decide (method = "face") then get_frames video_handler
  else if decide (method = "eye") then get_eye_frames video_handler
  else get_optical_flow_frames video_handler.

End script.

Arguments MkRun {V Frames A} trace outcome.
Arguments trace {V Frames A} r.
Arguments outcome {V Frames A} r.

(** *** A session to run the script on

    Timestamps and scores are numbers, the array of a window is stood for by
    its number of frames, one per time unit; a window that ends after the
    video raises. The session has 5 trials per level, trial [i] of level [n]
    starting at [100 * (5 * (n - 1) + i)] and lasting 90, except the trial
    [bad], whose end is past the end of the video (4000). *)

Definition demo_trial (bad : nat * nat) (n i : nat) : gmap string nat :=
  {[ "start" := 100 * (5 * (n - 1) + i);
     "end" := if bool_decide ((n, i) = bad) then 4500
              else 100 * (5 * (n - 1) + i) + 90;
     "score" := n + i ]}.

Definition demo_exp (bad : nat * nat) : @ExperimentData nat :=
  {| get_trials n := Ok (map (demo_trial bad n) (seq 0 5));
     get_video_lecture_timestamps := Ok (3000, 3600) |}.

Definition demo_frames (duration drop : nat) (start end_ : nat) (cropsize : Z)
  : result nat :=
  if bool_decide (end_ ≤ duration) then Ok (end_ - start - drop)
  else Raise (LibError "OutOfRangeError").

Definition demo_video (duration : nat) : @VideoHandler nat nat :=
  {| get_frames := demo_frames duration 0;
     get_eye_frames := demo_frames duration 0;
     get_optical_flow_frames := demo_frames duration 1 |}.

Definition demo_world (bad : nat * nat) : @World nat nat :=
  {| abspath p := if OsPath.startswith_sep p then p else "/home/lab/" +:+ p;
     path_exists p :=
       bool_decide (p ∈ ["/data/s01"; "/out"; "/data/s01/rec.mp4"; "/data/s01/log.json"]);
     isdir p := bool_decide (p ∈ ["/data/s01"; "/out"]);
     isfile p := bool_decide (p ∈ ["/data/s01/rec.mp4"; "/data/s01/log.json"]);
     splitext p :=
       if bool_decide (p = "/data/s01/rec.mp4") then ("/data/s01/rec", ".mp4")
       else if bool_decide (p = "/data/s01/log.json") then ("/data/s01/log", ".json")
       else (p, "");
     int_of_str s := if bool_decide (s = "32") then Some 32%Z else None;
     getExperimentInfo p := Ok (p +:+ "/log.json", p +:+ "/rec.mp4", "s01");
     new_ExperimentData p := Ok (demo_exp bad);
     new_VideoHandler p := Ok (demo_video 4000);
     makedirs_ok p := true;
     writable p := true |}.

Definition demo_cl (method : string) (lecture_video : bool) : CommandLine :=
  {| cl_ProcessingMethod := method;
     cl_ExperimentData := "/data/s01";
     cl_output := Some "/out";
     cl_crop := None;
     cl_lecture_video := lecture_video |}.

(** The variables of the script after [startup] on that session. *)
Definition demo_vars (bad : nat * nat) (lecture_video : bool) : @Vars nat nat :=
  {| method := "face";
     output_path := "/out";
     cropsize := 64;
     lecture_video := lecture_video;
     exp_json := "/data/s01/log.json";
     video_path := "/data/s01/rec.mp4";
     participant := "s01";
     exp_data := demo_exp bad;
     video_handler := demo_video 4000;
     process_frames := demo_frames 4000 0 |}.

(** No trial is [(0, 0)]: with it as [bad], all 25 trials are valid. *)
Definition no_trial : nat * nat := (0, 0).

(** *** Sessions off that shape

    The same world around another log: in [demo_exp_ragged] level [n] has
    [n - 1] trials; in [demo_exp_without key] the second trial of level 1
    lacks [key]; [demo_exp_nolecture] has no lecture segment. *)

Definition demo_world_with (exp : @ExperimentData nat) : @World nat nat :=
  {| abspath := abspath (demo_world no_trial);
     path_exists := path_exists (demo_world no_trial);
     isdir := isdir (demo_world no_trial);
     isfile := isfile (demo_world no_trial);
     splitext := splitext (demo_world no_trial);
     int_of_str := int_of_str (demo_world no_trial);
     getExperimentInfo := getExperimentInfo (demo_world no_trial);
     new_ExperimentData p := Ok exp;
     new_VideoHandler := new_VideoHandler (demo_world no_trial);
     makedirs_ok p := true;
     writable p := true |}.

Definition demo_vars_with (exp : @ExperimentData nat) (lecture_video : bool)
  : @Vars nat nat :=
  {| method := "face";
     output_path := "/out";
     cropsize := 64;
     lecture_video := lecture_video;
     exp_json := "/data/s01/log.json";
     video_path := "/data/s01/rec.mp4";
     participant := "s01";
     exp_data := exp;
     video_handler := demo_video 4000;
     process_frames := demo_frames 4000 0 |}.

Definition demo_exp_ragged : @ExperimentData nat :=
  {| get_trials n := Ok (map (demo_trial no_trial n) (seq 0 (n - 1)));
     get_video_lecture_timestamps := Ok (3000, 3600) |}.

Definition demo_trials_without (key : string) (n : nat) : list (gmap string nat) :=
  if decide (n = 1) then
    [demo_trial no_trial 1 0; delete key (demo_trial no_trial 1 1)]
  else map (demo_trial no_trial n) (seq 0 5).

Definition demo_exp_without (key : string) : @ExperimentData nat :=
  {| get_trials n := Ok (demo_trials_without key n);
     get_video_lecture_timestamps := Ok (3000, 3600) |}.

Definition demo_exp_nolecture : @ExperimentData nat :=
  {| get_trials n := Ok (map (demo_trial no_trial n) (seq 0 5));
     get_video_lecture_timestamps := Raise (LibError "MissingSegmentError") |}.

(** The variables of a run whose participant is [participant]. *)
Definition demo_vars_of (participant : string) : @Vars nat nat :=
  {| method := "face";
     output_path := "/out";
     cropsize := 64;
     lecture_video := false;
     exp_json := "/data/s01/log.json";
     video_path := "/data/s01/rec.mp4";
     participant := participant;
     exp_data := demo_exp no_trial;
     video_handler := demo_video 4000;
     process_frames := demo_frames 4000 0 |}.

End ProcessDataRaw.

(** ** Optical flow over a chunk of frames *)

Module OpticalFlow.

Import ProcessDataRaw.

Section encoder.

Context {V Frame Img : Type}.

(** The frames of a window ([FrameChunkExtractor.extract]), the encoding of
    the motion between two frames at a crop size, and the two other
    processing functions of the handler. *)
Variable extract : V → V → result (list Frame).
Variable encode : Z → Frame → Frame → Img.
Variables face eye : V → V → Z → result (list Img).

(** Modelled from the spec: [OpticalFlowEncoder] applied across a chunk, the
    body of [VideoHandler.get_optical_flow_frames], which is not in the
    sources. The spec (section 4.5): [encode(frame_t, frame_t+1)] is applied
    sequentially across a FrameChunk, one frame per consecutive pair. *)
Fixpoint OpticalFlowEncoder (enc : Frame → Frame → Img) (chunk : list Frame)
  : list Img :=
  match chunk with
  | f0 :: rest =>
      match rest with
      | f1 :: _ => enc f0 f1 :: OpticalFlowEncoder enc rest
      | [] => []
      end
  | [] => []
  end.

(** Modelled from the spec: [VideoHandler.get_optical_flow_frames], not in
    the sources: the chunk of the window, then the encoder across it. *)
Definition spec_get_optical_flow_frames (start end_ : V) (cropsize : Z)
  : result (list Img) :=
  chunk ← extract start end_; Ok (OpticalFlowEncoder (encode cropsize) chunk).

(** Modelled from the spec: the video handler, with that method. *)
Definition spec_video_handler : VideoHandler :=
  {| get_frames := face;
     get_eye_frames := eye;
     get_optical_flow_frames := spec_get_optical_flow_frames |}.

End encoder.

End OpticalFlow.

(** ** [lib/dataprocessing/statistics.py] *)

Module Statistics.

Import ProcessDataRaw.

Local Open Scope Qc_scope.

(** A NumPy float (a float64) is stood for by the rational number it is:
    a dyadic one, its denominator a power of two.  The scores are stored as
    they are read and nothing else is computed on them but [np.mean], which
    adds and divides in float64 and rounds: it is taken as a parameter
    ([Numpy], below), so that what is proved holds of the means NumPy
    returns, whatever its order of summation and its roundings.  There is
    no [nan] and no infinity: the scores are finite, and no mean of no
    number is taken on a matrix of 25 columns. *)

(** The arrays [self.__data] holds: the one-dimensional array of booleans
    of [__init__], then a two-dimensional array of floats, by rows. *)
Inductive ndarray : Type :=
| Bools (v : list bool)
| Floats2 (m : list (list Qc)).

(** [a.any()]: some entry is truthy; a float is truthy when it is not 0. *)
Definition truthy (x : Qc) : bool := bool_decide (x ≠ 0).

Definition any (a : ndarray) : bool :=
  match a with
  | Bools v => existsb id v
  | Floats2 m => existsb (existsb truthy) m
  end.

(** [m.shape[1]] of a matrix. *)
Definition ncols (m : list (list Qc)) : nat :=
  match m with [] => 0%nat | row :: _ => length row end.

(** [np.zeros([r, c])] *)
Definition zeros (r c : nat) : list (list Qc) := replicate r (replicate c 0).

(** [m[r, c] = x] *)
Definition setitem2 (m : list (list Qc)) (r c : nat) (x : Qc)
  : result (list (list Qc)) :=
  match m !! r with
  | Some row =>
      if decide (c < length row)%nat then Ok (<[r := <[c := x]> row]> m)
      else Raise IndexError
  | None => Raise IndexError
  end.

(** [np.concatenate((a, b), axis=0)] with [b] a matrix. *)
Definition concatenate0 (a : ndarray) (b : list (list Qc)) : result ndarray :=
  match a with
  | Bools _ => Raise ValueError
  | Floats2 m =>
      if decide (ncols m = ncols b) then Ok (Floats2 (m ++ b)) else Raise ValueError
  end.

(** [np.concatenate((a, b), axis=1)] of two matrices. *)
Definition concatenate1 (a b : list (list Qc)) : result (list (list Qc)) :=
  if decide (length a = length b) then Ok (zip_with app a b) else Raise ValueError.

(** [np.expand_dims(x, axis=1)] of a vector. *)
Definition expand_dims1 (x : list Qc) : list (list Qc) := map (λ y, [y]) x.

(** The rationals that a float64 can be are dyadic. *)
Fixpoint power_of_two (p : positive) : bool :=
  match p with
  | xH => true
  | xO p' => power_of_two p'
  | xI _ => false
  end.

Definition dyadic (x : Qc) : bool := power_of_two (Qden (this x)).

(** [np.mean], as the methods call it: along the rows ([axis=1], on the
    numbers of a row's slice) and along the columns ([axis=0], on the
    numbers of a column).  NumPy computes both in float64; the mean of a
    row or of a column is taken to depend on its numbers alone, in their
    order. *)
Record Numpy : Type := {
  mean_of_row : list Qc → Qc;
  mean_of_column : list Qc → Qc
}.

(** What is known of them without NumPy's code: a mean of numbers is a
    float64. *)
Definition returns_floats (np : Numpy) : Prop :=
  ∀ xs, xs ≠ [] →
    dyadic (mean_of_row np xs) = true ∧ dyadic (mean_of_column np xs) = true.

(** The arithmetic mean of the numbers [xs], exact: their sum over their
    count.  No method computes it; the means of [np.mean] are compared with
    it. *)
Definition sum (xs : list Qc) : Qc := foldr Qcplus 0 xs.

Definition exact_mean (xs : list Qc) : Qc :=
  sum xs / Q2Qc (inject_Z (Z.of_nat (length xs))).

(** [row[a:b]] *)
Definition slice (row : list Qc) (a b : nat) : list Qc := take (b - a) (drop a row).

(** [np.mean(m[..., a:b], axis=1)]: the mean of each row's slice. *)
Definition mean_axis1 (np : Numpy) (m : list (list Qc)) (a b : nat) : list Qc :=
  map (λ row, mean_of_row np (slice row a b)) m.

(** [np.mean(m, axis=0)]: the mean of each column. *)
Definition mean_axis0 (np : Numpy) (m : list (list Qc)) : list Qc :=
  map (λ j, mean_of_column np (omap (λ row, row !! j) m)) (seq 0 (ncols m)).

(** The object: its one attribute. *)
Record Statistics : Type := { data : ndarray }.

Definition __init__ : Statistics := {| data := Bools [false] |}.

Section methods.

(** [ExperimentData(path)], which is not in the sources. *)
Variable new_ExperimentData : string → result (@ExperimentData Qc).

(** [np.mean]. *)
Variable np : Numpy.

(** Lines 49-56: the 1 x 25 matrix of the subject's scores. *)
Definition subject_scores (exp_data : @ExperimentData Qc) : result (list (list Qc)) :=
  for_fold (range 1 6)
    (λ data n,
       trials ← get_trials exp_data n;
       for_fold (enumerate trials)
         (λ data it,
            score ← getitem it.2 "score";
            setitem2 data 0 ((n - 1) * 5 + it.1) score)
         data)
    (zeros 1 25).

Definition add_subject_data (self : Statistics) (data_csv_path : string)
  : result Statistics :=
  exp_data ← new_ExperimentData data_csv_path;
  data' ← subject_scores exp_data;
  if any (data self) then
    d ← concatenate0 (data self) data'; Ok {| data := d |}
  else Ok {| data := Floats2 data' |}.

Definition average_scores_all_subjects (self : Statistics)
  : result (list (list Qc)) :=
  match data self with
  | Bools _ => Raise AxisError
  | Floats2 m =>
      let p_num := length m in
      out ← for_fold (range 1 6)
              (λ out n,
                 let mean := mean_axis1 np m ((n - 1) * 5) ((n - 1) * 5 + 5) in
                 concatenate1 out (expand_dims1 mean))
              (zeros p_num 1);
      Ok (map (drop 1) out)
  end.

Definition global_average_scores (self : Statistics) : result (list Qc) :=
  avg ← average_scores_all_subjects self; Ok (mean_axis0 np avg).

(** Adding the subjects of several files, one call after the other. *)
Definition add_subjects (self : Statistics) (paths : list string)
  : result Statistics :=
  for_fold paths add_subject_data self.

(** The file [path] holds a subject whose row of scores is [r]. *)
Definition loads (path : string) (r : list Qc) : Prop :=
  ∃ exp_data, new_ExperimentData path = Ok exp_data ∧
              subject_scores exp_data = Ok [r].

End methods.

(** The mean of the scores of level [n] in a row, as [np.mean] returns
    it. *)
Definition level_mean (np : Numpy) (row : list Qc) (n : nat) : Qc :=
  mean_of_row np (slice row ((n - 1) * 5) ((n - 1) * 5 + 5)).

(** *** Three subjects to run the methods on

    Subject [k] scores [k * (n + i)] at trial [i] of level [n]; subject 0
    scores 0 everywhere. *)

Definition demo_score (k : Z) (n i : nat) : Qc :=
  Q2Qc (inject_Z (k * Z.of_nat (n + i))).

Definition demo_trials (k : Z) (n : nat) : list (gmap string Qc) :=
  map (λ i, {[ "score" := demo_score k n i ]}) (seq 0 5).

Definition demo_subject (k : Z) : @ExperimentData Qc :=
  {| get_trials n := Ok (demo_trials k n);
     get_video_lecture_timestamps := Raise (LibError "MissingSegmentError") |}.

Definition demo_files (path : string) : result (@ExperimentData Qc) :=
  if bool_decide (path = "zero.csv") then Ok (demo_subject 0)
  else if bool_decide (path = "one.csv") then Ok (demo_subject 1)
  else if bool_decide (path = "two.csv") then Ok (demo_subject 2)
  else Raise (LibError "FileNotFoundError").

Definition demo_row (k : Z) : list Qc :=
  map (λ z, Q2Qc (inject_Z (k * z)))
      [1; 2; 3; 4; 5; 2; 3; 4; 5; 6; 3; 4; 5; 6; 7; 4; 5; 6; 7; 8; 5; 6; 7; 8; 9]%Z.

(** The numbers of a matrix, to compare results by their values. *)
Definition values (r : result (list (list Qc))) : list (list Q) :=
  match r with Ok m => map (map this) m | Raise _ => [] end.

(** *** A NumPy to run the averages on

    The float64 nearest to a rational, ties to the even mantissa (of 53
    bits; subnormal numbers and overflow are left out): [m * 2^e] for the
    integer [m] nearest to [q / 2^e], where [2^52 <= |q| / 2^e < 2^53]. *)
Definition round_half_even (q : Q) : Z :=
  let f := Qfloor q in
  match Qcompare (q - inject_Z f) (1 # 2) with
  | Lt => f
  | Gt => (f + 1)%Z
  | Eq => if Z.even f then f else (f + 1)%Z
  end.

(** The integer [k] with [2^k <= q < 2^(k+1)], for [q > 0]. *)
Definition Qlog2 (q : Q) : Z :=
  let k := (Z.log2 (Qnum q) - Z.log2 (Zpos (Qden q)))%Z in
  if Qle_bool (Qpower 2 k) q then k else (k - 1)%Z.

(** [m * 2^e] *)
Definition scale (m e : Z) : Q :=
  if (0 <=? e)%Z then inject_Z (m * 2 ^ e) else (m # (2 ^ Z.to_pos (- e)))%Q.

Definition round64 (x : Qc) : Qc :=
  let q := this x in
  if Qeq_bool q 0 then 0 else
  let e := (Qlog2 (Qabs q) - 52)%Z in
  let m := round_half_even (Qabs q * Qpower 2 (- e)) in
  Q2Qc (scale (Z.sgn (Qnum q) * m) e).

(** The mean in float64 of a few numbers: they are added from left to
    right and the sum is divided by their count, a float64 at each step. *)
Definition float_mean (xs : list Qc) : Qc :=
  round64 (fold_left (λ acc x, round64 (acc + x)) xs 0
           / Q2Qc (inject_Z (Z.of_nat (length xs)))).

Definition demo_numpy : Numpy :=
  {| mean_of_row := float_mean; mean_of_column := float_mean |}.

(** The float64 numbers of the literals [0.1], [0.2], [0.3], [0.4] and
    [0.5]. *)
Definition tenths : list Qc :=
  [Q2Qc (3602879701896397 # 36028797018963968);
   Q2Qc (3602879701896397 # 18014398509481984);
   Q2Qc (5404319552844595 # 18014398509481984);
   Q2Qc (3602879701896397 # 9007199254740992);
   Q2Qc (1 # 2)].

(** Two subjects who score 1 at one and at two trials of level 1, and 0
    elsewhere. *)
Definition demo_fifths : list (list Qc) :=
  [Q2Qc 1 :: replicate 24 0; Q2Qc 1 :: Q2Qc 1 :: replicate 23 0].

(** *** What a sequence of calls leaves

    The rows [add_subject_data] has stored after it was called, on a new
    object, for subjects whose rows are [rows]: the subjects from the first
    one with a nonzero score on; the last subject alone when no score is
    nonzero before it. *)
Fixpoint stored_rows (rows : list (list Qc)) : list (list Qc) :=
  match rows with
  | [] => []
  | [r] => [r]
  | r :: rest => if existsb truthy r then rows else stored_rows rest
  end.

(** *** Three logs off the shape of 5 x 5 trials

    [demo_short] has [n - 1] trials at level [n]; [demo_long] has a sixth
    trial at level 5; in [demo_noscore] the second trial of level 2 has no
    score. *)

Definition demo_short : @ExperimentData Qc :=
  {| get_trials n := Ok (take (n - 1) (demo_trials 1 n));
     get_video_lecture_timestamps := Raise (LibError "MissingSegmentError") |}.

Definition demo_long : @ExperimentData Qc :=
  {| get_trials n :=
       Ok (map (λ i, {[ "score" := demo_score 1 n i ]})
               (seq 0 (if decide (n = 5%nat) then 6 else 5)));
     get_video_lecture_timestamps := Raise (LibError "MissingSegmentError") |}.

Definition demo_noscore_trials (n : nat) : list (gmap string Qc) :=
  if decide (n = 2%nat) then <[1%nat := {[ "start" := 0 ]}]> (demo_trials 1 n)
  else demo_trials 1 n.

Definition demo_noscore : @ExperimentData Qc :=
  {| get_trials n := Ok (demo_noscore_trials n);
     get_video_lecture_timestamps := Raise (LibError "MissingSegmentError") |}.

End Statistics.

(** ** [lib/plot/axisplot.py]

    The three functions draw through the state of [matplotlib.pyplot]. What
    they do to it is modelled as the list of the calls they make, in order,
    with the arguments the source gives them. [colours] and [clean_plot]
    come from [lib/plot/util.py], which is not in the sources: [colours()]
    is taken to return the same list at every call and [clean_plot(ax)] to
    return. The calls of pyplot are taken to return, but [plt.plot] with an
    [x] and a [y] of different lengths, which raises [ValueError]. A float
    is stood for by a rational number, as for the statistics, and a float
    literal by the decimal it is written as: the functions compare floats
    and pass them on, and compute on them through [np.arange] alone, whose
    values with a float step depend on rounding and are left to a
    parameter. *)

Module AxisPlot.

Local Open Scope Qc_scope.

Section plots.

Context {Colour : Type}.

Inductive call : Type :=
| Subplots
| CleanPlot
| Xlabel (s : string) (fontsize : Z)
| Ylabel (s : string) (fontsize : Z)
| Xlim (a b : Z)
| Ylim (a b : Z)
| Xticks (ticks : list Qc)
| Yticks (ticks : list Qc) (fontsize : Z)
(** [plt.plot(x, y, label=label, color=color)] *)
| PlotLine (x y : list Qc) (label : string) (color : Colour)
(** [plt.plot(x, y, "--", lw=0.5, color="black", alpha=0.3)] *)
| PlotDashed (x y : list Qc)
(** [plt.plot(x, y, 'o-', label=label, color=color, clip_on=False)] *)
| PlotPoints (x y : list Qc) (label : string) (color : Colour)
(** [ax.axvline(x, 0.04, 1, linestyle="--", lw=0.5, color="black", alpha=0.3)] *)
| Axvline (x : Qc)
| Legend (loc : option string).

Record Pyplot : Type := {
  (** [colours()] *)
  colours : list Colour;
  (** [np.arange(start, stop, step)] with a float step *)
  arange : Qc → Qc → Qc → list Qc;
  (** the [loc] of [plt.yticks()] once the series [data] are drawn *)
  yticks_loc : list (list Qc) → list Qc
}.

(** A computation: the calls made so far and how it ended. *)
Record Plt (A : Type) : Type := MkPlt { drawn : list call; ended : result A }.

Arguments MkPlt {A} drawn ended.
Arguments drawn {A} p.
Arguments ended {A} p.

Definition plt_ret {A} (a : A) : Plt A := MkPlt [] (Ok a).

Definition plt_bind {A B} (f : A → Plt B) (m : Plt A) : Plt B :=
  match ended m with
  | Ok a => let r := f a in MkPlt (drawn m ++ drawn r) (ended r)
  | Raise e => MkPlt (drawn m) (Raise e)
  end.

#[global] Instance Plt_ret : MRet Plt := @plt_ret.
#[global] Instance Plt_bind : MBind Plt := @plt_bind.

Definition draw (c : call) : Plt unit := MkPlt [c] (Ok tt).
Definition lift {A} (r : result A) : Plt A := MkPlt [] r.

Fixpoint for_ {A} (xs : list A) (body : A → Plt unit) : Plt unit :=
  match xs with
  | [] => mret tt
  | x :: xs' => body x ;; for_ xs' body
  end.

Definition assert_ (b : bool) : Plt unit :=
  if b then mret tt else lift (Raise AssertionError).

(** [l[i]] on a list, for [i >= 0]. *)
Definition item {A} (l : list A) (i : nat) : result A :=
  match l !! i with Some x => Ok x | None => Raise IndexError end.

(** [plt.plot(x, y, ...)], as the call [c]. *)
Definition plot (x y : list Qc) (c : call) : Plt unit :=
  if decide (length x = length y) then draw c else lift (Raise ValueError).

(** [np.arange(n) + 1] *)
Definition x_axis (n : nat) : list Qc :=
  map (λ k, Q2Qc (inject_Z (Z.of_nat k))) (seq 1 n).

(** [l[1:-1]] *)
Definition inner {A} (l : list A) : list A := take (length l - 2) (drop 1 l).

(** [l[::2]] *)
Fixpoint every_second {A} (l : list A) : list A :=
  match l with
  | x :: _ :: l' => x :: every_second l'
  | _ => l
  end.

(** [np.count_nonzero(data > threshold)] *)
Definition count_above (threshold : Qc) (data : list Qc) : nat :=
  length (filter (λ x, threshold < x) data).

(** Lines 154-158. *)
Definition plot_data (steps : list Qc) (accuracies : list (list Qc))
  : list (list nat) :=
  map (λ data, map (λ threshold, count_above threshold data) steps) accuracies.

(** The counts as the numbers [plt.plot] is given. *)
Definition numbers (l : list nat) : list Qc :=
  map (λ k, Q2Qc (inject_Z (Z.of_nat k))) l.

Variable P : Pyplot.

Definition loss_axisplot (data : list (list Qc)) (labels : list string) : Plt unit :=
  assert_ (bool_decide (length data = length labels)) ;;
  draw Subplots ;;
  draw CleanPlot ;;
  draw (Xlabel "Epochs" 12) ;;
  draw (Ylabel "Loss" 12) ;;
  d0 ← lift (item data 0);
  let x_axis_ := x_axis (length d0) in
  for_ (range 0 (length data))
       (λ i, d ← lift (item data i);
             l ← lift (item labels i);
             c ← lift (item (colours P) (i + 2));
             plot x_axis_ d (PlotLine x_axis_ d l c)) ;;
  let loc := yticks_loc P data in
  for_ (inner loc)
       (λ y, d0 ← lift (item data 0);
             d0' ← lift (item data 0);
             plot (x_axis (length d0)) (replicate (length d0') y)
                  (PlotDashed (x_axis (length d0)) (replicate (length d0') y))) ;;
  draw (Legend (Some "upper right")).

Definition accuracy_axisplot (data : list (list Qc)) (labels : list string)
  : Plt unit :=
  assert_ (bool_decide (length data = length labels)) ;;
  draw Subplots ;;
  draw CleanPlot ;;
  d0 ← lift (item data 0);
  let x_axis_ := x_axis (length d0) in
  for_ (arange P 0 1 (Q2Qc (1 # 10)))
       (λ y, d0 ← lift (item data 0);
             d0' ← lift (item data 0);
             plot (x_axis (length d0)) (replicate (length d0') y)
                  (PlotDashed (x_axis (length d0)) (replicate (length d0') y))) ;;
  draw (Ylim 0 1) ;;
  draw (Yticks (arange P (Q2Qc (2 # 10)) 1 (Q2Qc (2 # 10))) 10) ;;
  draw (Xlabel "Epochs" 12) ;;
  draw (Ylabel "Accuracy" 12) ;;
  for_ (range 0 (length data))
       (λ i, d ← lift (item data i);
             l ← lift (item labels i);
             c ← lift (item (colours P) i);
             plot x_axis_ d (PlotLine x_axis_ d l c)) ;;
  draw (Legend (Some "upper right")).

Definition acc_distribution_plot (accuracies : list (list Qc))
    (labels : list string) : Plt unit :=
  assert_ (bool_decide (length accuracies = length labels)) ;;
  draw Subplots ;;
  draw CleanPlot ;;
  draw (Xlim 0 1) ;;
  draw (Ylim (-1) 25) ;;
  draw (Xlabel "Accuracy" 12) ;;
  draw (Ylabel "Participants" 12) ;;
  draw (Xticks (arange P (Q2Qc (1 # 10)) (Q2Qc (11 # 10)) (Q2Qc (2 # 10)))) ;;
  let steps := arange P 0 (Q2Qc (105 # 100)) (Q2Qc (5 # 100)) in
  for_ (arange P (Q2Qc (1 # 10)) (Q2Qc (11 # 10)) (Q2Qc (1 # 10)))
       (λ acc, draw (Axvline acc)) ;;
  let plot_data_ := plot_data steps accuracies in
  for_ (range 0 (length plot_data_))
       (λ i, pd ← lift (item plot_data_ i);
             l ← lift (item labels i);
             c ← lift (item (every_second (colours P)) i);
             plot steps (numbers pd) (PlotPoints steps (numbers pd) l c)) ;;
  draw (Legend None).

(** *** What the theorems speak of *)

(** The dashed line at height [y] over [n] epochs, lines 42-49 and 82-89. *)
Definition dashed_of (n : nat) (y : Qc) : call :=
  PlotDashed (x_axis n) (replicate n y).

End plots.

Arguments MkPlt {Colour A} drawn ended.
Arguments drawn {Colour A} p.
Arguments ended {Colour A} p.

(** *** A pyplot to run the functions on

    [np.arange] in exact arithmetic, for a positive step, the colours [cs]
    and no tick; the curves of two models over two epochs, and the
    accuracies of two approaches. *)

Definition demo_arange (start stop step : Qc) : list Qc :=
  map (λ k, start + Q2Qc (inject_Z (Z.of_nat k)) * step)
      (seq 0 (Z.to_nat (Qceiling ((stop - start) / step)))).

Definition demo_pyplot (cs : list string) : @Pyplot string :=
  {| colours := cs;
     arange := demo_arange;
     yticks_loc data := [] |}.

Definition demo_colours : list string := ["c0"; "c1"; "c2"; "c3"; "c4"; "c5"].

Definition demo_curves : list (list Qc) :=
  [[Q2Qc (5 # 10); Q2Qc (6 # 10)]; [Q2Qc (4 # 10); Q2Qc (7 # 10)]].

Definition demo_accuracies : list (list Qc) :=
  [[Q2Qc (3 # 10); Q2Qc (5 # 10); Q2Qc (9 # 10)]; [Q2Qc (2 # 10); Q2Qc (8 # 10)]].

End AxisPlot.

(** * Part II: their properties *)

(** ** Dicts and [enumerate] *)

Module PyFacts.

Lemma getitem_Some {A} (d : gmap string A) k v :
  d !! k = Some v → getitem d k = Ok v.
Proof. intros H. unfold getitem. by rewrite H. Qed.

Lemma getitem_None {A} (d : gmap string A) k :
  d !! k = None → getitem d k = Raise (KeyError k).
Proof. intros H. unfold getitem. by rewrite H. Qed.

Lemma getitem_inv {A} (d : gmap string A) k x :
  getitem d k = Ok x → d !! k = Some x.
Proof. unfold getitem. destruct (d !! k); [by intros [= ->]|done]. Qed.

Lemma enumerate_from_length {A} (l : list A) k :
  length (enumerate_from k l) = length l.
Proof. revert k. induction l; intros; simpl; auto. Qed.

Lemma enumerate_from_lookup {A} (l : list A) k i x :
  l !! i = Some x → enumerate_from k l !! i = Some (k + i, x).
Proof.
  revert k i. induction l as [|y l IH]; intros k [|i] H; simplify_eq/=.
  - by rewrite Nat.add_0_r.
  - rewrite (IH (S k) i H). f_equal. f_equal. lia.
Qed.

Lemma enumerate_from_elem {A} (l : list A) k i x :
  (i, x) ∈ enumerate_from k l → k ≤ i ∧ l !! (i - k) = Some x.
Proof.
  revert k. induction l as [|y l IH]; intros k H; simpl in H.
  - by apply elem_of_nil in H.
  - apply elem_of_cons in H as [[= -> ->]|H].
    + by rewrite Nat.sub_diag.
    + apply IH in H as [? H]. split; [lia|].
      replace (i - k) with (S (i - S k)) by lia. done.
Qed.

End PyFacts.

Import PyFacts.

(** ** Paths *)

Module OsPathFacts.

Import OsPath.

Lemma append_cons (x : ascii) (a b : string) :
  String x a +:+ b = String x (a +:+ b).
Proof. reflexivity. Qed.

Lemma append_assoc (a b c : string) : (a +:+ b) +:+ c = a +:+ b +:+ c.
Proof. induction a as [|x a IH]; [done|]. rewrite !append_cons. by f_equal. Qed.

Lemma append_nil_r (a : string) : a +:+ "" = a.
Proof. induction a as [|x a IH]; [done|]. rewrite append_cons. by f_equal. Qed.

(** Joining a component that does not start with the separator puts it
    inside the path joined so far. *)
Lemma join_step_inside (d b : string) :
  startswith_sep b = false → join_step d b = with_sep d +:+ b.
Proof.
  intros Hb. unfold join_step, with_sep. rewrite Hb.
  case_bool_decide as Hd; cbn [orb]; [by subst|].
  destruct (endswith_sep d); [done|]. by rewrite append_assoc.
Qed.

(** [os.path.join(a, b, c)] is [os.path.join(os.path.join(a, b), c)]. *)
Lemma join_two (a b c : string) : join a [b; c] = join_step (join a [b]) c.
Proof. reflexivity. Qed.

End OsPathFacts.

(** ** [process_data_raw.py] *)

Module ProcessDataRawFacts.

Import ProcessDataRaw.

Section facts.

Context {V Frames : Type}.

Local Abbreviation World := (@ProcessDataRaw.World V Frames) (only parsing).
Local Abbreviation Vars := (@ProcessDataRaw.Vars V Frames) (only parsing).
Local Abbreviation event := (@ProcessDataRaw.event V Frames) (only parsing).
Local Abbreviation Run := (@ProcessDataRaw.Run V Frames) (only parsing).

(** *** The monad *)

Lemma run_eta {A} (m : Run A) : MkRun (trace m) (outcome m) = m.
Proof. by destruct m. Qed.

Lemma bind_ok {A B} (m : Run A) (f : A → Run B) a :
  outcome m = Ok a →
  m ≫= f = MkRun (trace m ++ trace (f a)) (outcome (f a)).
Proof. intros H. unfold mbind, Run_bind, run_bind. by rewrite H. Qed.

Lemma bind_raise {A B} (m : Run A) (f : A → Run B) e :
  outcome m = Raise e → m ≫= f = MkRun (trace m) (Raise e).
Proof. intros H. unfold mbind, Run_bind, run_bind. by rewrite H. Qed.

Lemma bind_assoc {A B C} (m : Run A) (f : A → Run B) (g : B → Run C) :
  (m ≫= f) ≫= g = m ≫= (λ a, f a ≫= g).
Proof.
  unfold mbind, Run_bind, run_bind.
  destruct m as [t [a|e]]; simpl; [|done].
  destruct (f a) as [t' [b|e]]; simpl; [|done].
  by rewrite app_assoc.
Qed.

Lemma bind_cong {A B} (m : Run A) (f g : A → Run B) :
  (∀ a, outcome m = Ok a → f a = g a) → m ≫= f = m ≫= g.
Proof.
  intros H. unfold mbind, Run_bind, run_bind.
  destruct (outcome m) as [a|e] eqn:E; [|done]. by rewrite (H a).
Qed.

Lemma ret_bind {A B} (a : A) (f : A → Run B) : mret a ≫= f = f a.
Proof. unfold mbind, mret, Run_bind, Run_ret, run_bind, run_ret. simpl. apply run_eta. Qed.

Lemma lift_ok_bind {A B} (a : A) (f : A → Run B) : lift (Ok a) ≫= f = f a.
Proof. apply ret_bind. Qed.

Lemma bind_MkRun_ok {A B} t (a : A) (f : A → Run B) :
  MkRun t (Ok a) ≫= f = MkRun (t ++ trace (f a)) (outcome (f a)).
Proof. reflexivity. Qed.

Lemma trace_bind_prefix {A B} (m : Run A) (f : A → Run B) :
  ∃ t, trace (m ≫= f) = trace m ++ t.
Proof.
  unfold mbind, Run_bind, run_bind.
  destruct (outcome m); simpl; eauto. exists []. by rewrite app_nil_r.
Qed.

(** *** Loops *)

Lemma for__app {A} (xs ys : list A) (f : A → Run unit) :
  for_ (xs ++ ys) f = (for_ xs f ;; for_ ys f).
Proof.
  induction xs as [|x xs IH]; simpl.
  - unfold mbind, Run_bind, run_bind, mret, Run_ret, run_ret. simpl.
    by rewrite run_eta.
  - rewrite IH. by rewrite bind_assoc.
Qed.

(** A loop all of whose rounds return runs them all, in order. *)
Lemma for__ok {A} (xs : list A) (f : A → Run unit) (g : A → list event) :
  (∀ x, x ∈ xs → f x = MkRun (g x) (Ok tt)) →
  for_ xs f = MkRun (flat_map g xs) (Ok tt).
Proof.
  induction xs as [|x xs IH]; intros H; simpl; [done|].
  rewrite (H x) by left. rewrite IH by (intros y Hy; apply H; by right). done.
Qed.

(** A loop ends at the first round that raises, with what was done so far. *)
Lemma for__raise {A} (pre post : list A) (x : A) (f : A → Run unit)
    (g : A → list event) tx e :
  (∀ y, y ∈ pre → f y = MkRun (g y) (Ok tt)) →
  f x = MkRun tx (Raise e) →
  for_ (pre ++ x :: post) f = MkRun (flat_map g pre ++ tx) (Raise e).
Proof.
  intros Hpre Hx. rewrite for__app, (for__ok pre f g) by done.
  simpl. rewrite Hx. done.
Qed.

(** The same for a loop over [enumerate]. *)
Lemma for_enumerate_ok {A} (l : list A) (f : nat * A → Run unit)
    (g : nat → list event) k :
  (∀ i x, l !! i = Some x → f (k + i, x) = MkRun (g (k + i)) (Ok tt)) →
  for_ (enumerate_from k l) f = MkRun (flat_map g (seq k (length l))) (Ok tt).
Proof.
  revert k. induction l as [|y l IH]; intros k H; simpl; [done|].
  specialize (H 0 y eq_refl) as H0. rewrite Nat.add_0_r in H0. rewrite H0.
  rewrite (IH (S k)); [done|].
  intros i x Hi. replace (S k + i) with (k + S i) by lia. by apply H.
Qed.

Lemma for_enumerate_raise {A} (l : list A) (f : nat * A → Run unit)
    (g : nat → list event) k i0 x0 tx e :
  l !! i0 = Some x0 →
  (∀ i x, i < i0 → l !! i = Some x → f (k + i, x) = MkRun (g (k + i)) (Ok tt)) →
  f (k + i0, x0) = MkRun tx (Raise e) →
  for_ (enumerate_from k l) f = MkRun (flat_map g (seq k i0) ++ tx) (Raise e).
Proof.
  revert k i0. induction l as [|y l IH]; intros k i0 Hl H Hx; [done|].
  destruct i0 as [|i0]; simpl in *.
  - simplify_eq. rewrite Nat.add_0_r in Hx. by rewrite Hx.
  - specialize (H 0 y ltac:(lia) eq_refl) as H0.
    rewrite Nat.add_0_r in H0. rewrite H0.
    rewrite (IH (S k) i0 Hl); [by rewrite <- app_assoc| |].
    + intros i x Hi Hix. replace (S k + i) with (k + S i) by lia.
      apply H; [lia|done].
    + by replace (S k + i0) with (k + S i0) by lia.
Qed.

(** Filtering the events of a loop. *)
Lemma filter_flat_map {A} (p : event → bool) (g : A → list event) (xs : list A) :
  List.filter p (flat_map g xs) = flat_map (λ x, List.filter p (g x)) xs.
Proof.
  induction xs as [|x xs IH]; simpl; [done|]. by rewrite List.filter_app, IH.
Qed.

(** *** [main] is [startup], then [body], then the closing line *)

Lemma main_split (w : World) (cl : CommandLine) :
  main w cl
  = (v ← startup w cl;
     body w v ;;
     print ("Output written to " +:+ OsPath.join (output_path v) [participant v])).
Proof.
  unfold main, startup. cbv zeta.
  repeat (rewrite bind_assoc; apply bind_cong; intros ? _).
  rewrite ret_bind. reflexivity.
Qed.

(** *** [startup] *)

Lemma bind_outcome_inv {A B} (m : Run A) (f : A → Run B) b :
  outcome (m ≫= f) = Ok b → ∃ a, outcome m = Ok a ∧ outcome (f a) = Ok b.
Proof.
  unfold mbind, Run_bind, run_bind.
  destruct (outcome m) as [a|e]; simpl; [eauto|done].
Qed.

Lemma assert_inv (b : bool) u : outcome (assert_ b : Run unit) = Ok u → b = true.
Proof. by destruct b. Qed.

Lemma assert_true (b : bool) : b = true → (assert_ b : Run unit) = mret tt.
Proof. by intros ->. Qed.

Lemma assert_false {A} (b : bool) (k : unit → Run A) :
  b = false → assert_ b ≫= k = MkRun [] (Raise AssertionError).
Proof. by intros ->. Qed.

Lemma parse_args_ok (cl : CommandLine) ns :
  parse_args cl = Ok ns →
  cl_ProcessingMethod cl ∈ choices ∧
  ns = {| ns_ProcessingMethod := cl_ProcessingMethod cl;
          ns_ExperimentData := cl_ExperimentData cl;
          ns_output := default "." (cl_output cl);
          ns_crop := from_option PStr (PInt 64) (cl_crop cl);
          ns_lecture_video := cl_lecture_video cl |}.
Proof.
  unfold parse_args. case_bool_decide; [|done]. intros [= <-]. done.
Qed.

Lemma startup_inv (w : World) (cl : CommandLine) (v : Vars) :
  outcome (startup w cl) = Ok v → started w cl v.
Proof.
  intros H. unfold startup in H. cbv zeta in H.
  repeat (apply bind_outcome_inv in H as (? & ? & H)).
  repeat match goal with
  | H : outcome (assert_ _) = Ok _ |- _ => apply assert_inv in H
  | H : outcome (lift _) = Ok _ |- _ => simpl in H
  end.
  apply parse_args_ok in H0 as [Hm ->]. simpl in *.
  injection H as <-.
  destruct x4 as [[ej vp] pt]; simpl in *.
  unfold getitem in H21.
  destruct (method_functions x19 !! cl_ProcessingMethod cl) as [pf|] eqn:Epf;
    [injection H21 as ->|done].
  unfold makedirs in H22.
  destruct (makedirs_ok w _) eqn:Em in H22; [|done].
  repeat match goal with
  | H : _ && _ = true |- _ => apply andb_true_iff in H as [? ?]
  | H : bool_decide _ = true |- _ => apply bool_decide_eq_true in H
  end.
  unfold started, assertion_checks; simpl. naive_solver.
Qed.

Lemma startup_started (w : World) (cl : CommandLine) (v : Vars) :
  started w cl v → startup w cl = MkRun (banner v) (Ok v).
Proof.
  destruct v as [m op c lv ej vp pt ed vh pf].
  unfold started, assertion_checks.
  cbn [method output_path cropsize lecture_video exp_json video_path participant
       exp_data video_handler process_frames].
  intros (Hm & -> & -> & Hc & -> & Hi & Hchk & Hed & Hvh & Hpf & Hmk).
  destruct Hchk as ((E1 & E2) & (E3 & E4) & E5 & (E6 & E7 & E8) & (E9 & E10 & E11)).
  unfold startup, parse_args. rewrite bool_decide_eq_true_2 by done.
  cbv zeta. rewrite lift_ok_bind.
  cbn [ns_ProcessingMethod ns_ExperimentData ns_output ns_crop ns_lecture_video].
  rewrite Hc, lift_ok_bind.
  rewrite E1, E2, E3, E4, (bool_decide_eq_true_2 (c > 0)%Z) by done.
  rewrite Hi. unfold makedirs, getitem.
  rewrite !(assert_true (true && true)), !(assert_true true), !ret_bind by done.
  rewrite lift_ok_bind. cbn [fst snd].
  rewrite E6, E7, E8, E9, E10, E11, Hed, Hvh, Hmk.
  rewrite !bool_decide_eq_true_2 by done.
  rewrite !(assert_true (true && true && true)), !ret_bind by done.
  rewrite !lift_ok_bind. cbv beta. rewrite Hpf. reflexivity.
Qed.

(** [startup] returns [v] exactly when [started] holds, and has then
    performed [banner v]. *)
Lemma startup_ok_iff (w : World) (cl : CommandLine) (v : Vars) :
  outcome (startup w cl) = Ok v ↔ started w cl v.
Proof.
  split; [apply startup_inv|]. intros H. by rewrite (startup_started _ _ _ H).
Qed.

Lemma startup_trace (w : World) (cl : CommandLine) (v : Vars) :
  outcome (startup w cl) = Ok v → startup w cl = MkRun (banner v) (Ok v).
Proof. intros H. by apply startup_started, startup_inv. Qed.

(** *** [main] from [startup] and [body] *)

Lemma main_body_ok (w : World) (cl : CommandLine) (v : Vars) t :
  outcome (startup w cl) = Ok v →
  body w v = MkRun t (Ok tt) →
  main w cl = MkRun (banner v ++ t ++ [closing v]) (Ok tt).
Proof.
  intros Hs Hb. rewrite main_split, (startup_trace _ _ _ Hs), bind_MkRun_ok, Hb.
  reflexivity.
Qed.

Lemma main_body_raise (w : World) (cl : CommandLine) (v : Vars) t e :
  outcome (startup w cl) = Ok v →
  body w v = MkRun t (Raise e) →
  main w cl = MkRun (banner v ++ t) (Raise e).
Proof.
  intros Hs Hb. rewrite main_split, (startup_trace _ _ _ Hs), bind_MkRun_ok, Hb.
  reflexivity.
Qed.

Lemma main_startup_raise (w : World) (cl : CommandLine) e :
  outcome (startup w cl) = Raise e →
  main w cl = MkRun (trace (startup w cl)) (Raise e).
Proof. intros Hs. rewrite main_split. by apply bind_raise. Qed.

(** *** A trial, a level, the loop over the levels *)

Lemma trial_body_ok (w : World) (v : Vars) n i t s e sc f :
  trial_ok w v n i t s e sc f →
  trial_body w (method v) (output_path v) (participant v) (cropsize v)
             (process_frames v) n (i, t)
  = MkRun (trial_trace v n i s e f sc) (Ok tt).
Proof.
  intros (Hs & He & Hsc & Hf & Hw1 & Hw2). unfold trial_out in Hw1, Hw2.
  unfold trial_body, call, np_save, open_w. cbn [fst snd]. cbv zeta.
  rewrite (getitem_Some _ _ _ Hs), (getitem_Some _ _ _ He), (getitem_Some _ _ _ Hsc).
  rewrite !lift_ok_bind, Hf, Hw1, Hw2. reflexivity.
Qed.

Lemma level_body_ok (w : World) (v : Vars) n ts st en sc fr :
  get_trials (exp_data v) n = Ok ts →
  (∀ i t, ts !! i = Some t → trial_ok w v n i t (st i) (en i) (sc i) (fr i)) →
  level_body w (method v) (output_path v) (participant v) (cropsize v)
             (process_frames v) (exp_data v) n
  = MkRun (level_trace v n (length ts) st en fr sc) (Ok tt).
Proof.
  intros Hts Hok. unfold level_body, enumerate. rewrite Hts, lift_ok_bind.
  rewrite (for_enumerate_ok ts _
             (λ i, trial_trace v n i (st i) (en i) (fr i) (sc i)) 0); [done|].
  intros i t Hi. by apply trial_body_ok, Hok.
Qed.

Lemma level_body_raise (w : World) (v : Vars) n ts st en sc fr i0 t0 tx e :
  get_trials (exp_data v) n = Ok ts →
  ts !! i0 = Some t0 →
  (∀ i t, i < i0 → ts !! i = Some t →
          trial_ok w v n i t (st i) (en i) (sc i) (fr i)) →
  trial_body w (method v) (output_path v) (participant v) (cropsize v)
             (process_frames v) n (i0, t0) = MkRun tx (Raise e) →
  level_body w (method v) (output_path v) (participant v) (cropsize v)
             (process_frames v) (exp_data v) n
  = MkRun (level_trace v n i0 st en fr sc ++ tx) (Raise e).
Proof.
  intros Hts Ht0 Hok Hx. unfold level_body, enumerate. rewrite Hts, lift_ok_bind.
  rewrite (for_enumerate_raise ts _
             (λ i, trial_trace v n i (st i) (en i) (fr i) (sc i)) 0 i0 t0 tx e);
    [done|done| |done].
  intros i t Hlt Hi. by apply trial_body_ok, Hok.
Qed.

Lemma trial_loop_ok (w : World) (v : Vars) (T : nat → list (gmap string V))
    st en sc fr :
  (∀ n, 1 ≤ n ≤ 5 → get_trials (exp_data v) n = Ok (T n)) →
  (∀ n i t, 1 ≤ n ≤ 5 → T n !! i = Some t →
            trial_ok w v n i t (st n i) (en n i) (sc n i) (fr n i)) →
  trial_loop w v
  = MkRun (flat_map (λ n, level_trace v n (length (T n)) (st n) (en n) (fr n) (sc n))
                    (seq 1 5)) (Ok tt).
Proof.
  intros HT Hok. unfold trial_loop. apply for__ok.
  intros n Hn. apply elem_of_seq in Hn.
  apply level_body_ok; [apply HT; lia|]. intros i t Hi. apply Hok; [lia|done].
Qed.

Lemma trial_loop_raise (w : World) (v : Vars) (T : nat → list (gmap string V))
    st en sc fr n0 i0 t0 tx e :
  1 ≤ n0 ≤ 5 →
  (∀ n, 1 ≤ n ≤ n0 → get_trials (exp_data v) n = Ok (T n)) →
  (∀ n i t, 1 ≤ n ≤ n0 → (n = n0 → i < i0) → T n !! i = Some t →
            trial_ok w v n i t (st n i) (en n i) (sc n i) (fr n i)) →
  T n0 !! i0 = Some t0 →
  trial_body w (method v) (output_path v) (participant v) (cropsize v)
             (process_frames v) n0 (i0, t0) = MkRun tx (Raise e) →
  trial_loop w v
  = MkRun (flat_map (λ n, level_trace v n (length (T n)) (st n) (en n) (fr n) (sc n))
                    (seq 1 (n0 - 1))
           ++ level_trace v n0 i0 (st n0) (en n0) (fr n0) (sc n0) ++ tx) (Raise e).
Proof.
  intros Hn0 HT Hok Ht0 Hx. unfold trial_loop, range.
  replace (6 - 1) with ((n0 - 1) + S (5 - n0)) by lia.
  rewrite seq_app. cbn [seq]. replace (1 + (n0 - 1)) with n0 by lia.
  apply for__raise.
  - intros n Hn. apply elem_of_seq in Hn.
    apply level_body_ok; [apply HT; lia|].
    intros i t Hi. apply Hok; [lia|lia|done].
  - apply level_body_raise with (ts := T n0) (t0 := t0); [apply HT; lia|done| |done].
    intros i t Hlt Hi. apply Hok; [lia|done|done].
Qed.

(** *** Projections of the traces *)

Lemma filter_level_trace (p : event → bool) (v : Vars) n k st en fr sc :
  (∀ line, p (EPrint line) = false) →
  List.filter p (level_trace v n k st en fr sc)
  = flat_map (λ i, List.filter p (trial_steps v n i (st i) (en i) (fr i) (sc i)))
             (seq 0 k).
Proof.
  intros Hp. unfold level_trace. cbn [List.filter]. rewrite Hp, filter_flat_map.
  apply flat_map_ext. intros i. unfold trial_trace. cbn [List.filter].
  by rewrite Hp.
Qed.

Lemma filter_levels (p : event → bool) (v : Vars) (len : nat → nat)
    (st en sc : nat → nat → V) (fr : nat → nat → Frames) (ns : list nat) :
  (∀ line, p (EPrint line) = false) →
  List.filter p (flat_map (λ n, level_trace v n (len n) (st n) (en n) (fr n) (sc n)) ns)
  = flat_map (λ n, flat_map (λ i, List.filter p
                 (trial_steps v n i (st n i) (en n i) (fr n i) (sc n i)))
               (seq 0 (len n))) ns.
Proof.
  intros Hp. rewrite filter_flat_map. apply flat_map_ext. intros n.
  by apply filter_level_trace.
Qed.

Lemma flat_map_seq_ext {B} (f g : nat → list B) a k :
  (∀ i, a ≤ i < a + k → f i = g i) → flat_map f (seq a k) = flat_map g (seq a k).
Proof.
  revert a. induction k as [|k IH]; intros a H; simpl; [done|].
  rewrite (H a) by lia. rewrite (IH (S a)); [done|]. intros i Hi. apply H. lia.
Qed.

(** The trace of a trial-mode run that gets through all its trials. *)
Lemma main_trials_ok (w : World) (cl : CommandLine) (v : Vars)
    (T : nat → list (gmap string V)) st en sc fr :
  outcome (startup w cl) = Ok v →
  lecture_video v = false →
  (∀ n, 1 ≤ n ≤ 5 → get_trials (exp_data v) n = Ok (T n)) →
  (∀ n i t, 1 ≤ n ≤ 5 → T n !! i = Some t →
            trial_ok w v n i t (st n i) (en n i) (sc n i) (fr n i)) →
  main w cl
  = MkRun (banner v
           ++ (EPrint "Processing N-levels..."
               :: flat_map (λ n, level_trace v n (length (T n)) (st n) (en n) (fr n) (sc n))
                           (seq 1 5))
           ++ [closing v]) (Ok tt).
Proof.
  intros Hs Hlv HT Hok. apply main_body_ok; [done|].
  unfold body. rewrite Hlv. cbn [negb].
  by rewrite (trial_loop_ok w v T st en sc fr HT Hok).
Qed.

(** The events of a trial-mode run that gets through all the trials of the
    log, picked by [p], when [p] picks no console line and nothing of the
    setup. *)
Lemma filter_complete_run (p : event → bool) (v : Vars)
    (T : nat → list (gmap string V)) (st en sc : nat → nat → V)
    (fr : nat → nat → Frames) :
  (∀ line, p (EPrint line) = false) →
  p (ENewExperimentData (exp_json v)) = false →
  p (ENewVideoHandler (video_path v)) = false →
  p (EMakedirs (OsPath.join (output_path v) [participant v])) = false →
  List.filter p (banner v
    ++ (EPrint "Processing N-levels..."
        :: flat_map (λ n, level_trace v n (length (T n)) (st n) (en n) (fr n) (sc n))
                    (seq 1 5)) ++ [closing v])
  = flat_map (λ n, flat_map (λ i, List.filter p
        (trial_steps v n i (st n i) (en n i) (fr n i) (sc n i)))
      (seq 0 (length (T n)))) (seq 1 5).
Proof.
  intros Hp H1 H2 H3. rewrite !List.filter_app. unfold banner, closing.
  cbn [List.filter]. rewrite !Hp, H1, H2, H3. cbn [app].
  rewrite (filter_levels p v (λ n, length (T n))) by done.
  by rewrite app_nil_r.
Qed.

(** The trace of a trial-mode run whose trial [i0] of level [n0] raises. *)
Lemma main_trials_raise (w : World) (cl : CommandLine) (v : Vars)
    (T : nat → list (gmap string V)) st en sc fr n0 i0 t0 tx e :
  outcome (startup w cl) = Ok v →
  lecture_video v = false →
  1 ≤ n0 ≤ 5 →
  (∀ n, 1 ≤ n ≤ n0 → get_trials (exp_data v) n = Ok (T n)) →
  (∀ n i t, 1 ≤ n ≤ n0 → (n = n0 → i < i0) → T n !! i = Some t →
            trial_ok w v n i t (st n i) (en n i) (sc n i) (fr n i)) →
  T n0 !! i0 = Some t0 →
  trial_body w (method v) (output_path v) (participant v) (cropsize v)
             (process_frames v) n0 (i0, t0) = MkRun tx (Raise e) →
  main w cl
  = MkRun (banner v
           ++ EPrint "Processing N-levels..."
              :: flat_map (λ n, level_trace v n (length (T n)) (st n) (en n) (fr n) (sc n))
                          (seq 1 (n0 - 1))
              ++ level_trace v n0 i0 (st n0) (en n0) (fr n0) (sc n0) ++ tx) (Raise e).
Proof.
  intros Hs Hlv Hn0 HT Hok Ht0 Hx. apply main_body_raise; [done|].
  unfold body. rewrite Hlv. cbn [negb].
  by rewrite (trial_loop_raise w v T st en sc fr n0 i0 t0 tx e Hn0 HT Hok Ht0 Hx).
Qed.

(** A trial that raises has written no label: [json.dump] is its last step. *)
Lemma trial_body_raise_no_label (w : World) (v : Vars) n it e :
  outcome (trial_body w (method v) (output_path v) (participant v) (cropsize v)
                      (process_frames v) n it) = Raise e →
  labels (trace (trial_body w (method v) (output_path v) (participant v)
                            (cropsize v) (process_frames v) n it)) = [].
Proof.
  unfold trial_body, call, np_save, open_w, getitem. cbv zeta.
  destruct (it.2 !! "start") as [s|]; [|intros _; reflexivity].
  destruct (it.2 !! "end") as [en|]; [|intros _; reflexivity].
  rewrite !lift_ok_bind.
  destruct (process_frames v s en (cropsize v)) as [f|]; [|intros _; reflexivity].
  destruct (writable w (_ +:+ ".npy")); [|intros _; reflexivity].
  destruct (writable w (_ +:+ ".json")); [|intros _; reflexivity].
  destruct (it.2 !! "score") as [sc|]; [intros H; discriminate H|intros _; reflexivity].
Qed.

(** *** Where the artifacts go *)

Lemma trial_name_no_sep (n i : nat) (m : string) :
  1 ≤ n ≤ 5 →
  OsPath.startswith_sep (pretty n +:+ "-" +:+ pretty i +:+ "-" +:+ m) = false.
Proof.
  intros Hn.
  assert (n = 1 ∨ n = 2 ∨ n = 3 ∨ n = 4 ∨ n = 5) as Hc by lia.
  destruct Hc as [->|[->|[->|[->| ->]]]]; reflexivity.
Qed.

Lemma lecture_name_no_sep (m : string) :
  m ∈ choices → OsPath.startswith_sep (m +:+ "_lecture_video") = false.
Proof.
  unfold choices. rewrite !elem_of_cons, elem_of_nil.
  intros [->|[->|[->|[]]]]; reflexivity.
Qed.

Lemma trial_out_inside (v : Vars) (n i : nat) :
  1 ≤ n ≤ 5 →
  trial_out v n i
  = OsPath.with_sep (participant_dir v)
    +:+ pretty n +:+ "-" +:+ pretty i +:+ "-" +:+ method v.
Proof.
  intros Hn. unfold trial_out, participant_dir.
  rewrite OsPathFacts.join_two.
  by apply OsPathFacts.join_step_inside, trial_name_no_sep.
Qed.

Lemma lecture_out_inside (v : Vars) :
  method v ∈ choices →
  lecture_out v
  = OsPath.with_sep (participant_dir v) +:+ method v +:+ "_lecture_video".
Proof.
  intros Hm. unfold lecture_out, participant_dir.
  rewrite OsPathFacts.join_two.
  by apply OsPathFacts.join_step_inside, lecture_name_no_sep.
Qed.

(** The names of the 25 trials are pairwise different, whatever follows. *)
Lemma trial_name_inj (n i n' i' : nat) (r r' : string) :
  1 ≤ n ≤ 5 → i < 5 → 1 ≤ n' ≤ 5 → i' < 5 →
  pretty n +:+ "-" +:+ pretty i +:+ "-" +:+ r
  = pretty n' +:+ "-" +:+ pretty i' +:+ "-" +:+ r' →
  n = n' ∧ i = i' ∧ r = r'.
Proof.
  intros Hn Hi Hn' Hi'.
  assert (n = 1 ∨ n = 2 ∨ n = 3 ∨ n = 4 ∨ n = 5) as Hc by lia.
  assert (n' = 1 ∨ n' = 2 ∨ n' = 3 ∨ n' = 4 ∨ n' = 5) as Hc' by lia.
  assert (i = 0 ∨ i = 1 ∨ i = 2 ∨ i = 3 ∨ i = 4) as Hd by lia.
  assert (i' = 0 ∨ i' = 1 ∨ i' = 2 ∨ i' = 3 ∨ i' = 4) as Hd' by lia.
  clear Hn Hi Hn' Hi'.
  destruct Hc as [->|[->|[->|[->| ->]]]];
    destruct Hc' as [->|[->|[->|[->| ->]]]];
    (intros H; vm_compute in H; injection H as H; try discriminate H);
    destruct Hd as [->|[->|[->|[->| ->]]]];
    destruct Hd' as [->|[->|[->|[->| ->]]]];
    vm_compute in H; injection H as H; try discriminate H; done.
Qed.

Lemma trial_keys_bounds (k : nat * nat * string) :
  k ∈ trial_keys → 1 ≤ k.1.1 ≤ 5 ∧ k.1.2 < 5 ∧ (k.2 = ".npy" ∨ k.2 = ".json").
Proof.
  intros H. apply list_elem_of_In in H. unfold trial_keys in H.
  apply in_flat_map in H as (n & Hn & H). apply in_flat_map in H as (i & Hi & H).
  apply in_seq in Hn, Hi. simpl in H.
  destruct H as [<-|[<-|[]]]; simpl; (split; [lia|split; [lia|auto]]).
Qed.

Lemma trial_paths_NoDup (v : Vars) :
  NoDup ((λ k, trial_out v k.1.1 k.1.2 +:+ k.2) <$> trial_keys).
Proof.
  apply NoDup_fmap_2_strong; [|apply (bool_decide_unpack _); vm_compute; exact I].
  intros [[n i] x] [[n' i'] x'] Hk Hk' Heq.
  apply trial_keys_bounds in Hk as (Hn & Hi & Hx), Hk' as (Hn' & Hi' & Hx').
  simpl in *. rewrite !trial_out_inside in Heq by done.
  rewrite !OsPathFacts.append_assoc in Heq. apply (inj _) in Heq.
  apply trial_name_inj in Heq as (-> & -> & Heq); [|done..].
  apply (inj _) in Heq. by subst.
Qed.

(** *** Trial mode: the theorems *)

(** C2. A session with 25 valid trials, 5 per level (their dicts have the
    keys, the processing function returns on their windows, their files can
    be written): the trial-mode run returns, and the artifacts it has
    written are, level by level and trial by trial, the tensor and the label
    of each trial, 25 tensors and 25 labels on 50 different paths; the label
    of trial [i] of level [n] is the dict with exactly the fields ["n"],
    which is [n], and ["score"], which is the trial's score. *)
Theorem trial_mode_writes_25_pairs (w : World) (cl : CommandLine) (v : Vars)
    (T : nat → list (gmap string V)) (st en sc : nat → nat → V)
    (fr : nat → nat → Frames) :
  outcome (startup w cl) = Ok v →
  lecture_video v = false →
  (∀ n, 1 ≤ n ≤ 5 → get_trials (exp_data v) n = Ok (T n) ∧ length (T n) = 5) →
  (∀ n i t, 1 ≤ n ≤ 5 → T n !! i = Some t →
            trial_ok w v n i t (st n i) (en n i) (sc n i) (fr n i)) →
  outcome (main w cl) = Ok tt ∧
  artifacts (trace (main w cl))
  = flat_map (λ n, flat_map (λ i,
      [ENpSave (trial_out v n i +:+ ".npy") (fr n i);
       EJsonDump (trial_out v n i +:+ ".json")
                 [("n", JInt (Z.of_nat n)); ("score", JVal (sc n i))]])
      (seq 0 5)) (seq 1 5) ∧
  length (tensors (trace (main w cl))) = 25 ∧
  length (labels (trace (main w cl))) = 25 ∧
  NoDup (omap event_path (artifacts (trace (main w cl)))).
Proof.
  intros Hs Hlv HT Hok.
  rewrite (main_trials_ok w cl v T st en sc fr Hs Hlv (λ n Hn, proj1 (HT n Hn)) Hok).
  cbn [outcome trace].
  assert (∀ p, (∀ line, p (EPrint line) = false) →
    p (ENewExperimentData (exp_json v)) = false →
    p (ENewVideoHandler (video_path v)) = false →
    p (EMakedirs (OsPath.join (output_path v) [participant v])) = false →
    List.filter p (banner v
      ++ (EPrint "Processing N-levels..."
          :: flat_map (λ n, level_trace v n (length (T n)) (st n) (en n) (fr n) (sc n))
                      (seq 1 5)) ++ [closing v])
    = flat_map (λ n, flat_map (λ i, List.filter p
          (trial_steps v n i (st n i) (en n i) (fr n i) (sc n i))) (seq 0 5))
        (seq 1 5)) as Hfilter.
  { intros p Hp H1 H2 H3. rewrite !List.filter_app. unfold banner, closing.
    cbn [List.filter]. rewrite !Hp, H1, H2, H3. cbn [app].
    rewrite (filter_levels p v (λ n, length (T n))) by done.
    rewrite app_nil_r. apply flat_map_seq_ext. intros n Hn.
    by rewrite (proj2 (HT n ltac:(lia))). }
  split; [done|]. unfold artifacts, tensors, labels.
  rewrite !Hfilter by done. split; [reflexivity|].
  split; [reflexivity|]. split; [reflexivity|].
  apply (trial_paths_NoDup v).
Qed.

(** C6. In a trial-mode run that gets through its 25 trials, the steps after
    the setup are those of the trials in the order level 1..5 and, within a
    level, index 0..4; the steps of a trial (the call of the processing
    function, which extracts the frames and the features, then [np.save],
    [open] and [json.dump]) stand together, before those of the next trial. *)
Theorem trials_processed_in_order (w : World) (cl : CommandLine) (v : Vars)
    (T : nat → list (gmap string V)) (st en sc : nat → nat → V)
    (fr : nat → nat → Frames) :
  outcome (startup w cl) = Ok v →
  lecture_video v = false →
  (∀ n, 1 ≤ n ≤ 5 → get_trials (exp_data v) n = Ok (T n) ∧ length (T n) = 5) →
  (∀ n i t, 1 ≤ n ≤ 5 → T n !! i = Some t →
            trial_ok w v n i t (st n i) (en n i) (sc n i) (fr n i)) →
  steps (trace (main w cl))
  = steps (banner v)
    ++ flat_map (λ n, flat_map (λ i,
         [EProcessFrames (st n i) (en n i) (cropsize v);
          ENpSave (trial_out v n i +:+ ".npy") (fr n i);
          EOpenW (trial_out v n i +:+ ".json");
          EJsonDump (trial_out v n i +:+ ".json")
                    [("n", JInt (Z.of_nat n)); ("score", JVal (sc n i))]])
         (seq 0 5)) (seq 1 5).
Proof.
  intros Hs Hlv HT Hok.
  rewrite (main_trials_ok w cl v T st en sc fr Hs Hlv (λ n Hn, proj1 (HT n Hn)) Hok).
  cbn [trace]. unfold steps. rewrite !List.filter_app. f_equal.
  unfold closing. cbn [List.filter is_step]. rewrite app_nil_r.
  rewrite (filter_levels is_step v (λ n, length (T n))) by done.
  apply flat_map_seq_ext. intros n Hn.
  by rewrite (proj2 (HT n ltac:(lia))).
Qed.

(** C1, amended. In trial mode an error raised while a trial is processed is
    not caught: the run ends with that error. The trials before it (those of
    the levels below [n0] and the trials of level [n0] below [i0]) have
    written their tensor and label, the failing trial has written no label,
    and nothing is written for any later trial. *)
Theorem trial_error_ends_run (w : World) (cl : CommandLine) (v : Vars)
    (T : nat → list (gmap string V)) (st en sc : nat → nat → V)
    (fr : nat → nat → Frames) (n0 i0 : nat) (t0 : gmap string V) (e : exn) :
  outcome (startup w cl) = Ok v →
  lecture_video v = false →
  1 ≤ n0 ≤ 5 →
  (∀ n, 1 ≤ n ≤ n0 → get_trials (exp_data v) n = Ok (T n)) →
  (∀ n i t, 1 ≤ n ≤ n0 → (n = n0 → i < i0) → T n !! i = Some t →
            trial_ok w v n i t (st n i) (en n i) (sc n i) (fr n i)) →
  T n0 !! i0 = Some t0 →
  outcome (trial_body w (method v) (output_path v) (participant v) (cropsize v)
                      (process_frames v) n0 (i0, t0)) = Raise e →
  outcome (main w cl) = Raise e ∧
  artifacts (trace (main w cl))
  = flat_map (λ n, flat_map (λ i, trial_artifacts v n i (fr n i) (sc n i))
                            (seq 0 (length (T n)))) (seq 1 (n0 - 1))
    ++ flat_map (λ i, trial_artifacts v n0 i (fr n0 i) (sc n0 i)) (seq 0 i0)
    ++ tensors (trace (trial_body w (method v) (output_path v) (participant v)
                         (cropsize v) (process_frames v) n0 (i0, t0))).
Proof.
  intros Hs Hlv Hn0 HT Hok Ht0 Hx.
  pose proof (trial_body_raise_no_label w v n0 (i0, t0) e Hx) as Hlab.
  destruct (trial_body w (method v) (output_path v) (participant v) (cropsize v)
              (process_frames v) n0 (i0, t0)) as [tx r] eqn:Eb.
  simpl in Hx, Hlab. subst r.
  rewrite (main_trials_raise w cl v T st en sc fr n0 i0 t0 tx e Hs Hlv Hn0 HT Hok Ht0 Eb).
  split; [done|]. cbn [trace]. unfold artifacts.
  rewrite List.filter_app. change (List.filter is_artifact (banner v)) with (@nil event).
  cbn [app List.filter is_artifact]. rewrite !List.filter_app.
  rewrite (filter_levels is_artifact v (λ n, length (T n))) by done.
  rewrite filter_level_trace by done.
  f_equal. f_equal.
  clear -Hlab. induction tx as [|x tx IH]; [done|].
  unfold labels in Hlab. simpl in *.
  destruct x; simpl in *; try (by apply IH); [by rewrite IH|done].
Qed.

(** *** Validation *)

Lemma checks_spec (w : World) exp_data_path output_path c ej vp :
  first_checks w exp_data_path output_path c && file_checks w ej vp = true
  ↔ assertion_checks w exp_data_path output_path c ej vp.
Proof.
  unfold first_checks, file_checks, assertion_checks.
  rewrite !andb_true_iff, !bool_decide_eq_true. tauto.
Qed.

(** [startup] stops at the first thing that fails, before its first event. *)
Lemma startup_validation (w : World) (cl : CommandLine) :
  match parse_args cl with
  | Raise e => startup w cl = MkRun [] (Raise e)
  | Ok ns =>
    match int_ w (ns_crop ns) with
    | Raise e => startup w cl = MkRun [] (Raise e)
    | Ok c =>
      if first_checks w (abspath w (ns_ExperimentData ns)) (abspath w (ns_output ns)) c
      then match getExperimentInfo w (abspath w (ns_ExperimentData ns)) with
           | Raise e => startup w cl = MkRun [] (Raise e)
           | Ok info =>
             if file_checks w info.1.1 info.1.2 then True
             else startup w cl = MkRun [] (Raise AssertionError)
           end
      else startup w cl = MkRun [] (Raise AssertionError)
    end
  end.
Proof.
  unfold startup, first_checks, file_checks. cbv zeta.
  destruct (parse_args cl) as [ns|e]; [|reflexivity]. rewrite lift_ok_bind.
  destruct (int_ w (ns_crop ns)) as [c|e]; [|reflexivity]. rewrite lift_ok_bind.
  destruct (path_exists w (abspath w (ns_ExperimentData ns))
            && isdir w (abspath w (ns_ExperimentData ns))); [|reflexivity].
  destruct (path_exists w (abspath w (ns_output ns))
            && isdir w (abspath w (ns_output ns))); [|reflexivity].
  destruct (bool_decide (c > 0)%Z); [|reflexivity]. cbn [andb].
  rewrite !(assert_true true), !ret_bind by done.
  destruct (getExperimentInfo w _) as [info|e]; [|reflexivity].
  rewrite lift_ok_bind.
  destruct (path_exists w info.1.2 && isfile w info.1.2
            && bool_decide ((splitext w info.1.2).2 = ".mp4")); [|reflexivity].
  destruct (path_exists w info.1.1 && isfile w info.1.1
            && bool_decide ((splitext w info.1.1).2 = ".json")); [|reflexivity].
  exact I.
Qed.

Lemma startup_validated_or_nothing (w : World) (cl : CommandLine) :
  validated w cl ∨ ∃ e, startup w cl = MkRun [] (Raise e).
Proof.
  pose proof (startup_validation w cl) as H.
  destruct (parse_args cl) as [ns|e] eqn:Ep; [|eauto].
  apply parse_args_ok in Ep as [Hm ->]. simpl in H.
  destruct (int_ w _) as [c|e] eqn:Ec; [|eauto].
  destruct (first_checks w _ _ c) eqn:E1; [|eauto].
  destruct (getExperimentInfo w _) as [[[ej vp] pt]|e] eqn:Ei; [|eauto].
  simpl in H. destruct (file_checks w ej vp) eqn:E2; [|eauto].
  left. exists c, ej, vp, pt. split_and!; [done..|].
  apply checks_spec. by rewrite E1, E2.
Qed.

Lemma failed_check_raises (w : World) (cl : CommandLine) c ej vp pt :
  cl_ProcessingMethod cl ∈ choices →
  int_ w (from_option PStr (PInt 64) (cl_crop cl)) = Ok c →
  getExperimentInfo w (abspath w (cl_ExperimentData cl)) = Ok (ej, vp, pt) →
  ¬ assertion_checks w (abspath w (cl_ExperimentData cl))
      (abspath w (default "." (cl_output cl))) c ej vp →
  startup w cl = MkRun [] (Raise AssertionError).
Proof.
  intros Hm Hc Hi Hn. pose proof (startup_validation w cl) as H.
  unfold parse_args in H. rewrite bool_decide_eq_true_2 in H by done.
  simpl in H. rewrite Hc, Hi in H. simpl in H.
  destruct (first_checks w _ _ c) eqn:E1; [|done].
  destruct (file_checks w ej vp) eqn:E2; [|done].
  destruct Hn. apply checks_spec. by rewrite E1, E2.
Qed.

(** C10. Nothing happens before the validation: either the run has found
    the experiment-data path and the output path to be existing
    directories, the crop size positive, and the video and the log of the
    experiment directory to be existing files with the extensions [.mp4]
    and [.json]; or it has ended with an exception and an empty trace (no
    line printed, no processing object created, no directory made, no frame
    extracted, no artifact written). A violated assertion ends it so with
    an [AssertionError]. *)
Theorem validation_precedes_processing (w : World) (cl : CommandLine) :
  (validated w cl ∨ ∃ e, main w cl = MkRun [] (Raise e)) ∧
  (∀ c ej vp pt,
     cl_ProcessingMethod cl ∈ choices →
     int_ w (from_option PStr (PInt 64) (cl_crop cl)) = Ok c →
     getExperimentInfo w (abspath w (cl_ExperimentData cl)) = Ok (ej, vp, pt) →
     ¬ assertion_checks w (abspath w (cl_ExperimentData cl))
         (abspath w (default "." (cl_output cl))) c ej vp →
     main w cl = MkRun [] (Raise AssertionError)).
Proof.
  split.
  - destruct (startup_validated_or_nothing w cl) as [?|[e He]]; [by left|].
    right. exists e. rewrite (main_startup_raise w cl e); by rewrite He.
  - intros c ej vp pt Hm Hc Hi Hn.
    pose proof (failed_check_raises w cl c ej vp pt Hm Hc Hi Hn) as He.
    rewrite (main_startup_raise w cl AssertionError); by rewrite He.
Qed.

(** *** Invariants of the events of a run *)

Lemma trace_bind_Forall {A B} (P : event → Prop) (m : Run A) (f : A → Run B) :
  Forall P (trace m) →
  (∀ a, outcome m = Ok a → Forall P (trace (f a))) →
  Forall P (trace (m ≫= f)).
Proof.
  intros Hm Hf. unfold mbind, Run_bind, run_bind.
  destruct (outcome m) as [a|e] eqn:E; simpl; [|done].
  apply Forall_app. split; [done|]. by apply Hf.
Qed.

Lemma trace_for_Forall {A} (P : event → Prop) (xs : list A) (f : A → Run unit) :
  (∀ x, x ∈ xs → Forall P (trace (f x))) → Forall P (trace (for_ xs f)).
Proof.
  induction xs as [|x xs IH]; intros H; simpl; [constructor|].
  apply trace_bind_Forall; [apply H; left|].
  intros _ _. apply IH. intros y Hy. apply H. by right.
Qed.

Lemma trace_lift_Forall {A} (P : event → Prop) (r : result A) :
  Forall P (trace (lift r)).
Proof. constructor. Qed.

Lemma trace_assert_Forall (P : event → Prop) (b : bool) :
  Forall P (trace (assert_ b)).
Proof. destruct b; constructor. Qed.

Lemma trace_emit_Forall (P : event → Prop) (e : event) :
  P e → Forall P (trace (emit e)).
Proof. intros H. by repeat constructor. Qed.

Lemma trace_print_Forall (P : event → Prop) (line : string) :
  P (EPrint line) → Forall P (trace (print line)).
Proof. apply trace_emit_Forall. Qed.

Lemma trace_ret_Forall {A} (P : event → Prop) (a : A) :
  Forall P (trace (mret a)).
Proof. constructor. Qed.

Lemma trace_makedirs_Forall (P : event → Prop) (w : World) (p : string) :
  P (EMakedirs p) → Forall P (trace (makedirs w p)).
Proof. intros H. unfold makedirs. destruct (makedirs_ok w p); by repeat constructor. Qed.

(** [startup] writes no artifact. *)
Lemma startup_no_artifact (w : World) (cl : CommandLine) :
  Forall (λ ev, is_artifact ev = false) (trace (startup w cl)).
Proof.
  unfold startup. cbv zeta.
  repeat first
    [ apply trace_lift_Forall | apply trace_assert_Forall
    | apply trace_print_Forall; reflexivity
    | apply trace_emit_Forall; reflexivity
    | apply trace_bind_Forall; [|intros ? _]
    | apply trace_makedirs_Forall; reflexivity
    | apply trace_ret_Forall ].
Qed.

Lemma filter_none (p : event → bool) (tr : list event) :
  Forall (λ ev, p ev = false) tr → List.filter p tr = [].
Proof.
  induction 1 as [|x tr Hx _ IH]; simpl; [done|]. by rewrite Hx.
Qed.

Lemma no_artifact_projections (tr : list event) :
  Forall (λ ev, is_artifact ev = false) tr →
  artifacts tr = [] ∧ tensors tr = [] ∧ labels tr = [].
Proof.
  intros H. split_and!; apply filter_none; (eapply List.Forall_impl; [|exact H]);
    intros [] ?; simpl in *; congruence.
Qed.

(** *** Lecture mode *)

Lemma lecture_body_spec (w : World) (v : Vars) :
  match get_video_lecture_timestamps (exp_data v) with
  | Raise e =>
      lecture_body w (method v) (output_path v) (participant v) (cropsize v)
                   (process_frames v) (exp_data v)
      = MkRun [lecture_line] (Raise e)
  | Ok se =>
    match process_frames v se.1 se.2 (cropsize v) with
    | Raise e =>
        lecture_body w (method v) (output_path v) (participant v) (cropsize v)
                     (process_frames v) (exp_data v)
        = MkRun [lecture_line; EProcessFrames se.1 se.2 (cropsize v)] (Raise e)
    | Ok f =>
        lecture_body w (method v) (output_path v) (participant v) (cropsize v)
                     (process_frames v) (exp_data v)
        = if writable w (lecture_out v +:+ ".npy")
          then MkRun [lecture_line; EProcessFrames se.1 se.2 (cropsize v);
                      ENpSave (lecture_out v +:+ ".npy") f] (Ok tt)
          else MkRun [lecture_line; EProcessFrames se.1 se.2 (cropsize v)]
                     (Raise (OSError (lecture_out v +:+ ".npy")))
    end
  end.
Proof.
  unfold lecture_body, call, np_save, lecture_out. cbv zeta.
  destruct (get_video_lecture_timestamps (exp_data v)) as [se|e]; [|reflexivity].
  rewrite lift_ok_bind.
  destruct (process_frames v se.1 se.2 (cropsize v)) as [f|e]; [|reflexivity].
  destruct (writable w _); reflexivity.
Qed.

(** C4. A lecture-video run, whatever the processing method: no label is
    ever written and never more than one tensor; a run that returns has
    written exactly one artifact, the tensor of the lecture segment; and the
    run returns once it has started, the lecture window is there, the
    processing function returns on it and the file can be written. *)
Theorem lecture_mode_writes_one_tensor (w : World) (cl : CommandLine) :
  cl_lecture_video cl = true →
  labels (trace (main w cl)) = [] ∧
  length (tensors (trace (main w cl))) ≤ 1 ∧
  (outcome (main w cl) = Ok tt →
     ∃ v f, outcome (startup w cl) = Ok v ∧
            artifacts (trace (main w cl)) = [ENpSave (lecture_out v +:+ ".npy") f]) ∧
  (∀ v s e f,
     outcome (startup w cl) = Ok v →
     get_video_lecture_timestamps (exp_data v) = Ok (s, e) →
     process_frames v s e (cropsize v) = Ok f →
     writable w (lecture_out v +:+ ".npy") = true →
     outcome (main w cl) = Ok tt ∧
     artifacts (trace (main w cl)) = [ENpSave (lecture_out v +:+ ".npy") f]).
Proof.
  intros Hflag.
  destruct (outcome (startup w cl)) as [v|e0] eqn:Hs.
  - assert (lecture_video v = true) as Hlv.
    { apply startup_inv in Hs as (_ & _ & _ & _ & Hlv & _). congruence. }
    assert (body w v = lecture_body w (method v) (output_path v) (participant v)
                         (cropsize v) (process_frames v) (exp_data v)) as Hb.
    { unfold body. by rewrite Hlv. }
    pose proof (lecture_body_spec w v) as Hl. rewrite <- Hb in Hl.
    destruct (get_video_lecture_timestamps (exp_data v)) as [[s e]|e1] eqn:Ht.
    + cbn [fst snd] in Hl.
      destruct (process_frames v s e (cropsize v)) as [f|e2] eqn:Hf.
      * destruct (writable w (lecture_out v +:+ ".npy")) eqn:Hw.
        -- rewrite (main_body_ok w cl v _ Hs Hl). split_and!.
           ++ reflexivity.
           ++ simpl. lia.
           ++ intros _. by exists v, f.
           ++ intros v' s' e' f' Hv Ht' Hf' _. injection Hv as <-.
              rewrite Ht in Ht'. injection Ht' as <- <-.
              rewrite Hf in Hf'. by injection Hf' as <-.
        -- rewrite (main_body_raise w cl v _ _ Hs Hl). split_and!.
           ++ reflexivity.
           ++ simpl. lia.
           ++ intros [=].
           ++ intros v' s' e' f' Hv _ _ Hw'. injection Hv as <-. congruence.
      * rewrite (main_body_raise w cl v _ _ Hs Hl). split_and!.
        -- reflexivity.
        -- simpl. lia.
        -- intros [=].
        -- intros v' s' e' f' Hv Ht' Hf' _. injection Hv as <-.
           rewrite Ht in Ht'. injection Ht' as <- <-. congruence.
    + rewrite (main_body_raise w cl v _ _ Hs Hl). split_and!.
      * reflexivity.
      * simpl. lia.
      * intros [=].
      * intros v' s' e' f' Hv Ht' _ _. injection Hv as <-. congruence.
  - rewrite (main_startup_raise w cl e0 Hs).
    destruct (no_artifact_projections _ (startup_no_artifact w cl)) as (_ & Ht & Hl).
    cbn [trace outcome]. rewrite Ht, Hl. split_and!; [done|simpl; lia|intros [=]|].
    intros v s e f [=].
Qed.

(** *** Where every artifact is placed *)

Lemma trace_np_save_Forall (P : event → Prop) (w : World) p f :
  P (ENpSave p f) → Forall P (trace (np_save w p f)).
Proof. intros H. unfold np_save. destruct (writable w p); by repeat constructor. Qed.

Lemma trace_open_w_Forall (P : event → Prop) (w : World) p :
  P (EOpenW p) → Forall P (trace (open_w w p)).
Proof. intros H. unfold open_w. destruct (writable w p); by repeat constructor. Qed.

Lemma trace_call_Forall (P : event → Prop) pf (s e : V) c :
  P (EProcessFrames s e c) → Forall P (trace (call pf s e c)).
Proof.
  intros H. unfold call. apply trace_bind_Forall; [by apply trace_emit_Forall|].
  intros _ _. apply trace_lift_Forall.
Qed.

Lemma call_inv (pf : V → V → Z → result Frames) (s e : V) (c : Z) (f : Frames) :
  outcome (call pf s e c) = Ok f → pf s e c = Ok f.
Proof. unfold call. cbn. done. Qed.

Lemma trial_body_placed (w : World) (cl : CommandLine) (v : Vars) n i trials trial :
  started w cl v → lecture_video v = false → 1 ≤ n ≤ 5 →
  get_trials (exp_data v) n = Ok trials → trials !! i = Some trial →
  Forall (λ ev, is_artifact ev = true → placed w cl ev)
    (trace (trial_body w (method v) (output_path v) (participant v) (cropsize v)
                       (process_frames v) n (i, trial))).
Proof.
  intros Hst Hlv Hn Hts Hi. unfold trial_body, json_dump. cbv zeta. cbn [fst snd].
  assert (∀ ev, trial_artifact v n i trial ev → placed w cl ev) as Hpl.
  { intros ev Hev. exists v. split; [done|]. rewrite Hlv.
    exists n, i, trials, trial. split_and!; [lia|lia|done|done|done|].
    by apply trial_out_inside. }
  apply trace_bind_Forall; [apply trace_print_Forall; intros [=]|]. intros _ _.
  apply trace_bind_Forall; [apply trace_lift_Forall|]. intros start Hs.
  apply trace_bind_Forall; [apply trace_lift_Forall|]. intros end_ He.
  apply trace_bind_Forall; [apply trace_call_Forall; intros [=]|]. intros frames Hf.
  apply getitem_inv in Hs, He. apply call_inv in Hf.
  apply trace_bind_Forall.
  { apply trace_np_save_Forall. intros _. apply Hpl. left.
    by exists start, end_, frames. }
  intros _ _.
  apply trace_bind_Forall; [apply trace_open_w_Forall; intros [=]|]. intros _ _.
  apply trace_bind_Forall; [apply trace_lift_Forall|]. intros score Hsc.
  apply getitem_inv in Hsc.
  apply trace_emit_Forall. intros _. apply Hpl. right. by exists score.
Qed.

Lemma body_placed (w : World) (cl : CommandLine) (v : Vars) :
  started w cl v →
  Forall (λ ev, is_artifact ev = true → placed w cl ev) (trace (body w v)).
Proof.
  intros Hst. unfold body. destruct (lecture_video v) eqn:Hlv; cbn [negb].
  - unfold lecture_body. cbv zeta.
    apply trace_bind_Forall; [apply trace_print_Forall; intros [=]|]. intros _ _.
    apply trace_bind_Forall; [apply trace_lift_Forall|]. intros [start end_] Hse.
    apply trace_bind_Forall; [apply trace_call_Forall; intros [=]|]. intros frames Hf.
    apply call_inv in Hf. cbn [fst snd] in *.
    apply trace_np_save_Forall. intros _.
    exists v. split; [done|]. rewrite Hlv. split.
    + by exists start, end_, frames.
    + apply lecture_out_inside. destruct Hst as (Hm & -> & _). done.
  - apply trace_bind_Forall; [apply trace_print_Forall; intros [=]|].
    intros _ _. unfold trial_loop. apply trace_for_Forall.
    intros n Hn. apply elem_of_seq in Hn. unfold level_body.
    apply trace_bind_Forall; [apply trace_print_Forall; intros [=]|].
    intros _ _. apply trace_bind_Forall; [apply trace_lift_Forall|].
    intros ts Hts. apply trace_for_Forall.
    intros [i trial] Hit. apply enumerate_from_elem in Hit as [_ Hit].
    rewrite Nat.sub_0_r in Hit.
    by apply (trial_body_placed w cl v n i ts trial); [| |lia| |].
Qed.


(** *** The command line *)

Lemma trial_loop_calls (w : World) (v : Vars) :
  Forall (λ ev, is_call ev = true → trial_call v ev) (trace (trial_loop w v)).
Proof.
  unfold trial_loop. apply trace_for_Forall.
  intros n Hn. apply elem_of_seq in Hn. unfold level_body.
  apply trace_bind_Forall; [apply trace_print_Forall; intros [=]|].
  intros _ _. apply trace_bind_Forall; [apply trace_lift_Forall|].
  intros ts Hts. apply trace_for_Forall.
  intros [i trial] Hit. apply enumerate_from_elem in Hit as [_ Hit].
  rewrite Nat.sub_0_r in Hit.
  unfold trial_body, json_dump. cbv zeta. cbn [fst snd].
  apply trace_bind_Forall; [apply trace_print_Forall; intros [=]|]. intros _ _.
  apply trace_bind_Forall; [apply trace_lift_Forall|]. intros start Hs.
  apply trace_bind_Forall; [apply trace_lift_Forall|]. intros end_ He.
  apply getitem_inv in Hs, He.
  apply trace_bind_Forall.
  { apply trace_call_Forall. intros _.
    exists n, i, ts, trial, start, end_. split_and!; [lia|lia|done..]. }
  intros frames _.
  apply trace_bind_Forall; [apply trace_np_save_Forall; intros [=]|]. intros _ _.
  apply trace_bind_Forall; [apply trace_open_w_Forall; intros [=]|]. intros _ _.
  apply trace_bind_Forall; [apply trace_lift_Forall|]. intros score _.
  apply trace_emit_Forall. intros [=].
Qed.

Lemma calls_banner (v : Vars) (t : list event) :
  calls (banner v ++ t) = calls t.
Proof. reflexivity. Qed.

Lemma calls_main (w : World) (cl : CommandLine) (v : Vars) :
  outcome (startup w cl) = Ok v →
  calls (trace (main w cl)) = calls (trace (body w v)).
Proof.
  intros Hs. rewrite main_split, (startup_trace _ _ _ Hs), bind_MkRun_ok.
  cbn [trace]. rewrite calls_banner.
  unfold mbind, Run_bind, run_bind. destruct (outcome (body w v)); cbn [trace]; [|done].
  unfold calls. rewrite List.filter_app. cbn. by rewrite app_nil_r.
Qed.

(** C7. The command line: a processing method outside [eye], [face],
    [opticalflow] is rejected before anything happens; without [--output]
    the output directory is ["."], the current directory; without [--crop]
    the crop size is 64, and a crop size that is not positive ends the run
    with nothing done; without [--lecture-video] the flag is off.  The flag
    decides what a run that has started extracts.  With the flag the
    processing function is called on the window of the lecture segment
    alone, once (not at all when the log has no such segment) and on no
    trial.  Without it every call is on the window of a trial of a level 1
    to 5 of the log, and a run that gets through its trials has made one
    call per trial, in the order of the log (25 calls for 5 trials per
    level). *)
Theorem cli_contract (w : World) (cl : CommandLine) :
  (is_ok (parse_args cl) = true ↔
     cl_ProcessingMethod cl = "face" ∨ cl_ProcessingMethod cl = "eye" ∨
     cl_ProcessingMethod cl = "opticalflow") ∧
  (is_ok (parse_args cl) = false → main w cl = MkRun [] (Raise (SystemExit 2))) ∧
  (∀ ns, parse_args cl = Ok ns →
     (cl_output cl = None → ns_output ns = ".") ∧
     (cl_crop cl = None → int_ w (ns_crop ns) = Ok 64%Z) ∧
     ns_lecture_video ns = cl_lecture_video cl ∧
     (∀ c, int_ w (ns_crop ns) = Ok c → (c ≤ 0)%Z →
           main w cl = MkRun [] (Raise AssertionError))) ∧
  (∀ v, outcome (startup w cl) = Ok v →
     lecture_video v = cl_lecture_video cl ∧
     (cl_lecture_video cl = true →
        calls (trace (main w cl))
        = match get_video_lecture_timestamps (exp_data v) with
          | Ok se => [EProcessFrames se.1 se.2 (cropsize v)]
          | Raise _ => []
          end) ∧
     (cl_lecture_video cl = false →
        (∀ ev, ev ∈ calls (trace (main w cl)) → trial_call v ev) ∧
        (∀ T st en sc fr,
           (∀ n, 1 ≤ n ≤ 5 → get_trials (exp_data v) n = Ok (T n)) →
           (∀ n i t, 1 ≤ n ≤ 5 → T n !! i = Some t →
                     trial_ok w v n i t (st n i) (en n i) (sc n i) (fr n i)) →
           calls (trace (main w cl)) = trial_calls v T st en))).
Proof.
  split_and!.
  - unfold parse_args, choices. case_bool_decide as H; simpl.
    + rewrite !elem_of_cons, elem_of_nil in H. split; [intros _; tauto|done].
    + rewrite !elem_of_cons, elem_of_nil in H. split; [done|intros Hx; destruct H; tauto].
  - intros H. pose proof (startup_validation w cl) as Hs.
    unfold parse_args in *. case_bool_decide; [done|].
    rewrite (main_startup_raise w cl (SystemExit 2)); by rewrite Hs.
  - intros ns Hns. pose proof (startup_validation w cl) as Hs. rewrite Hns in Hs.
    apply parse_args_ok in Hns as [_ ->]. simpl in *.
    split_and!; [by intros ->|by intros ->|done|].
    intros c Hc Hle. rewrite Hc in Hs. unfold first_checks in Hs.
    rewrite (bool_decide_eq_false_2 (c > 0)%Z), andb_false_r in Hs by lia.
    rewrite (main_startup_raise w cl AssertionError); by rewrite Hs.
  - intros v Hv. pose proof Hv as Hst.
    apply startup_inv in Hst as (_ & _ & _ & _ & Hlv & _).
    split_and!; [done| |].
    + intros Hl. rewrite (calls_main w cl v Hv). unfold body.
      rewrite Hlv, Hl. cbn [negb].
      pose proof (lecture_body_spec w v) as Hb.
      destruct (get_video_lecture_timestamps (exp_data v)) as [se|e];
        [|by rewrite Hb].
      destruct (process_frames v se.1 se.2 (cropsize v)) as [f|e];
        [|by rewrite Hb].
      rewrite Hb. by destruct (writable w _).
    + intros Hl. split.
      * intros ev Hev. apply list_elem_of_In, filter_In in Hev as [Hin Hc].
        rewrite main_split, (startup_trace _ _ _ Hv), bind_MkRun_ok in Hin.
        cbn [trace] in Hin. apply in_app_or in Hin as [Hin|Hin].
        { exfalso. revert Hc. unfold banner in Hin. cbn in Hin.
          repeat (destruct Hin as [<-|Hin]; [done|]). done. }
        revert ev Hin Hc.
        apply (proj1 (List.Forall_forall
                        (λ ev, is_call ev = true → trial_call v ev) _)).
        apply trace_bind_Forall.
        -- unfold body. rewrite Hlv, Hl. cbn [negb].
           apply trace_bind_Forall; [apply trace_print_Forall; intros [=]|].
           intros _ _. apply trial_loop_calls.
        -- intros _ _. apply trace_print_Forall. intros [=].
      * intros T st en sc fr HT Hok.
        rewrite (main_trials_ok w cl v T st en sc fr Hv) by (done || congruence).
        cbn [trace]. unfold calls. by rewrite filter_complete_run.
Qed.

End facts.

(** *** The theorems on the session *)

Lemma demo_startup (bad : nat * nat) (lv : bool) :
  outcome (startup (demo_world bad) (demo_cl "face" lv)) = Ok (demo_vars bad lv).
Proof. destruct lv; reflexivity. Qed.

Lemma demo_trials_ok (n i : nat) (t : gmap string nat) :
  1 ≤ n ≤ 5 →
  map (demo_trial no_trial n) (seq 0 5) !! i = Some t →
  trial_ok (demo_world no_trial) (demo_vars no_trial false) n i t
    (100 * (5 * (n - 1) + i)) (100 * (5 * (n - 1) + i) + 90) (n + i) 90.
Proof.
  intros Hn Hi.
  assert (n = 1 ∨ n = 2 ∨ n = 3 ∨ n = 4 ∨ n = 5) as Hc by lia.
  destruct Hc as [->|[->|[->|[->| ->]]]];
    (destruct i as [|[|[|[|[|i]]]]]; [..|discriminate Hi]);
    injection Hi as <-; repeat split; vm_compute; reflexivity.
Qed.

(** C2, on the session: all 25 trials valid, method [face]. *)
Lemma trial_mode_writes_25_pairs_witness :
  outcome (main (demo_world no_trial) (demo_cl "face" false)) = Ok tt ∧
  artifacts (trace (main (demo_world no_trial) (demo_cl "face" false)))
  = flat_map (λ n, flat_map (λ i,
      [ENpSave (trial_out (demo_vars no_trial false) n i +:+ ".npy") 90;
       EJsonDump (trial_out (demo_vars no_trial false) n i +:+ ".json")
                 [("n", JInt (Z.of_nat n)); ("score", JVal (n + i))]])
      (seq 0 5)) (seq 1 5) ∧
  length (tensors (trace (main (demo_world no_trial) (demo_cl "face" false)))) = 25 ∧
  length (labels (trace (main (demo_world no_trial) (demo_cl "face" false)))) = 25 ∧
  NoDup (omap event_path
           (artifacts (trace (main (demo_world no_trial) (demo_cl "face" false))))).
Proof.
  apply (trial_mode_writes_25_pairs (demo_world no_trial) (demo_cl "face" false)
           (demo_vars no_trial false) (λ n, map (demo_trial no_trial n) (seq 0 5))
           (λ n i, 100 * (5 * (n - 1) + i)) (λ n i, 100 * (5 * (n - 1) + i) + 90)
           (λ n i, n + i) (λ _ _, 90)).
  - reflexivity.
  - reflexivity.
  - intros n Hn. split; reflexivity.
  - intros n i t Hn Hi. by apply demo_trials_ok.
Defined.

(** C6, on the same session. *)
Lemma trials_processed_in_order_witness :
  steps (trace (main (demo_world no_trial) (demo_cl "face" false)))
  = steps (banner (demo_vars no_trial false))
    ++ flat_map (λ n, flat_map (λ i,
         [EProcessFrames (100 * (5 * (n - 1) + i)) (100 * (5 * (n - 1) + i) + 90) 64;
          ENpSave (trial_out (demo_vars no_trial false) n i +:+ ".npy") 90;
          EOpenW (trial_out (demo_vars no_trial false) n i +:+ ".json");
          EJsonDump (trial_out (demo_vars no_trial false) n i +:+ ".json")
                    [("n", JInt (Z.of_nat n)); ("score", JVal (n + i))]])
         (seq 0 5)) (seq 1 5).
Proof.
  apply (trials_processed_in_order (demo_world no_trial) (demo_cl "face" false)
           (demo_vars no_trial false) (λ n, map (demo_trial no_trial n) (seq 0 5))
           (λ n i, 100 * (5 * (n - 1) + i)) (λ n i, 100 * (5 * (n - 1) + i) + 90)
           (λ n i, n + i) (λ _ _, 90)).
  - reflexivity.
  - reflexivity.
  - intros n Hn. split; reflexivity.
  - intros n i t Hn Hi. by apply demo_trials_ok.
Defined.

(** C1 as stated fails: on the session whose third trial of level 1 ends
    after the video, the error of that trial ends the run. The two trials
    before it have their artifacts; the 22 after it have none, although their
    windows are in range (shown for the last one). *)
Lemma trial_error_not_caught :
  outcome (main (demo_world (1, 2)) (demo_cl "face" false))
    = Raise (LibError "OutOfRangeError") ∧
  artifacts (trace (main (demo_world (1, 2)) (demo_cl "face" false)))
    = [ENpSave "/out/s01/1-0-face.npy" 90;
       EJsonDump "/out/s01/1-0-face.json" [("n", JInt 1); ("score", JVal 1)];
       ENpSave "/out/s01/1-1-face.npy" 90;
       EJsonDump "/out/s01/1-1-face.json" [("n", JInt 1); ("score", JVal 2)]] ∧
  trial_ok (demo_world (1, 2)) (demo_vars (1, 2) false) 5 4
    (demo_trial (1, 2) 5 4) 2400 2490 9 90.
Proof.
  split; [vm_compute; reflexivity|]. split; [vm_compute; reflexivity|].
  repeat split; vm_compute; reflexivity.
Qed.

(** C1 amended, on that session. *)
Lemma trial_error_ends_run_witness :
  outcome (main (demo_world (1, 2)) (demo_cl "face" false))
    = Raise (LibError "OutOfRangeError") ∧
  artifacts (trace (main (demo_world (1, 2)) (demo_cl "face" false)))
  = flat_map (λ n, flat_map (λ i, trial_artifacts (demo_vars (1, 2) false) n i 90 (n + i))
                            (seq 0 5)) (seq 1 (1 - 1))
    ++ flat_map (λ i, trial_artifacts (demo_vars (1, 2) false) 1 i 90 (1 + i)) (seq 0 2)
    ++ tensors (trace (trial_body (demo_world (1, 2)) "face" "/out" "s01" 64
                         (demo_frames 4000 0) 1 (2, demo_trial (1, 2) 1 2))).
Proof.
  apply (trial_error_ends_run (demo_world (1, 2)) (demo_cl "face" false)
           (demo_vars (1, 2) false) (λ n, map (demo_trial (1, 2) n) (seq 0 5))
           (λ n i, 100 * (5 * (n - 1) + i)) (λ n i, 100 * (5 * (n - 1) + i) + 90)
           (λ n i, n + i) (λ _ _, 90) 1 2 (demo_trial (1, 2) 1 2)
           (LibError "OutOfRangeError")).
  - reflexivity.
  - reflexivity.
  - lia.
  - intros n Hn. reflexivity.
  - intros n i t Hn Hlt Hi. assert (n = 1) as -> by lia.
    specialize (Hlt eq_refl).
    destruct i as [|[|i]]; [..|lia]; injection Hi as <-;
      repeat split; vm_compute; reflexivity.
  - reflexivity.
  - vm_compute. reflexivity.
Defined.

(** C4, on the session: the lecture segment with the [face] method. *)
Lemma lecture_mode_writes_one_tensor_witness :
  labels (trace (main (demo_world no_trial) (demo_cl "face" true))) = [] ∧
  length (tensors (trace (main (demo_world no_trial) (demo_cl "face" true)))) ≤ 1 ∧
  (outcome (main (demo_world no_trial) (demo_cl "face" true)) = Ok tt →
     ∃ v f, outcome (startup (demo_world no_trial) (demo_cl "face" true)) = Ok v ∧
            artifacts (trace (main (demo_world no_trial) (demo_cl "face" true)))
            = [ENpSave (lecture_out v +:+ ".npy") f]) ∧
  (∀ v s e f,
     outcome (startup (demo_world no_trial) (demo_cl "face" true)) = Ok v →
     get_video_lecture_timestamps (exp_data v) = Ok (s, e) →
     process_frames v s e (cropsize v) = Ok f →
     writable (demo_world no_trial) (lecture_out v +:+ ".npy") = true →
     outcome (main (demo_world no_trial) (demo_cl "face" true)) = Ok tt ∧
     artifacts (trace (main (demo_world no_trial) (demo_cl "face" true)))
     = [ENpSave (lecture_out v +:+ ".npy") f]).
Proof.
  apply (lecture_mode_writes_one_tensor (demo_world no_trial) (demo_cl "face" true)).
  reflexivity.
Defined.


(** C7, on the session: with the flag the one call is on the lecture
    segment; without it the 25 calls are on the windows of the trials, that
    of the trial 2 of level 3 among them. *)
Lemma cli_contract_witness :
  calls (trace (main (demo_world no_trial) (demo_cl "face" true)))
  = [EProcessFrames 3000 3600 64%Z] ∧
  calls (trace (main (demo_world no_trial) (demo_cl "face" false)))
  = trial_calls (demo_vars no_trial false) (λ n, map (demo_trial no_trial n) (seq 0 5))
      (λ n i, 100 * (5 * (n - 1) + i)) (λ n i, 100 * (5 * (n - 1) + i) + 90) ∧
  trial_call (demo_vars no_trial false) (EProcessFrames 1200 1290 64%Z).
Proof.
  destruct (cli_contract (demo_world no_trial) (demo_cl "face" true))
    as (_ & _ & _ & Ht).
  destruct (Ht (demo_vars no_trial true)) as (_ & Hlec & _); [apply demo_startup|].
  destruct (cli_contract (demo_world no_trial) (demo_cl "face" false))
    as (_ & _ & _ & Hf).
  destruct (Hf (demo_vars no_trial false)) as (_ & _ & Htr); [apply demo_startup|].
  destruct (Htr eq_refl) as [Hsound Hall].
  split_and!.
  - exact (Hlec eq_refl).
  - apply (Hall _ _ _ (λ n i, n + i) (λ n i, 90)).
    + intros n Hn. reflexivity.
    + intros n i t Hn Hi. by apply demo_trials_ok.
  - apply Hsound. apply list_elem_of_In. vm_compute.
    repeat (first [left; reflexivity | right]).
Defined.

End ProcessDataRawFacts.

(** ** More on the script: the edges of a run *)

Module ProcessDataRawMore.

Import ProcessDataRaw OsPathFacts ProcessDataRawFacts.

Section more.

Context {V Frames : Type}.

Local Abbreviation World := (@ProcessDataRaw.World V Frames) (only parsing).
Local Abbreviation Vars := (@ProcessDataRaw.Vars V Frames) (only parsing).
Local Abbreviation event := (@ProcessDataRaw.event V Frames) (only parsing).
Local Abbreviation Run := (@ProcessDataRaw.Run V Frames) (only parsing).

(** *** As many trials as the log has *)

Lemma length_flat_map_singletons {B} (g : nat → nat → B) (len : nat → nat)
    (ns : list nat) :
  length (flat_map (λ n, flat_map (λ i, [g n i]) (seq 0 (len n))) ns)
  = sum_list (map len ns).
Proof.
  induction ns as [|n ns IH]; [done|].
  cbn [flat_map map sum_list sum_list_with]. rewrite length_app, IH. f_equal.
  generalize 0. induction (len n) as [|k IHk]; intros a; [done|].
  simpl. by rewrite IHk.
Qed.

(** X1. Nothing checks that a level has 5 trials: a trial-mode run that gets
    through every trial the log returns for the levels 1 to 5 returns and
    has called the processing function once per trial, on its window and
    with the crop size, and written one tensor and one label per trial, in
    the order of the log; with no trial at all it writes nothing. *)
Theorem one_pair_per_trial_of_the_log (w : World) (cl : CommandLine) (v : Vars)
    (T : nat → list (gmap string V)) (st en sc : nat → nat → V)
    (fr : nat → nat → Frames) :
  outcome (startup w cl) = Ok v →
  lecture_video v = false →
  (∀ n, 1 ≤ n ≤ 5 → get_trials (exp_data v) n = Ok (T n)) →
  (∀ n i t, 1 ≤ n ≤ 5 → T n !! i = Some t →
            trial_ok w v n i t (st n i) (en n i) (sc n i) (fr n i)) →
  outcome (main w cl) = Ok tt ∧
  artifacts (trace (main w cl))
  = flat_map (λ n, flat_map (λ i, trial_artifacts v n i (fr n i) (sc n i))
                            (seq 0 (length (T n)))) (seq 1 5) ∧
  calls (trace (main w cl))
  = flat_map (λ n, flat_map (λ i, [EProcessFrames (st n i) (en n i) (cropsize v)])
                            (seq 0 (length (T n)))) (seq 1 5) ∧
  length (tensors (trace (main w cl))) = sum_list (map (λ n, length (T n)) (seq 1 5)) ∧
  length (labels (trace (main w cl))) = sum_list (map (λ n, length (T n)) (seq 1 5)).
Proof.
  intros Hs Hlv HT Hok.
  rewrite (main_trials_ok w cl v T st en sc fr Hs Hlv HT Hok).
  cbn [outcome trace]. unfold artifacts, calls, tensors, labels.
  rewrite !filter_complete_run by done.
  split_and!; [done|reflexivity|reflexivity| |].
  - apply (length_flat_map_singletons
             (λ n i, ENpSave (trial_out v n i +:+ ".npy") (fr n i))).
  - apply (length_flat_map_singletons
             (λ n i, EJsonDump (trial_out v n i +:+ ".json") (label_of n (sc n i)))).
Qed.

(** *** Trials that lack a key *)

Lemma trial_body_without_score (w : World) (v : Vars) (n i : nat)
    (t : gmap string V) (s e : V) (f : Frames) :
  t !! "start" = Some s → t !! "end" = Some e → t !! "score" = None →
  process_frames v s e (cropsize v) = Ok f →
  writable w (trial_out v n i +:+ ".npy") = true →
  writable w (trial_out v n i +:+ ".json") = true →
  trial_body w (method v) (output_path v) (participant v) (cropsize v)
             (process_frames v) n (i, t)
  = MkRun [EPrint ("  Trial " +:+ pretty (i + 1));
           EProcessFrames s e (cropsize v);
           ENpSave (trial_out v n i +:+ ".npy") f;
           EOpenW (trial_out v n i +:+ ".json")] (Raise (KeyError "score")).
Proof.
  intros Hst Hen Hsc Hf Hw1 Hw2. unfold trial_out in Hw1, Hw2.
  unfold trial_body, call, np_save, open_w, trial_out. cbn [fst snd]. cbv zeta.
  rewrite (getitem_Some _ _ _ Hst), (getitem_Some _ _ _ Hen), (getitem_None _ _ Hsc).
  rewrite !lift_ok_bind, Hf, Hw1, Hw2. reflexivity.
Qed.

Lemma trial_body_without_window (w : World) (v : Vars) (n i : nat)
    (t : gmap string V) (k : string) :
  (t !! "start" = None ∧ k = "start") ∨
  (is_Some (t !! "start") ∧ t !! "end" = None ∧ k = "end") →
  trial_body w (method v) (output_path v) (participant v) (cropsize v)
             (process_frames v) n (i, t)
  = MkRun [EPrint ("  Trial " +:+ pretty (i + 1))] (Raise (KeyError k)).
Proof.
  unfold trial_body. cbv zeta. cbn [fst snd].
  intros [[Hst ->]|([s Hst] & Hen & ->)].
  - rewrite (getitem_None _ _ Hst). reflexivity.
  - rewrite (getitem_Some _ _ _ Hst), (getitem_None _ _ Hen), lift_ok_bind.
    reflexivity.
Qed.

(** X2. The label file of a trial is opened before the trial's ['score'] is
    read: a trial that has its window but no ['score'] ends the run with
    [KeyError] after its tensor was written and its label file opened for
    writing; nothing is dumped into that file, which stays empty. *)
Theorem unscored_trial_leaves_empty_label (w : World) (cl : CommandLine) (v : Vars)
    (T : nat → list (gmap string V)) (st en sc : nat → nat → V)
    (fr : nat → nat → Frames) (n0 i0 : nat) (t0 : gmap string V)
    (s e : V) (f : Frames) :
  outcome (startup w cl) = Ok v →
  lecture_video v = false →
  1 ≤ n0 ≤ 5 →
  (∀ n, 1 ≤ n ≤ n0 → get_trials (exp_data v) n = Ok (T n)) →
  (∀ n i t, 1 ≤ n ≤ n0 → (n = n0 → i < i0) → T n !! i = Some t →
            trial_ok w v n i t (st n i) (en n i) (sc n i) (fr n i)) →
  T n0 !! i0 = Some t0 →
  t0 !! "start" = Some s → t0 !! "end" = Some e → t0 !! "score" = None →
  process_frames v s e (cropsize v) = Ok f →
  writable w (trial_out v n0 i0 +:+ ".npy") = true →
  writable w (trial_out v n0 i0 +:+ ".json") = true →
  outcome (main w cl) = Raise (KeyError "score") ∧
  ∃ before,
    trace (main w cl)
    = before ++ [EProcessFrames s e (cropsize v);
                 ENpSave (trial_out v n0 i0 +:+ ".npy") f;
                 EOpenW (trial_out v n0 i0 +:+ ".json")].
Proof.
  intros Hs Hlv Hn0 HT Hok Ht0 Hst Hen Hsc Hf Hw1 Hw2.
  rewrite (main_trials_raise w cl v T st en sc fr n0 i0 t0 _ _ Hs Hlv Hn0 HT Hok Ht0
             (trial_body_without_score w v n0 i0 t0 s e f Hst Hen Hsc Hf Hw1 Hw2)).
  split; [reflexivity|]. cbn [trace].
  eexists (banner v ++ EPrint "Processing N-levels..."
           :: flat_map _ (seq 1 (n0 - 1)) ++ level_trace v n0 i0 _ _ _ _
           ++ [EPrint ("  Trial " +:+ pretty (i0 + 1))]).
  rewrite <- !app_assoc. cbn [app]. rewrite <- !app_assoc. reflexivity.
Qed.

(** X3. The window of a trial is read before anything is done for it: a
    trial without ['start'], or with ['start'] and without ['end'], ends the
    run with [KeyError] on that key right after the trial's console line;
    the processing function is called for the trials before it only. *)
Theorem unwindowed_trial_is_not_processed (w : World) (cl : CommandLine) (v : Vars)
    (T : nat → list (gmap string V)) (st en sc : nat → nat → V)
    (fr : nat → nat → Frames) (n0 i0 : nat) (t0 : gmap string V) (k : string) :
  outcome (startup w cl) = Ok v →
  lecture_video v = false →
  1 ≤ n0 ≤ 5 →
  (∀ n, 1 ≤ n ≤ n0 → get_trials (exp_data v) n = Ok (T n)) →
  (∀ n i t, 1 ≤ n ≤ n0 → (n = n0 → i < i0) → T n !! i = Some t →
            trial_ok w v n i t (st n i) (en n i) (sc n i) (fr n i)) →
  T n0 !! i0 = Some t0 →
  (t0 !! "start" = None ∧ k = "start") ∨
  (is_Some (t0 !! "start") ∧ t0 !! "end" = None ∧ k = "end") →
  outcome (main w cl) = Raise (KeyError k) ∧
  list.last (trace (main w cl)) = Some (EPrint ("  Trial " +:+ pretty (i0 + 1))) ∧
  calls (trace (main w cl))
  = flat_map (λ n, flat_map (λ i, [EProcessFrames (st n i) (en n i) (cropsize v)])
                            (seq 0 (length (T n)))) (seq 1 (n0 - 1))
    ++ flat_map (λ i, [EProcessFrames (st n0 i) (en n0 i) (cropsize v)]) (seq 0 i0).
Proof.
  intros Hs Hlv Hn0 HT Hok Ht0 Hk.
  rewrite (main_trials_raise w cl v T st en sc fr n0 i0 t0 _ _ Hs Hlv Hn0 HT Hok Ht0
             (trial_body_without_window w v n0 i0 t0 k Hk)).
  split; [reflexivity|]. cbn [trace]. split.
  - rewrite app_comm_cons, !app_assoc. apply last_snoc.
  - unfold calls. rewrite List.filter_app.
    change (List.filter is_call (banner v)) with (@nil event).
    cbn [app List.filter is_call]. rewrite !List.filter_app.
    rewrite (filter_levels is_call v (λ n, length (T n))) by done.
    rewrite filter_level_trace by done.
    cbn [List.filter is_call]. by rewrite app_nil_r.
Qed.

(** *** Lecture mode without a lecture segment *)

(** X4. A lecture-video run whose log has no lecture segment ends with the
    error of [get_video_lecture_timestamps], after the setup: the
    participant's directory has been made, the processing function is not
    called and nothing is written. *)
Theorem lecture_without_segment (w : World) (cl : CommandLine) (v : Vars) (e : exn) :
  outcome (startup w cl) = Ok v →
  lecture_video v = true →
  get_video_lecture_timestamps (exp_data v) = Raise e →
  main w cl = MkRun (banner v ++ [lecture_line]) (Raise e) ∧
  EMakedirs (participant_dir v) ∈ trace (main w cl) ∧
  calls (trace (main w cl)) = [] ∧ artifacts (trace (main w cl)) = [].
Proof.
  intros Hs Hlv Ht.
  assert (main w cl = MkRun (banner v ++ [lecture_line]) (Raise e)) as ->.
  { apply main_body_raise; [done|]. unfold body. rewrite Hlv. cbn [negb].
    pose proof (lecture_body_spec w v) as Hl. by rewrite Ht in Hl. }
  split_and!; [done| |reflexivity..].
  cbn [trace]. apply elem_of_app. left. unfold banner, participant_dir.
  apply list_elem_of_In. simpl. tauto.
Qed.

(** *** The closing line *)

Ltac trace_all :=
  repeat first
    [ apply trace_lift_Forall | apply trace_assert_Forall | apply trace_ret_Forall
    | apply trace_print_Forall | apply trace_call_Forall
    | apply trace_np_save_Forall | apply trace_open_w_Forall
    | apply trace_emit_Forall
    | apply trace_bind_Forall; [|intros ? _] ].

Lemma startup_no_closing_line (w : World) (cl : CommandLine) :
  Forall (λ ev, is_closing_line ev = false) (trace (startup w cl)).
Proof.
  unfold startup. cbv zeta.
  repeat first
    [ apply trace_lift_Forall | apply trace_assert_Forall
    | apply trace_print_Forall; reflexivity
    | apply trace_emit_Forall; reflexivity
    | apply trace_bind_Forall; [|intros ? _]
    | apply trace_makedirs_Forall; reflexivity
    | apply trace_ret_Forall ].
Qed.

Lemma body_no_closing_line (w : World) (v : Vars) :
  Forall (λ ev, is_closing_line ev = false) (trace (body w v)).
Proof.
  unfold body. destruct (lecture_video v); cbn [negb].
  - unfold lecture_body. cbv zeta. trace_all; reflexivity.
  - apply trace_bind_Forall; [by apply trace_print_Forall|].
    intros _ _. unfold trial_loop. apply trace_for_Forall.
    intros n _. unfold level_body.
    apply trace_bind_Forall; [by apply trace_print_Forall|].
    intros _ _. apply trace_bind_Forall; [apply trace_lift_Forall|].
    intros ts _. apply trace_for_Forall.
    intros it _. unfold trial_body, json_dump. cbv zeta. trace_all; reflexivity.
Qed.

(** X5. The line [Output written to ...] is printed by the runs that
    return, as their last line, and by no other: a run that ends with an
    error has printed no line that starts so. *)
Theorem closing_line_iff_returns (w : World) (cl : CommandLine) :
  match outcome (main w cl) with
  | Ok _ =>
      ∃ v, outcome (startup w cl) = Ok v ∧
           list.last (trace (main w cl)) = Some (closing v) ∧
           List.filter is_closing_line (trace (main w cl)) = [closing v]
  | Raise _ => List.filter is_closing_line (trace (main w cl)) = []
  end.
Proof.
  destruct (outcome (startup w cl)) as [v|e0] eqn:Hs.
  - pose proof (body_no_closing_line w v) as Hb.
    destruct (body w v) as [t [[]|e]] eqn:Eb; cbn [trace] in Hb.
    + rewrite (main_body_ok w cl v t Hs Eb). cbn [outcome trace].
      exists v. split_and!; [done| |].
      * rewrite app_assoc. apply last_snoc.
      * rewrite !List.filter_app, (filter_none _ t Hb). reflexivity.
    + rewrite (main_body_raise w cl v t e Hs Eb). cbn [outcome trace].
      rewrite List.filter_app, (filter_none _ t Hb). reflexivity.
  - rewrite (main_startup_raise w cl e0 Hs). cbn [outcome trace].
    apply filter_none, startup_no_closing_line.
Qed.

(** *** The crop size *)

Lemma startup_no_call (w : World) (cl : CommandLine) :
  Forall (λ ev, is_call ev = false) (trace (startup w cl)).
Proof.
  unfold startup. cbv zeta.
  repeat first
    [ apply trace_lift_Forall | apply trace_assert_Forall
    | apply trace_print_Forall; reflexivity
    | apply trace_emit_Forall; reflexivity
    | apply trace_bind_Forall; [|intros ? _]
    | apply trace_makedirs_Forall; reflexivity
    | apply trace_ret_Forall ].
Qed.

Lemma body_calls_cropsize (w : World) (v : Vars) :
  Forall (λ ev, ∀ s e c, ev = EProcessFrames s e c → c = cropsize v)
         (trace (body w v)).
Proof.
  unfold body. destruct (lecture_video v); cbn [negb].
  - unfold lecture_body. cbv zeta. trace_all; congruence.
  - apply trace_bind_Forall; [by apply trace_print_Forall|].
    intros _ _. unfold trial_loop. apply trace_for_Forall.
    intros n _. unfold level_body.
    apply trace_bind_Forall; [by apply trace_print_Forall|].
    intros _ _. apply trace_bind_Forall; [apply trace_lift_Forall|].
    intros ts _. apply trace_for_Forall.
    intros it _. unfold trial_body, json_dump. cbv zeta. trace_all; congruence.
Qed.

(** X6. The crop size is [int()] of what [--crop] was given, 64 when it
    was given nothing. When [int()] rejects the value the run ends with
    [ValueError] before its first check and its first line; otherwise every
    call of the processing function, in either mode, is passed that
    integer. *)
Theorem crop_is_converted_and_passed_on (w : World) (cl : CommandLine) :
  cl_ProcessingMethod cl ∈ choices →
  match int_ w (from_option PStr (PInt 64) (cl_crop cl)) with
  | Raise e =>
      (∃ s, cl_crop cl = Some s ∧ int_of_str w s = None) ∧
      main w cl = MkRun [] (Raise ValueError)
  | Ok c =>
      ∀ s e c', EProcessFrames s e c' ∈ trace (main w cl) → c' = c
  end.
Proof.
  intros Hm.
  destruct (int_ w (from_option PStr (PInt 64) (cl_crop cl))) as [c|e] eqn:Hc.
  - assert (Forall (λ ev, ∀ s e c', ev = EProcessFrames s e c' → c' = c)
                   (trace (main w cl))) as Hall.
    { rewrite main_split. apply trace_bind_Forall.
      - eapply List.Forall_impl; [|apply startup_no_call].
        intros ev Hev s e c' ->. discriminate Hev.
      - intros v Hv. apply startup_inv in Hv as (_ & _ & _ & Hc' & _).
        rewrite Hc in Hc'. injection Hc' as ->.
        apply trace_bind_Forall; [apply body_calls_cropsize|].
        intros _ _. apply trace_print_Forall. congruence. }
    intros s e c' Hin. rewrite List.Forall_forall in Hall.
    apply (Hall _ (proj1 (list_elem_of_In _ _) Hin) s e c' eq_refl).
  - assert (e = ValueError ∧ ∃ s, cl_crop cl = Some s ∧ int_of_str w s = None)
      as [-> Hs].
    { destruct (cl_crop cl) as [s|]; [|discriminate Hc]. simpl in Hc.
      destruct (int_of_str w s) eqn:Es; [discriminate Hc|].
      injection Hc as <-. split; [done|]. by exists s. }
    split; [exact Hs|].
    pose proof (startup_validation w cl) as Hv. unfold parse_args in Hv.
    rewrite bool_decide_eq_true_2 in Hv by done.
    cbn [ns_crop] in Hv. rewrite Hc in Hv.
    rewrite (main_startup_raise w cl ValueError); by rewrite Hv.
Qed.

(** *** The choice of the processing function *)

(** X7. The dict of line 113 has the accepted methods as its keys and no
    other, so that its lookup at line 119 raises no [KeyError] on an
    accepted command line: [face] takes [get_frames], [eye]
    [get_eye_frames] and [opticalflow] [get_optical_flow_frames] of the
    video handler, and that function is the one a run calls. *)
Theorem dispatch_is_total_on_choices :
  (∀ (vh : @VideoHandler V Frames) m,
     is_Some (method_functions vh !! m) ↔ m ∈ choices) ∧
  (∀ (vh : @VideoHandler V Frames) m,
     m ∈ choices → getitem (method_functions vh) m = Ok (function_of vh m)) ∧
  (∀ (w : World) cl v,
     outcome (startup w cl) = Ok v →
     process_frames v = function_of (video_handler v) (cl_ProcessingMethod cl)).
Proof.
  assert (∀ (vh : @VideoHandler V Frames) m,
            method_functions vh !! m
            = if bool_decide (m ∈ choices) then Some (function_of vh m) else None)
    as Hlook.
  { intros vh m. unfold method_functions, function_of, choices.
    destruct (decide (m = "face")) as [->|Hf]; [by rewrite lookup_insert_eq|].
    rewrite lookup_insert_ne by done.
    destruct (decide (m = "eye")) as [->|He]; [by rewrite lookup_insert_eq|].
    rewrite lookup_insert_ne by done.
    destruct (decide (m = "opticalflow")) as [->|Ho]; [by rewrite lookup_singleton_eq|].
    rewrite lookup_singleton_ne by done.
    rewrite bool_decide_eq_false_2; [done|].
    rewrite !elem_of_cons, elem_of_nil. tauto. }
  split_and!.
  - intros vh m. rewrite Hlook. case_bool_decide as Hc.
    + split; [done|by eexists].
    + split; [by intros [? [=]]|done].
  - intros vh m Hm. unfold getitem. rewrite Hlook.
    by rewrite bool_decide_eq_true_2.
  - intros w cl v Hv. apply startup_inv in Hv as (Hm & Hmv & _ & _ & _ & _ & _ & _ & _ & Hpf & _).
    rewrite Hlook, Hmv, bool_decide_eq_true_2 in Hpf by done. by injection Hpf as <-.
Qed.

(** *** The paths of the files *)

Lemma endswith_sep_app (a b : string) :
  b ≠ "" → OsPath.endswith_sep (a +:+ b) = OsPath.endswith_sep b.
Proof.
  intros Hb. induction a as [|c a IH]; [done|].
  rewrite append_cons. cbn [OsPath.endswith_sep].
  destruct (a +:+ b) as [|c' r] eqn:E; [|exact IH].
  destruct a; [change (b = "") in E; congruence|discriminate E].
Qed.

Lemma join_step_plain (d b : string) :
  d ≠ "" → OsPath.endswith_sep d = false → OsPath.startswith_sep b = false →
  OsPath.join_step d b = d +:+ "/" +:+ b.
Proof.
  intros Hd He Hb. unfold OsPath.join_step.
  by rewrite Hb, He, bool_decide_eq_false_2.
Qed.

Lemma append_not_empty (a b : string) : a ≠ "" → a +:+ b ≠ "".
Proof. by destruct a. Qed.

Lemma participant_dir_plain (v : Vars) :
  output_path v ≠ "" → OsPath.endswith_sep (output_path v) = false →
  participant v ≠ "" → OsPath.startswith_sep (participant v) = false →
  OsPath.endswith_sep (participant v) = false →
  participant_dir v = output_path v +:+ "/" +:+ participant v ∧
  participant_dir v ≠ "" ∧ OsPath.endswith_sep (participant_dir v) = false.
Proof.
  intros Ho Hoe Hp Hps Hpe.
  assert (participant_dir v = output_path v +:+ "/" +:+ participant v) as ->.
  { unfold participant_dir, OsPath.join. cbn [foldl]. by apply join_step_plain. }
  split_and!; [done|by apply append_not_empty|].
  rewrite endswith_sep_app by done.
  change ("/" +:+ participant v) with (String "/" (participant v)).
  cbn [OsPath.endswith_sep]. by destruct (participant v).
Qed.

(** X8. With an output directory that does not end in a separator (it is
    an absolute path, so not empty) and a participant that is a plain name,
    the files are
    [output_path/participant/{n}-{i}-{method}.npy] and [.json] for the
    trial [i] of level [n], and
    [output_path/participant/{method}_lecture_video.npy] for the lecture
    segment. *)
Theorem artifacts_layout (v : Vars) (n i : nat) :
  1 ≤ n ≤ 5 → method v ∈ choices →
  output_path v ≠ "" → OsPath.endswith_sep (output_path v) = false →
  participant v ≠ "" → OsPath.startswith_sep (participant v) = false →
  OsPath.endswith_sep (participant v) = false →
  trial_out v n i +:+ ".npy"
  = output_path v +:+ "/" +:+ participant v +:+ "/"
    +:+ pretty n +:+ "-" +:+ pretty i +:+ "-" +:+ method v +:+ ".npy" ∧
  trial_out v n i +:+ ".json"
  = output_path v +:+ "/" +:+ participant v +:+ "/"
    +:+ pretty n +:+ "-" +:+ pretty i +:+ "-" +:+ method v +:+ ".json" ∧
  lecture_out v +:+ ".npy"
  = output_path v +:+ "/" +:+ participant v +:+ "/"
    +:+ method v +:+ "_lecture_video" +:+ ".npy".
Proof.
  intros Hn Hm Ho Hoe Hp Hps Hpe.
  destruct (participant_dir_plain v Ho Hoe Hp Hps Hpe) as (Hd & Hne & He).
  assert (trial_out v n i
          = output_path v +:+ "/" +:+ participant v +:+ "/"
            +:+ pretty n +:+ "-" +:+ pretty i +:+ "-" +:+ method v) as Ht.
  { unfold trial_out. rewrite join_two. fold (participant_dir v).
    rewrite join_step_plain by (done || by apply trial_name_no_sep).
    rewrite Hd. by rewrite !append_assoc. }
  assert (lecture_out v
          = output_path v +:+ "/" +:+ participant v +:+ "/"
            +:+ method v +:+ "_lecture_video") as Hl.
  { unfold lecture_out. rewrite join_two. fold (participant_dir v).
    rewrite join_step_plain by (done || by apply lecture_name_no_sep).
    rewrite Hd. by rewrite !append_assoc. }
  rewrite Ht, Hl. by rewrite !append_assoc.
Qed.

Lemma with_sep_idem (d : string) :
  OsPath.with_sep (OsPath.with_sep d) = OsPath.with_sep d.
Proof.
  unfold OsPath.with_sep. destruct (decide (d = "")) as [->|Hd]; [reflexivity|].
  rewrite (bool_decide_eq_false_2 (d = "")) by done. cbn [orb].
  destruct (OsPath.endswith_sep d) eqn:He.
  - rewrite bool_decide_eq_false_2 by done. cbn [orb]. by rewrite He.
  - rewrite bool_decide_eq_false_2 by (by apply append_not_empty). cbn [orb].
    by rewrite endswith_sep_app.
Qed.

(** X9. The participant is joined to the output directory as
    [os.path.join] joins: a participant that starts with a separator
    replaces the output directory, and the files of the trials are then
    under the participant's own path, outside the output directory; an
    empty participant leaves the output directory, and the files are then
    in the output directory itself. *)
Theorem participant_edge_cases (v : Vars) (n i : nat) :
  1 ≤ n ≤ 5 →
  (OsPath.startswith_sep (participant v) = true →
     participant_dir v = participant v ∧
     trial_out v n i
     = OsPath.with_sep (participant v)
       +:+ pretty n +:+ "-" +:+ pretty i +:+ "-" +:+ method v) ∧
  (participant v = "" →
     participant_dir v = OsPath.with_sep (output_path v) ∧
     trial_out v n i
     = OsPath.with_sep (output_path v)
       +:+ pretty n +:+ "-" +:+ pretty i +:+ "-" +:+ method v).
Proof.
  intros Hn. split.
  - intros Hp.
    assert (participant_dir v = participant v) as Hd.
    { unfold participant_dir, OsPath.join. cbn [foldl].
      unfold OsPath.join_step. by rewrite Hp. }
    split; [done|]. by rewrite trial_out_inside, Hd.
  - intros Hp.
    assert (participant_dir v = OsPath.with_sep (output_path v)) as Hd.
    { unfold participant_dir, OsPath.join. cbn [foldl]. rewrite Hp.
      unfold OsPath.join_step, OsPath.with_sep. cbn [OsPath.startswith_sep orb].
      destruct (decide (output_path v = "")) as [Ho|Ho]; [by rewrite Ho|].
      rewrite bool_decide_eq_false_2 by done. cbn [orb].
      destruct (OsPath.endswith_sep (output_path v)); [apply append_nil_r|done]. }
    split; [done|]. by rewrite trial_out_inside, Hd, with_sep_idem.
Qed.

(** *** The call of [os.makedirs] *)

(** A computation that returns or else has made no event out of [P]. *)
Lemma bind_returns_or_clean {A B} (P : event → Prop) (m : Run A) (f : A → Run B) :
  Forall P (trace m) →
  (∀ a, outcome m = Ok a → is_ok (outcome (f a)) = true ∨ Forall P (trace (f a))) →
  is_ok (outcome (m ≫= f)) = true ∨ Forall P (trace (m ≫= f)).
Proof.
  intros Hm Hf. destruct (outcome m) as [a|e] eqn:E.
  - rewrite (bind_ok m f a E). cbn [outcome trace].
    destruct (Hf a eq_refl) as [H|H]; [by left|right]. by apply Forall_app.
  - rewrite (bind_raise m f e E). by right.
Qed.

Lemma startup_returns_or_no_makedirs (w : World) (cl : CommandLine) :
  is_ok (outcome (startup w cl)) = true ∨
  Forall (λ ev, ∀ p, ev ≠ EMakedirs p) (trace (startup w cl)).
Proof.
  unfold startup. cbv zeta.
  repeat (apply bind_returns_or_clean;
          [solve [ apply trace_lift_Forall | apply trace_assert_Forall
                 | apply trace_print_Forall; congruence
                 | apply trace_emit_Forall; congruence ]
          |intros ? _]).
  unfold makedirs. destruct (makedirs_ok w _); [by left|right; constructor].
Qed.

Lemma body_no_makedirs (w : World) (v : Vars) :
  Forall (λ ev, ∀ p, ev ≠ EMakedirs p) (trace (body w v)).
Proof.
  unfold body. destruct (lecture_video v); cbn [negb].
  - unfold lecture_body. cbv zeta. trace_all; congruence.
  - apply trace_bind_Forall; [by apply trace_print_Forall|].
    intros _ _. unfold trial_loop. apply trace_for_Forall.
    intros n _. unfold level_body.
    apply trace_bind_Forall; [by apply trace_print_Forall|].
    intros _ _. apply trace_bind_Forall; [apply trace_lift_Forall|].
    intros ts _. apply trace_for_Forall.
    intros it _. unfold trial_body, json_dump. cbv zeta. trace_all; congruence.
Qed.

(** X10. A run calls [os.makedirs] once at most, as the last step of the
    setup and on [os.path.join(output_path, participant)]: when a call of
    [os.makedirs] has returned, the setup has succeeded (the command line
    is validated, the log and the video are opened), the path of the call
    is that one, nothing before the call is another call of [os.makedirs],
    a call of the processing function or a write of an artifact, and
    nothing after it is a call of [os.makedirs]. In a run whose setup
    fails no call of [os.makedirs] returns. (How many directories the one
    call makes is [os.makedirs]'s affair: the participant's and every
    missing one above it.) *)
Theorem makedirs_called_once_after_setup (w : World) (cl : CommandLine)
    (p : string) :
  EMakedirs p ∈ trace (main w cl) →
  ∃ v before after,
    outcome (startup w cl) = Ok v ∧ p = participant_dir v ∧
    trace (main w cl) = before ++ EMakedirs p :: after ∧
    Forall (λ ev, is_call ev = false ∧ is_artifact ev = false ∧
                  ∀ q, ev ≠ EMakedirs q) before ∧
    Forall (λ ev, ∀ q, ev ≠ EMakedirs q) after.
Proof.
  intros Hin. destruct (outcome (startup w cl)) as [v|e0] eqn:Hs.
  - exists v.
    assert (∃ t, trace (main w cl) = banner v ++ t ∧
                 Forall (λ ev, ∀ q, ev ≠ EMakedirs q) t) as (t & Ht & Hclean).
    { pose proof (body_no_makedirs w v) as Hb.
      destruct (body w v) as [t [[]|e]] eqn:Eb; cbn [trace] in Hb.
      - rewrite (main_body_ok w cl v t Hs Eb). exists (t ++ [closing v]).
        split; [done|]. apply Forall_app. split; [done|].
        repeat constructor. unfold closing. congruence.
      - rewrite (main_body_raise w cl v t e Hs Eb). by exists t. }
    rewrite Ht in Hin. apply elem_of_app in Hin as [Hin|Hin].
    + assert (p = participant_dir v) as ->.
      { unfold banner in Hin. apply list_elem_of_In in Hin. simpl in Hin.
        unfold participant_dir.
        repeat (destruct Hin as [Hin|Hin]; [try discriminate Hin|]);
          [by injection Hin|done]. }
      eexists _, t. split_and!; [done|done| |  |done].
      * rewrite Ht. unfold banner, participant_dir.
        change (?a :: ?b :: ?c :: ?d :: ?e :: ?f :: ?g :: ?h :: ?i :: ?j :: ?k
                :: EMakedirs ?q :: [])
          with ([a; b; c; d; e; f; g; h; i; j; k] ++ [EMakedirs q]).
        rewrite <- app_assoc. reflexivity.
      * repeat (constructor; [split_and!; [reflexivity|reflexivity|congruence]|]).
        constructor.
    + rewrite List.Forall_forall in Hclean.
      by destruct (Hclean _ (proj1 (list_elem_of_In _ _) Hin) p).
  - rewrite (main_startup_raise w cl e0 Hs) in Hin. cbn [trace] in Hin.
    destruct (startup_returns_or_no_makedirs w cl) as [H|H].
    + by rewrite Hs in H.
    + rewrite List.Forall_forall in H.
      by destruct (H _ (proj1 (list_elem_of_In _ _) Hin) p).
Qed.

End more.

(** *** The theorems on the sessions *)

Lemma demo_startup_with (exp : @ExperimentData nat) (lv : bool) :
  outcome (startup (demo_world_with exp) (demo_cl "face" lv))
  = Ok (demo_vars_with exp lv).
Proof. destruct lv; reflexivity. Qed.

Lemma demo_with_trials_ok (exp : @ExperimentData nat) (n i : nat)
    (t : gmap string nat) :
  1 ≤ n ≤ 5 →
  map (demo_trial no_trial n) (seq 0 5) !! i = Some t →
  trial_ok (demo_world_with exp) (demo_vars_with exp false) n i t
    (100 * (5 * (n - 1) + i)) (100 * (5 * (n - 1) + i) + 90) (n + i) 90.
Proof.
  intros Hn Hi.
  assert (n = 1 ∨ n = 2 ∨ n = 3 ∨ n = 4 ∨ n = 5) as Hc by lia.
  destruct Hc as [->|[->|[->|[->| ->]]]];
    (destruct i as [|[|[|[|[|i]]]]]; [..|discriminate Hi]);
    injection Hi as <-; repeat split; vm_compute; reflexivity.
Qed.

(** X1, on the session with [n - 1] trials at level [n]: 10 trials. *)
Lemma one_pair_per_trial_of_the_log_witness :
  outcome (main (demo_world_with demo_exp_ragged) (demo_cl "face" false)) = Ok tt ∧
  length (tensors (trace (main (demo_world_with demo_exp_ragged)
                                (demo_cl "face" false)))) = 10 ∧
  length (labels (trace (main (demo_world_with demo_exp_ragged)
                               (demo_cl "face" false)))) = 10.
Proof.
  destruct (one_pair_per_trial_of_the_log
              (demo_world_with demo_exp_ragged) (demo_cl "face" false)
              (demo_vars_with demo_exp_ragged false)
              (λ n, map (demo_trial no_trial n) (seq 0 (n - 1)))
              (λ n i, 100 * (5 * (n - 1) + i)) (λ n i, 100 * (5 * (n - 1) + i) + 90)
              (λ n i, n + i) (λ _ _, 90)) as (Ho & _ & _ & Ht & Hl).
  - reflexivity.
  - reflexivity.
  - intros n Hn. reflexivity.
  - intros n i t Hn Hi. apply demo_with_trials_ok; [done|].
    apply list_lookup_fmap_Some in Hi as (j & -> & Hj).
    apply lookup_seq in Hj as [-> Hj].
    apply list_lookup_fmap_Some. exists i. split; [done|].
    apply lookup_seq. simpl. lia.
  - split_and!; [exact Ho|exact Ht|exact Hl].
Defined.

(** X2, on the session whose second trial of level 1 has no score. *)
Lemma unscored_trial_leaves_empty_label_witness :
  outcome (main (demo_world_with (demo_exp_without "score")) (demo_cl "face" false))
  = Raise (KeyError "score") ∧
  ∃ before,
    trace (main (demo_world_with (demo_exp_without "score")) (demo_cl "face" false))
    = before ++ [EProcessFrames 100 190 64;
                 ENpSave "/out/s01/1-1-face.npy" 90;
                 EOpenW "/out/s01/1-1-face.json"].
Proof.
  apply (unscored_trial_leaves_empty_label
           (demo_world_with (demo_exp_without "score")) (demo_cl "face" false)
           (demo_vars_with (demo_exp_without "score") false)
           (demo_trials_without "score")
           (λ n i, 100 * (5 * (n - 1) + i)) (λ n i, 100 * (5 * (n - 1) + i) + 90)
           (λ n i, n + i) (λ _ _, 90) 1 1
           (delete "score" (demo_trial no_trial 1 1)) 100 190 90).
  - reflexivity.
  - reflexivity.
  - lia.
  - intros n Hn. reflexivity.
  - intros n i t Hn Hi Ht. assert (n = 1) as -> by lia.
    specialize (Hi eq_refl). assert (i = 0) as -> by lia.
    apply demo_with_trials_ok; [lia|exact Ht].
  - reflexivity.
  - vm_compute. reflexivity.
  - vm_compute. reflexivity.
  - vm_compute. reflexivity.
  - reflexivity.
  - reflexivity.
  - reflexivity.
Defined.

(** X3, on the session whose second trial of level 1 has no end. *)
Lemma unwindowed_trial_is_not_processed_witness :
  outcome (main (demo_world_with (demo_exp_without "end")) (demo_cl "face" false))
  = Raise (KeyError "end") ∧
  list.last (trace (main (demo_world_with (demo_exp_without "end"))
                         (demo_cl "face" false)))
  = Some (EPrint "  Trial 2") ∧
  calls (trace (main (demo_world_with (demo_exp_without "end")) (demo_cl "face" false)))
  = [EProcessFrames 0 90 64].
Proof.
  apply (unwindowed_trial_is_not_processed
           (demo_world_with (demo_exp_without "end")) (demo_cl "face" false)
           (demo_vars_with (demo_exp_without "end") false)
           (demo_trials_without "end")
           (λ n i, 100 * (5 * (n - 1) + i)) (λ n i, 100 * (5 * (n - 1) + i) + 90)
           (λ n i, n + i) (λ _ _, 90) 1 1
           (delete "end" (demo_trial no_trial 1 1)) "end").
  - reflexivity.
  - reflexivity.
  - lia.
  - intros n Hn. reflexivity.
  - intros n i t Hn Hi Ht. assert (n = 1) as -> by lia.
    specialize (Hi eq_refl). assert (i = 0) as -> by lia.
    apply demo_with_trials_ok; [lia|exact Ht].
  - reflexivity.
  - right. split_and!; [exists 100; vm_compute; reflexivity
                       |vm_compute; reflexivity|reflexivity].
Defined.

(** X4, on the session without a lecture segment. *)
Lemma lecture_without_segment_witness :
  main (demo_world_with demo_exp_nolecture) (demo_cl "face" true)
  = MkRun (banner (demo_vars_with demo_exp_nolecture true) ++ [lecture_line])
          (Raise (LibError "MissingSegmentError")) ∧
  EMakedirs "/out/s01" ∈ trace (main (demo_world_with demo_exp_nolecture)
                                     (demo_cl "face" true)) ∧
  calls (trace (main (demo_world_with demo_exp_nolecture) (demo_cl "face" true))) = [] ∧
  artifacts (trace (main (demo_world_with demo_exp_nolecture) (demo_cl "face" true)))
  = [].
Proof.
  apply (lecture_without_segment (demo_world_with demo_exp_nolecture)
           (demo_cl "face" true) (demo_vars_with demo_exp_nolecture true)
           (LibError "MissingSegmentError")); reflexivity.
Defined.

(** X6, on the session with [--crop 32]: every call is passed 32. *)
Lemma crop_is_converted_and_passed_on_witness :
  "eye" ∈ choices ∧
  ∀ s e c',
    EProcessFrames s e c'
    ∈ trace (main (demo_world no_trial)
               {| cl_ProcessingMethod := "eye"; cl_ExperimentData := "/data/s01";
                  cl_output := Some "/out"; cl_crop := Some "32";
                  cl_lecture_video := false |}) →
    c' = 32%Z.
Proof.
  assert ("eye" ∈ choices) as Hm.
  { apply (bool_decide_unpack _). vm_compute. exact I. }
  split; [exact Hm|].
  exact (crop_is_converted_and_passed_on (demo_world no_trial)
           {| cl_ProcessingMethod := "eye"; cl_ExperimentData := "/data/s01";
              cl_output := Some "/out"; cl_crop := Some "32";
              cl_lecture_video := false |} Hm).
Defined.

(** X8, on the session: the files of trial 2 of level 3 and of the
    lecture segment. *)
Lemma artifacts_layout_witness :
  trial_out (demo_vars no_trial false) 3 2 +:+ ".npy" = "/out/s01/3-2-face.npy" ∧
  trial_out (demo_vars no_trial false) 3 2 +:+ ".json" = "/out/s01/3-2-face.json" ∧
  lecture_out (demo_vars no_trial false) +:+ ".npy" = "/out/s01/face_lecture_video.npy".
Proof.
  apply (artifacts_layout (demo_vars no_trial false) 3 2).
  - lia.
  - apply (bool_decide_unpack _). vm_compute. exact I.
  - discriminate.
  - reflexivity.
  - discriminate.
  - reflexivity.
  - reflexivity.
Defined.

(** X9, on a participant that is an absolute path. *)
Lemma participant_edge_cases_witness :
  participant_dir (demo_vars_of "/tmp/s01") = "/tmp/s01" ∧
  trial_out (demo_vars_of "/tmp/s01") 1 0 = "/tmp/s01/1-0-face".
Proof.
  apply (proj1 (participant_edge_cases (demo_vars_of "/tmp/s01") 1 0
                  (conj (le_n 1) (le_S 1 4 (le_S 1 3 (le_S 1 2 (le_S 1 1 (le_n 1)))))))).
  reflexivity.
Defined.

(** X10, on the lecture-video run without a lecture segment: the call is
    made although nothing is written afterwards. *)
Lemma makedirs_called_once_after_setup_witness :
  ∃ v before after,
    outcome (startup (demo_world_with demo_exp_nolecture) (demo_cl "face" true))
    = Ok v ∧
    "/out/s01" = participant_dir v ∧
    trace (main (demo_world_with demo_exp_nolecture) (demo_cl "face" true))
    = before ++ EMakedirs "/out/s01" :: after ∧
    Forall (λ ev, is_call ev = false ∧ is_artifact ev = false ∧
                  ∀ q, ev ≠ EMakedirs q) before ∧
    Forall (λ ev, ∀ q, ev ≠ EMakedirs q) after.
Proof.
  apply (makedirs_called_once_after_setup (demo_world_with demo_exp_nolecture)
           (demo_cl "face" true) "/out/s01").
  apply list_elem_of_In. vm_compute.
  repeat (first [left; reflexivity | right]).
Defined.

End ProcessDataRawMore.

(** ** Optical flow *)

Module OpticalFlowFacts.

Import ProcessDataRaw OpticalFlow.

Section encoder.

Context {V Frame Img : Type}.

Variable extract : V → V → result (list Frame).
Variable encode : Z → Frame → Frame → Img.
Variables face eye : V → V → Z → result (list Img).

Local Abbreviation spec_get_optical_flow_frames :=
  (OpticalFlow.spec_get_optical_flow_frames extract encode) (only parsing).
Local Abbreviation spec_video_handler :=
  (OpticalFlow.spec_video_handler extract encode face eye) (only parsing).

Lemma OpticalFlowEncoder_length (enc : Frame → Frame → Img) (chunk : list Frame) :
  length (OpticalFlowEncoder enc chunk) = length chunk - 1.
Proof.
  induction chunk as [|f0 [|f1 rest] IH]; [done|done|].
  change (OpticalFlowEncoder enc (f0 :: f1 :: rest))
    with (enc f0 f1 :: OpticalFlowEncoder enc (f1 :: rest)).
  simpl length in *. rewrite IH. lia.
Qed.

Lemma OpticalFlowEncoder_lookup (enc : Frame → Frame → Img) (chunk : list Frame) k a b :
  chunk !! k = Some a → chunk !! S k = Some b →
  OpticalFlowEncoder enc chunk !! k = Some (enc a b).
Proof.
  revert k. induction chunk as [|f0 [|f1 rest] IH]; intros k Ha Hb; [done|done|].
  change (OpticalFlowEncoder enc (f0 :: f1 :: rest))
    with (enc f0 f1 :: OpticalFlowEncoder enc (f1 :: rest)).
  destruct k as [|k]; simpl in *; [by simplify_eq|]. by apply IH.
Qed.

(** C3. On a window whose chunk has [N] frames, [N ≥ 2], the function the
    script selects for the method ["opticalflow"] returns exactly [N - 1]
    optical-flow frames: the [k]-th encodes the motion from frame [k] to
    frame [k + 1] of the chunk. *)
Theorem optical_flow_yields_N_minus_1 (start end_ : V) (cropsize : Z)
    (chunk : list Frame) (N : nat) :
  extract start end_ = Ok chunk →
  length chunk = N →
  2 ≤ N →
  ∃ process_frames out,
    method_functions spec_video_handler !! "opticalflow" = Some process_frames ∧
    process_frames start end_ cropsize = Ok out ∧
    length out = N - 1 ∧
    ∀ k a b, chunk !! k = Some a → chunk !! S k = Some b →
             out !! k = Some (encode cropsize a b).
Proof.
  intros Hx Hlen HN.
  exists spec_get_optical_flow_frames, (OpticalFlowEncoder (encode cropsize) chunk).
  split_and!.
  - reflexivity.
  - unfold spec_get_optical_flow_frames. by rewrite Hx.
  - by rewrite OpticalFlowEncoder_length, Hlen.
  - intros k a b. apply OpticalFlowEncoder_lookup.
Qed.

End encoder.

(** C3 on a chunk of three frames, encoded as the pair of the two frames. *)
Lemma optical_flow_yields_N_minus_1_witness :
  ∃ process_frames out,
    method_functions
      (spec_video_handler (λ _ _ : nat, Ok [10; 20; 30]) (λ _ a b, (a, b))
                          (λ _ _ _, Ok []) (λ _ _ _, Ok []))
      !! "opticalflow" = Some process_frames ∧
    process_frames 0 3 64%Z = Ok out ∧
    length out = 3 - 1 ∧
    ∀ k a b, [10; 20; 30] !! k = Some a → [10; 20; 30] !! S k = Some b →
             out !! k = Some (a, b).
Proof.
  apply (optical_flow_yields_N_minus_1 (λ _ _ : nat, Ok [10; 20; 30])
           (λ _ a b, (a, b)) (λ _ _ _, Ok []) (λ _ _ _, Ok []) 0 3 64%Z
           [10; 20; 30] 3).
  - reflexivity.
  - reflexivity.
  - lia.
Defined.

End OpticalFlowFacts.

(** ** [lib/dataprocessing/statistics.py] *)

Module StatisticsFacts.

Import ProcessDataRaw Statistics.

Local Open Scope Qc_scope.

Section methods.

Variable new_ExperimentData : string → result (@ExperimentData Qc).

Local Abbreviation add_subject_data :=
  (Statistics.add_subject_data new_ExperimentData) (only parsing).
Local Abbreviation add_subjects :=
  (Statistics.add_subjects new_ExperimentData) (only parsing).
Local Abbreviation loads := (Statistics.loads new_ExperimentData) (only parsing).

(** *** The row of a subject *)

Lemma setitem2_row (r : list Qc) (c : nat) (x : Qc) :
  (c < length r)%nat → setitem2 [r] 0 c x = Ok [<[c := x]> r].
Proof. intros H. unfold setitem2. simpl. by rewrite decide_True. Qed.

(** The loop over the trials of a level, from the index [k] on: it writes
    the score of trial [k + j] at [base + k + j] and nothing else. *)
Lemma level_scores_ok (base : nat) (f : nat → Qc) (ts : list (gmap string Qc))
    (k : nat) (r : list Qc) :
  (∀ j t, ts !! j = Some t → t !! "score" = Some (f (k + j)%nat)) →
  (base + k + length ts ≤ length r)%nat →
  ∃ r', for_fold (enumerate_from k ts)
          (λ data it, score ← getitem it.2 "score";
                      setitem2 data 0 (base + it.1) score) [r] = Ok [r'] ∧
        length r' = length r ∧
        (∀ p, (p < base + k ∨ base + k + length ts ≤ p)%nat → r' !! p = r !! p) ∧
        (∀ j, (j < length ts)%nat → r' !! (base + k + j)%nat = Some (f (k + j)%nat)).
Proof.
  revert k r. induction ts as [|t ts IH]; intros k r Hsc Hlen.
  - exists r. split_and!; [done|done|done|]. simpl. lia.
  - simpl in Hlen.
    pose proof (Hsc 0%nat t eq_refl) as H0. rewrite Nat.add_0_r in H0.
    destruct (IH (S k) (<[(base + k)%nat := f k]> r)) as (r' & Hr' & Hl & Hframe & Hval).
    { intros j t' Hj. replace (S k + j)%nat with (k + S j)%nat by lia. by apply Hsc. }
    { rewrite length_insert. lia. }
    exists r'. split_and!.
    + simpl. rewrite (getitem_Some _ _ _ H0). simpl.
      rewrite setitem2_row by lia. exact Hr'.
    + by rewrite Hl, length_insert.
    + intros p Hp. rewrite Hframe by (simpl in Hp; lia).
      apply list_lookup_insert_ne. simpl in Hp. lia.
    + intros j Hj. destruct j as [|j].
      * rewrite !Nat.add_0_r. rewrite Hframe by lia.
        apply list_lookup_insert_eq. lia.
      * replace (base + k + S j)%nat with (base + S k + j)%nat by lia.
        replace (k + S j)%nat with (S k + j)%nat by lia.
        apply Hval. simpl in Hj. lia.
Qed.

(** The loop over the levels [a], ..., [a + c - 1]. *)
Lemma levels_scores_ok (exp_data : @ExperimentData Qc)
    (T : nat → list (gmap string Qc)) (sc : nat → nat → Qc) (c a : nat)
    (r : list Qc) :
  (1 ≤ a)%nat → (a + c ≤ 6)%nat → length r = 25%nat →
  (∀ n, (a ≤ n < a + c)%nat →
        get_trials exp_data n = Ok (T n) ∧ (length (T n) ≤ 5)%nat ∧
        ∀ i t, T n !! i = Some t → t !! "score" = Some (sc n i)) →
  ∃ r', for_fold (seq a c)
          (λ data n,
             trials ← get_trials exp_data n;
             for_fold (enumerate trials)
               (λ data it, score ← getitem it.2 "score";
                           setitem2 data 0 ((n - 1) * 5 + it.1) score)
               data) [r] = Ok [r'] ∧
        length r' = 25%nat ∧
        (∀ p, (p < (a - 1) * 5)%nat → r' !! p = r !! p) ∧
        (∀ n i, (a ≤ n < a + c)%nat → (i < length (T n))%nat →
                r' !! ((n - 1) * 5 + i)%nat = Some (sc n i)).
Proof.
  revert a r. induction c as [|c IH]; intros a r Ha Hac Hr HT.
  - exists r. split_and!; [done|done|done|]. intros n i Hn. lia.
  - destruct (HT a ltac:(lia)) as (Hts & Hlen & Hsc).
    destruct (level_scores_ok ((a - 1) * 5) (sc a) (T a) 0 r) as (r1 & Hr1 & Hl1 & Hf1 & Hv1).
    { intros j t Hj. by apply Hsc. }
    { lia. }
    destruct (IH (S a) r1) as (r' & Hr' & Hl & Hframe & Hval).
    { lia. } { lia. } { lia. } { intros n Hn. apply HT. lia. }
    exists r'. split_and!.
    + simpl. rewrite Hts. simpl. unfold enumerate. rewrite Hr1. exact Hr'.
    + done.
    + intros p Hp. rewrite Hframe by lia. apply Hf1. lia.
    + intros n i Hn Hi. destruct (decide (n = a)) as [->|Hne].
      * rewrite Hframe by lia.
        specialize (Hv1 i Hi). rewrite Nat.add_0_r in Hv1. exact Hv1.
      * apply Hval; [lia|done].
Qed.

Lemma subject_scores_ok (exp_data : @ExperimentData Qc)
    (T : nat → list (gmap string Qc)) (sc : nat → nat → Qc) :
  (∀ n, (1 ≤ n ≤ 5)%nat →
        get_trials exp_data n = Ok (T n) ∧ (length (T n) ≤ 5)%nat ∧
        ∀ i t, T n !! i = Some t → t !! "score" = Some (sc n i)) →
  ∃ r, subject_scores exp_data = Ok [r] ∧ length r = 25%nat ∧
       ∀ n i, (1 ≤ n ≤ 5)%nat → (i < length (T n))%nat →
              r !! ((n - 1) * 5 + i)%nat = Some (sc n i).
Proof.
  intros HT.
  destruct (levels_scores_ok exp_data T sc 5 1 (replicate 25 0))
    as (r & Hr & Hl & _ & Hv); [lia|lia|done| |].
  { intros n Hn. apply HT. lia. }
  exists r. split_and!; [exact Hr|done|]. intros n i Hn Hi. apply Hv; [lia|done].
Qed.

Lemma for_fold_inv {A S} (P : S → Prop) (xs : list A) (body : S → A → result S)
    (s s' : S) :
  P s → (∀ s1 x s2, P s1 → body s1 x = Ok s2 → P s2) →
  for_fold xs body s = Ok s' → P s'.
Proof.
  intros Hs Hbody. revert s Hs. induction xs as [|x xs IH]; intros s Hs H; simpl in H.
  - by injection H as <-.
  - destruct (body s x) as [s1|e] eqn:E; [|done]. simpl in H. eauto.
Qed.

(** Whatever the log holds, the row of a subject is one row of 25 numbers. *)
Lemma subject_scores_shape (exp_data : @ExperimentData Qc) (d : list (list Qc)) :
  subject_scores exp_data = Ok d → ∃ r, d = [r] ∧ length r = 25%nat.
Proof.
  unfold subject_scores.
  apply (for_fold_inv (λ d, ∃ r, d = [r] ∧ length r = 25%nat)).
  - by exists (replicate 25 0).
  - intros d1 n d2 Hd1 H. destruct (get_trials exp_data n) as [ts|e]; [|done].
    simpl in H. revert H.
    apply (for_fold_inv (λ d, ∃ r, d = [r] ∧ length r = 25%nat)); [done|].
    clear. intros d1 it d2 (r & -> & Hr) H.
    destruct (getitem it.2 "score") as [x|e]; [|done]. simpl in H.
    unfold setitem2 in H. simpl in H. case_decide; [|done].
    injection H as <-. eexists. split; [done|]. by rewrite length_insert.
Qed.

(** *** Adding subjects *)

Lemma add_subject_data_replace (self : Statistics) (p : string) (r : list Qc) :
  loads p r → any (data self) = false →
  add_subject_data self p = Ok {| data := Floats2 [r] |}.
Proof.
  intros (exp_data & Hx & Hr) Hany. unfold add_subject_data.
  rewrite Hx. simpl. rewrite Hr. simpl. by rewrite Hany.
Qed.

Lemma any_ncols (m : list (list Qc)) :
  any (Floats2 m) = true → Forall (λ row, length row = 25%nat) m → ncols m = 25%nat.
Proof. destruct m as [|row m]; [done|]. intros _ H. by inversion H. Qed.

Lemma add_subject_data_append (self : Statistics) (p : string) (r : list Qc)
    (m : list (list Qc)) :
  loads p r → data self = Floats2 m → any (data self) = true →
  Forall (λ row, length row = 25%nat) m →
  add_subject_data self p = Ok {| data := Floats2 (m ++ [r]) |}.
Proof.
  intros (exp_data & Hx & Hr) Hm Hany H25. unfold add_subject_data.
  rewrite Hx. simpl. rewrite Hr. simpl. rewrite Hany, Hm. simpl.
  apply subject_scores_shape in Hr as (r' & [= <-] & Hlen).
  rewrite Hm in Hany. rewrite (any_ncols m Hany H25), Hlen.
  by rewrite decide_True.
Qed.

Lemma loads_length (p : string) (r : list Qc) : loads p r → length r = 25%nat.
Proof.
  intros (exp_data & _ & Hr).
  by apply subject_scores_shape in Hr as (r' & [= <-] & Hlen).
Qed.

(** Onto a stored matrix with a truthy entry, subjects are appended. *)
Lemma add_subjects_append (paths : list string) (rows : list (list Qc))
    (self : Statistics) (m : list (list Qc)) :
  Forall2 loads paths rows →
  data self = Floats2 m → any (data self) = true →
  Forall (λ row, length row = 25%nat) m →
  add_subjects self paths = Ok {| data := Floats2 (m ++ rows) |}.
Proof.
  intros HF. revert self m.
  induction HF as [|p r paths rows Hl HF IH]; intros self m Hm Hany H25.
  - simpl. rewrite app_nil_r. destruct self. simpl in Hm. by subst.
  - unfold add_subjects. simpl.
    rewrite (add_subject_data_append self p r m) by done. simpl.
    fold (add_subjects {| data := Floats2 (m ++ [r]) |} paths).
    rewrite (IH _ (m ++ [r])); [by rewrite <- app_assoc|done| |].
    + rewrite Hm in Hany. simpl in *. by rewrite existsb_app, Hany.
    + apply Forall_app. split; [done|]. constructor; [|done].
      by apply (loads_length p).
Qed.

(** While nothing stored is truthy each call replaces what is stored; from
    the first row with a truthy entry on the rows are kept. *)
Lemma add_subjects_from_falsy (paths : list string) (rows : list (list Qc))
    (self : Statistics) :
  Forall2 loads paths rows → any (data self) = false → paths ≠ [] →
  add_subjects self paths = Ok {| data := Floats2 (stored_rows rows) |}.
Proof.
  intros HF. revert self.
  induction HF as [|p r paths rows Hl HF IH]; intros self Hany Hne; [done|].
  unfold add_subjects. simpl for_fold.
  rewrite (add_subject_data_replace self p r Hl Hany).
  cbn [mbind result_mbind result_bind].
  fold (add_subjects {| data := Floats2 [r] |} paths).
  destruct rows as [|r' rows].
  - inversion HF; subst. reflexivity.
  - assert (paths ≠ []) as Hne' by (inversion HF; done).
    cbn [stored_rows]. destruct (existsb truthy r) eqn:E.
    + apply (add_subjects_append paths (r' :: rows) _ [r]); [done|done| |].
      * simpl. by rewrite E.
      * constructor; [|done]. by apply (loads_length p).
    + apply IH; [|done]. simpl. by rewrite E.
Qed.

Lemma stored_rows_spec (rows : list (list Qc)) :
  rows ≠ [] →
  ∃ dropped, rows = dropped ++ stored_rows rows ∧
             Forall (λ r, existsb truthy r = false) dropped ∧
             stored_rows rows ≠ [].
Proof.
  induction rows as [|r rows IH]; [done|]. intros _.
  destruct rows as [|r' rows].
  - by exists [].
  - cbn [stored_rows]. destruct (existsb truthy r) eqn:E.
    + by exists [].
    + destruct IH as (dropped & Hd & Hz & Hne); [done|].
      exists (r :: dropped). split_and!; [|by constructor|done].
      rewrite <- app_comm_cons. f_equal. exact Hd.
Qed.

Lemma stored_rows_cons (r r' : list Qc) (rows : list (list Qc)) :
  stored_rows (r :: r' :: rows)
  = if existsb truthy r then r :: r' :: rows else stored_rows (r' :: rows).
Proof. reflexivity. Qed.

Lemma stored_rows_length (rows : list (list Qc)) :
  (length (stored_rows rows) ≤ length rows)%nat.
Proof.
  induction rows as [|r rows IH]; [done|].
  destruct rows as [|r' rows]; [done|].
  rewrite stored_rows_cons. destruct (existsb truthy r); [done|].
  etransitivity; [exact IH|]. simpl. lia.
Qed.

(** C8. [add_subject_data] appends the row of the new subject only when the
    stored array has a truthy (nonzero) entry, and otherwise replaces what
    is stored by that row. So when the first subject's 25 scores are all
    zero, adding a second subject leaves the second subject's row alone.
    After [k] calls on a new object the matrix holds the rows of the
    subjects from the first one with a nonzero score on; it has [k] rows
    exactly when [k = 1] or the first subject has a nonzero score, and
    then the rows are those of the [k] subjects in order: subjects added
    later are kept whatever their scores. *)
Theorem add_subject_data_appends_iff_any :
  (∀ self p r, loads p r →
     (any (data self) = false →
        add_subject_data self p = Ok {| data := Floats2 [r] |}) ∧
     (∀ m, data self = Floats2 m → any (data self) = true →
           Forall (λ row, length row = 25%nat) m →
           add_subject_data self p = Ok {| data := Floats2 (m ++ [r]) |})) ∧
  (∀ p1 p2 r2, loads p1 (replicate 25 0) → loads p2 r2 →
     add_subjects __init__ [p1; p2] = Ok {| data := Floats2 [r2] |}) ∧
  (∀ paths rows,
     Forall2 loads paths rows →
     paths ≠ [] →
     add_subjects __init__ paths = Ok {| data := Floats2 (stored_rows rows) |} ∧
     (length (stored_rows rows) = length paths ↔
        length paths = 1%nat ∨
        ∃ r rest, rows = r :: rest ∧ existsb truthy r = true) ∧
     (length (stored_rows rows) = length paths → stored_rows rows = rows)).
Proof.
  split_and!.
  - intros self p r Hl. split.
    + by apply add_subject_data_replace.
    + intros m. by apply add_subject_data_append.
  - intros p1 p2 r2 H1 H2. unfold add_subjects. simpl.
    rewrite (add_subject_data_replace __init__ p1 _ H1) by done. simpl.
    by rewrite (add_subject_data_replace _ p2 _ H2).
  - intros paths rows HF Hne.
    pose proof (Forall2_length HF) as Hlen.
    assert (rows ≠ []) as Hr by (destruct HF; done).
    split_and!; [by apply add_subjects_from_falsy| |].
    + rewrite Hlen. clear -Hr. destruct rows as [|r [|r' rows]]; [done| |].
      * simpl. split; [by left|done].
      * rewrite stored_rows_cons. destruct (existsb truthy r) eqn:E.
        -- split; [|done]. intros _. right. by exists r, (r' :: rows).
        -- pose proof (stored_rows_length (r' :: rows)) as Hle.
           split.
           ++ intros H. rewrite H in Hle. simpl in Hle. lia.
           ++ intros [H|(r0 & rest & [= <- <-] & Hr0)]; [done|congruence].
    + rewrite Hlen. clear. destruct rows as [|r [|r' rows]]; [done..|].
      rewrite stored_rows_cons. destruct (existsb truthy r); [done|].
      pose proof (stored_rows_length (r' :: rows)) as Hle.
      intros H. rewrite H in Hle. simpl in Hle. lia.
Qed.

End methods.

(** *** Averages *)

Lemma zip_with_app_nil {A} (out : list (list Qc)) (m : list A) :
  length out = length m → zip_with app out (map (λ _, []) m) = out.
Proof.
  revert m. induction out as [|o out IH]; intros [|x m] H; simplify_eq/=; [done|].
  by rewrite app_nil_r, IH.
Qed.

Lemma zip_with_app_app {A} (out : list (list Qc)) (m : list A)
    (g1 g2 : A → list Qc) :
  zip_with app (zip_with app out (map g1 m)) (map g2 m)
  = zip_with app out (map (λ x, g1 x ++ g2 x) m).
Proof.
  revert m. induction out as [|o out IH]; intros [|x m]; simpl; [done..|].
  by rewrite IH, app_assoc.
Qed.

Lemma drop_first_column {A} (m : list A) (G : A → list Qc) :
  map (drop 1) (zip_with app (zeros (length m) 1) (map G m)) = map G m.
Proof. induction m as [|x m IH]; simpl; [done|]. by rewrite <- IH at 2. Qed.

(** The loop of [average_scores_all_subjects] appends to each row of [out]
    the means of the levels [ns] of the matching row of the data. *)
Lemma average_loop (np : Numpy) (m : list (list Qc)) (ns : list nat)
    (out : list (list Qc)) :
  length out = length m →
  for_fold ns
    (λ out n, concatenate1 out
                (expand_dims1 (mean_axis1 np m ((n - 1) * 5) ((n - 1) * 5 + 5))))
    out
  = Ok (zip_with app out (map (λ row, map (level_mean np row) ns) m)).
Proof.
  revert out. induction ns as [|n ns IH]; intros out Hlen; simpl.
  - by rewrite zip_with_app_nil.
  - unfold concatenate1, expand_dims1, mean_axis1. rewrite !length_map.
    rewrite decide_True by done. simpl. rewrite map_map.
    rewrite IH.
    + by rewrite zip_with_app_app.
    + rewrite length_zip_with, length_map. lia.
Qed.

Lemma average_scores_all_subjects_ok (np : Numpy) (m : list (list Qc)) :
  average_scores_all_subjects np {| data := Floats2 m |}
  = Ok (map (λ row, map (level_mean np row) (seq 1 5)) m).
Proof.
  unfold average_scores_all_subjects. cbn [data]. cbv zeta.
  rewrite average_loop.
  - simpl. by rewrite drop_first_column.
  - unfold zeros. by rewrite length_replicate.
Qed.

Lemma slice_five (row : list Qc) (a : nat) (x0 x1 x2 x3 x4 : Qc) :
  row !! a = Some x0 → row !! (a + 1)%nat = Some x1 → row !! (a + 2)%nat = Some x2 →
  row !! (a + 3)%nat = Some x3 → row !! (a + 4)%nat = Some x4 →
  slice row a (a + 5) = [x0; x1; x2; x3; x4].
Proof.
  intros H0 H1 H2 H3 H4. unfold slice. replace (a + 5 - a)%nat with 5%nat by lia.
  rewrite <- (Nat.add_0_r a) in H0.
  rewrite <- lookup_drop in H0, H1, H2, H3, H4.
  destruct (drop a row) as [|y0 [|y1 [|y2 [|y3 [|y4 l]]]]]; simplify_eq/=. done.
Qed.

Lemma level_mean_lookup (np : Numpy) (row : list Qc) (n : nat) :
  (1 ≤ n ≤ 5)%nat →
  map (level_mean np row) (seq 1 5) !! (n - 1)%nat = Some (level_mean np row n).
Proof.
  intros Hn. assert (n = 1 ∨ n = 2 ∨ n = 3 ∨ n = 4 ∨ n = 5)%nat as Hc by lia.
  destruct Hc as [->|[->|[->|[->| ->]]]]; reflexivity.
Qed.

Lemma ncols_five (avg : list (list Qc)) :
  avg ≠ [] → Forall (λ a, length a = 5%nat) avg → ncols avg = 5%nat.
Proof. destruct avg as [|a avg]; [done|]. intros _ H. by inversion H. Qed.

Lemma column_of (avg : list (list Qc)) (j : nat) (col : list Qc) :
  Forall2 (λ a x, a !! j = Some x) avg col → omap (λ row, row !! j) avg = col.
Proof.
  induction 1 as [|a x avg col Ha _ IH]; [done|].
  simpl. rewrite Ha. simpl. by f_equal.
Qed.

(** *** The float64 numbers

    No power of two has an odd divisor but 1, so a fraction whose
    denominator is a power of two reduces to one. *)
Lemma power_of_two_divisor (p q : positive) :
  power_of_two (p * q) = true → power_of_two q = true.
Proof.
  rewrite Pos.mul_comm. revert p.
  induction q as [q IH|q IH|]; intros p; [|simpl; apply IH|done].
  intros H. exfalso. clear IH. revert H.
  induction p as [p IH|p IH|].
  - rewrite Pos.mul_xI_r. simpl. done.
  - rewrite Pos.mul_xO_r. exact IH.
  - rewrite Pos.mul_1_r. done.
Qed.

Lemma power_of_two_pow (k : positive) : power_of_two (2 ^ k) = true.
Proof.
  induction k as [|k IH] using Pos.peano_ind; [done|].
  by rewrite Pos.pow_succ_r.
Qed.

Lemma dyadic_Q2Qc (z : Z) (d : positive) :
  power_of_two d = true → dyadic (Q2Qc (z # d)) = true.
Proof.
  intros Hd. unfold dyadic. simpl. unfold Qred.
  pose proof (Z.ggcd_correct_divisors z (Zpos d)) as Hdiv.
  pose proof (Z.ggcd_gcd z (Zpos d)) as Hg.
  pose proof (Z.gcd_nonneg z (Zpos d)) as Hnn.
  destruct (Z.ggcd z (Zpos d)) as [g [aa bb]]. simpl in *.
  destruct Hdiv as [_ Hb]. subst g.
  set (g := Z.gcd z (Z.pos d)) in *.
  assert (g ≠ 0)%Z as Hg0 by (intros E; rewrite E in Hb; discriminate Hb).
  assert (0 < g)%Z as Hgpos by lia.
  assert (0 < bb)%Z as Hbpos.
  { apply (Z.mul_pos_cancel_l g); [done|]. by rewrite <- Hb. }
  apply (power_of_two_divisor (Z.to_pos g)).
  rewrite <- Z2Pos.inj_mul by done. rewrite <- Hb. done.
Qed.

Lemma round64_dyadic (x : Qc) : dyadic (round64 x) = true.
Proof.
  unfold round64. destruct (Qeq_bool x 0); [done|].
  cbv zeta. unfold scale. destruct (0 <=? _)%Z.
  - by apply dyadic_Q2Qc.
  - apply dyadic_Q2Qc, power_of_two_pow.
Qed.

Lemma demo_numpy_returns_floats : returns_floats demo_numpy.
Proof. intros xs _. split; apply round64_dyadic. Qed.


(** *** The theorems on the three subjects *)

Lemma demo_loads_zero : loads demo_files "zero.csv" (replicate 25 0).
Proof. exists (demo_subject 0). split; [reflexivity|]. vm_compute. reflexivity. Qed.

Lemma demo_loads_one : loads demo_files "one.csv" (demo_row 1).
Proof. exists (demo_subject 1). split; [reflexivity|]. vm_compute. reflexivity. Qed.

Lemma demo_loads_two : loads demo_files "two.csv" (demo_row 2).
Proof. exists (demo_subject 2). split; [reflexivity|]. vm_compute. reflexivity. Qed.

(** On whole scores the means in float64 are exact: those of subject 1 are
    3, 4, 5, 6, 7 and those of subject 2 twice that; over the two subjects
    the means are 9/2, 6, 15/2, 9, 21/2.  On the scores [0.1] to [0.5] the
    mean in float64 is the number of [0.3]. *)
Example demo_averages :
  values (average_scores_all_subjects demo_numpy
            {| data := Floats2 [demo_row 1; demo_row 2] |})
  = [[3; 4; 5; 6; 7]; [6; 8; 10; 12; 14]]%Q ∧
  values (g ← global_average_scores demo_numpy
                {| data := Floats2 [demo_row 1; demo_row 2] |};
          Ok [g])
  = [[9 # 2; 6; 15 # 2; 9; 21 # 2]]%Q ∧
  values (average_scores_all_subjects demo_numpy
            {| data := Floats2 [tenths ++ replicate 20 0] |})
  = [[5404319552844595 # 18014398509481984; 0; 0; 0; 0]]%Q.
Proof. split_and!; vm_compute; reflexivity. Qed.

(** Before any subject is added there is no matrix to average. *)
Example average_of_nothing (np : Numpy) :
  average_scores_all_subjects np __init__ = Raise AxisError.
Proof. reflexivity. Qed.

(** C8, on the three subjects: after the all-zero subject the next one
    replaces it; two subjects with nonzero scores leave two rows; of three
    subjects whose first has no nonzero score two rows are left. *)
Lemma add_subject_data_appends_iff_any_witness :
  add_subjects demo_files __init__ ["zero.csv"; "one.csv"]
    = Ok {| data := Floats2 [demo_row 1] |} ∧
  (add_subjects demo_files __init__ ["one.csv"; "two.csv"]
     = Ok {| data := Floats2 [demo_row 1; demo_row 2] |} ∧
   length (stored_rows [demo_row 1; demo_row 2]) = length ["one.csv"; "two.csv"]) ∧
  (add_subjects demo_files __init__ ["zero.csv"; "one.csv"; "two.csv"]
     = Ok {| data := Floats2 [demo_row 1; demo_row 2] |} ∧
   length (stored_rows [replicate 25 0; demo_row 1; demo_row 2])
   ≠ length ["zero.csv"; "one.csv"; "two.csv"]).
Proof.
  destruct (add_subject_data_appends_iff_any demo_files) as (_ & Hzero & Hrows).
  split_and!.
  - apply Hzero; [exact demo_loads_zero|exact demo_loads_one].
  - apply (Hrows ["one.csv"; "two.csv"] [demo_row 1; demo_row 2]); [|discriminate].
    repeat constructor; [exact demo_loads_one|exact demo_loads_two].
  - apply (Hrows ["one.csv"; "two.csv"] [demo_row 1; demo_row 2]).
    + repeat constructor; [exact demo_loads_one|exact demo_loads_two].
    + discriminate.
    + right. exists (demo_row 1), [demo_row 2]. split; [reflexivity|].
      vm_compute. reflexivity.
  - apply (Hrows ["zero.csv"; "one.csv"; "two.csv"]
             [replicate 25 0; demo_row 1; demo_row 2]); [|discriminate].
    repeat constructor; [exact demo_loads_zero|exact demo_loads_one|exact demo_loads_two].
  - intros H.
    destruct (Hrows ["zero.csv"; "one.csv"; "two.csv"]
                [replicate 25 0; demo_row 1; demo_row 2]) as (_ & Hiff & _).
    + repeat constructor; [exact demo_loads_zero|exact demo_loads_one|exact demo_loads_two].
    + discriminate.
    + apply Hiff in H. destruct H as [H|(r & rest & Heq & Hr)]; [discriminate H|].
      injection Heq as <- _. vm_compute in Hr. discriminate Hr.
Defined.

(** Against [k] rows only when every stored subject has a nonzero score:
    of subject 1, the all-zero subject and subject 2, added in this order,
    the three rows are stored, the all-zero one among them. *)
Lemma later_all_zero_subject_is_kept :
  loads demo_files "zero.csv" (replicate 25 0) ∧
  existsb truthy (replicate 25 0) = false ∧
  add_subjects demo_files __init__ ["one.csv"; "zero.csv"; "two.csv"]
    = Ok {| data := Floats2 [demo_row 1; replicate 25 0; demo_row 2] |} ∧
  length [demo_row 1; replicate 25 0; demo_row 2]
  = length ["one.csv"; "zero.csv"; "two.csv"].
Proof.
  split_and!; [exact demo_loads_zero|reflexivity| |reflexivity].
  vm_compute. reflexivity.
Qed.




End StatisticsFacts.

(** ** More on the statistics: rows off the shape, sequences of calls *)

Module StatisticsMore.

Import ProcessDataRaw Statistics StatisticsFacts.

Local Open Scope Qc_scope.

(** *** Loops that stop *)

Lemma for_fold_app {A S} (xs ys : list A) (body : S → A → result S) (s : S) :
  for_fold (xs ++ ys) body s = s' ← for_fold xs body s; for_fold ys body s'.
Proof.
  revert s. induction xs as [|x xs IH]; intros s; simpl; [done|].
  destruct (body s x) as [s1|e]; simpl; [apply IH|done].
Qed.

(** The loop over the trials of a level when the row is too short for them:
    the write past its end raises. *)
Lemma level_scores_overflow (base : nat) (ts : list (gmap string Qc))
    (k : nat) (r : list Qc) :
  (∀ j t, ts !! j = Some t → is_Some (t !! "score")) →
  (base + k ≤ length r < base + k + length ts)%nat →
  for_fold (enumerate_from k ts)
    (λ data it, score ← getitem it.2 "score";
                setitem2 data 0 (base + it.1) score) [r] = Raise IndexError.
Proof.
  revert k r. induction ts as [|t ts IH]; intros k r Hsc Hlen; simpl in Hlen; [lia|].
  destruct (Hsc 0%nat t eq_refl) as [x Hx].
  simpl. rewrite (getitem_Some _ _ _ Hx). simpl.
  destruct (decide (base + k < length r)%nat) as [Hlt|Hge].
  - rewrite setitem2_row by done. apply IH.
    + intros j t' Hj. by apply (Hsc (S j)).
    + rewrite length_insert. lia.
  - unfold setitem2. simpl. by rewrite decide_False.
Qed.

(** The loop over the trials of a level when trial [j0] has no score. *)
Lemma level_scores_keyerror (base : nat) (ts : list (gmap string Qc))
    (j0 : nat) (t0 : gmap string Qc) (k : nat) (r : list Qc) :
  ts !! j0 = Some t0 → t0 !! "score" = None →
  (∀ j t, (j < j0)%nat → ts !! j = Some t → is_Some (t !! "score")) →
  (base + k + j0 ≤ length r)%nat →
  for_fold (enumerate_from k ts)
    (λ data it, score ← getitem it.2 "score";
                setitem2 data 0 (base + it.1) score) [r]
  = Raise (KeyError "score").
Proof.
  revert j0 k r. induction ts as [|t ts IH]; intros j0 k r H0 Hno Hsc Hlen; [done|].
  destruct j0 as [|j0].
  - injection H0 as ->. simpl. by rewrite (getitem_None _ _ Hno).
  - destruct (Hsc 0%nat t ltac:(lia) eq_refl) as [x Hx].
    simpl. rewrite (getitem_Some _ _ _ Hx). simpl.
    rewrite setitem2_row by lia. apply (IH j0).
    + exact H0.
    + exact Hno.
    + intros j t' Hj Ht'. apply (Hsc (S j)); [lia|done].
    + rewrite length_insert. lia.
Qed.

(** The loop over the levels, with what it leaves of the row it starts
    from: the columns no trial was written to. *)
Lemma levels_scores_unwritten (exp_data : @ExperimentData Qc)
    (T : nat → list (gmap string Qc)) (sc : nat → nat → Qc) (c a : nat)
    (r : list Qc) :
  (1 ≤ a)%nat → (a + c ≤ 6)%nat → length r = 25%nat →
  (∀ n, (a ≤ n < a + c)%nat →
        get_trials exp_data n = Ok (T n) ∧ (length (T n) ≤ 5)%nat ∧
        ∀ i t, T n !! i = Some t → t !! "score" = Some (sc n i)) →
  ∃ r', for_fold (seq a c)
          (λ data n,
             trials ← get_trials exp_data n;
             for_fold (enumerate trials)
               (λ data it, score ← getitem it.2 "score";
                           setitem2 data 0 ((n - 1) * 5 + it.1) score)
               data) [r] = Ok [r'] ∧
        length r' = 25%nat ∧
        (∀ p, (∀ n, (a ≤ n < a + c)%nat →
                    ¬ ((n - 1) * 5 ≤ p < (n - 1) * 5 + length (T n))%nat) →
              r' !! p = r !! p).
Proof.
  revert a r. induction c as [|c IH]; intros a r Ha Hac Hr HT.
  - exists r. by split_and!.
  - destruct (HT a ltac:(lia)) as (Hts & Hlen & Hsc).
    destruct (level_scores_ok ((a - 1) * 5) (sc a) (T a) 0 r) as (r1 & Hr1 & Hl1 & Hf1 & _).
    { intros j t Hj. by apply Hsc. }
    { lia. }
    destruct (IH (S a) r1) as (r' & Hr' & Hl & Hframe).
    { lia. } { lia. } { lia. } { intros n Hn. apply HT. lia. }
    exists r'. split_and!.
    + simpl. rewrite Hts. simpl. unfold enumerate. rewrite Hr1. exact Hr'.
    + done.
    + intros p Hp. rewrite Hframe.
      * apply Hf1. specialize (Hp a ltac:(lia)). lia.
      * intros n Hn. apply Hp. lia.
Qed.

(** X11. A level with fewer than 5 trials leaves the columns of its missing
    trials at 0, the value [np.zeros] gave them: when no level has more
    than 5 trials and every trial has a score, column [(n - 1) * 5 + i] of
    the subject's row is 0 for every [i] from the number of trials of level
    [n] up to 4. *)
Theorem missing_trials_score_zero (exp_data : @ExperimentData Qc)
    (T : nat → list (gmap string Qc)) (sc : nat → nat → Qc) :
  (∀ n, (1 ≤ n ≤ 5)%nat →
        get_trials exp_data n = Ok (T n) ∧ (length (T n) ≤ 5)%nat ∧
        ∀ i t, T n !! i = Some t → t !! "score" = Some (sc n i)) →
  ∃ r, subject_scores exp_data = Ok [r] ∧
       ∀ n i, (1 ≤ n ≤ 5)%nat → (length (T n) ≤ i < 5)%nat →
              r !! ((n - 1) * 5 + i)%nat = Some 0.
Proof.
  intros HT.
  destruct (levels_scores_unwritten exp_data T sc 5 1 (replicate 25 0))
    as (r & Hr & _ & Hf); [lia|lia|done| |].
  { intros n Hn. apply HT. lia. }
  exists r. split; [exact Hr|]. intros n i Hn Hi.
  rewrite Hf.
  - apply lookup_replicate_2. lia.
  - intros n' Hn'. destruct (HT n' ltac:(lia)) as (_ & Hlen & _).
    destruct (decide (n' = n)) as [->|Hne]; lia.
Qed.

(** X12. Nothing checks that a level has 5 trials: a sixth trial at level 5
    is written to column 25 of a row of 25, and the call ends with
    [IndexError]. *)
Theorem sixth_trial_of_level_5_raises
    (new_ExperimentData : string → result (@ExperimentData Qc))
    (self : Statistics) (p : string) (exp_data : @ExperimentData Qc)
    (T : nat → list (gmap string Qc)) :
  new_ExperimentData p = Ok exp_data →
  (∀ n, (1 ≤ n ≤ 5)%nat →
        get_trials exp_data n = Ok (T n) ∧
        ∀ i t, T n !! i = Some t → is_Some (t !! "score")) →
  (∀ n, (1 ≤ n ≤ 4)%nat → (length (T n) ≤ 5)%nat) →
  (5 < length (T 5%nat))%nat →
  subject_scores exp_data = Raise IndexError ∧
  add_subject_data new_ExperimentData self p = Raise IndexError.
Proof.
  intros Hx HT Hlen H5.
  assert (subject_scores exp_data = Raise IndexError) as Hs.
  { unfold subject_scores, range.
    change (seq 1 (6 - 1)) with (seq 1 4 ++ [5%nat]). rewrite for_fold_app.
    destruct (levels_scores_ok exp_data T
                (λ n i, default 0 (T n !! i ≫= (λ t, t !! "score"))) 4 1
                (replicate 25 0)) as (r1 & Hr1 & Hl1 & _); [lia|lia|done| |].
    { intros n Hn. destruct (HT n ltac:(lia)) as (Hts & Hsc).
      split_and!; [done|apply Hlen; lia|].
      intros i t Hi. rewrite Hi. simpl.
      destruct (Hsc i t Hi) as [x Hx']. by rewrite Hx'. }
    change (zeros 1 25) with [replicate 25 (0 : Qc)]. rewrite Hr1. simpl.
    destruct (HT 5%nat ltac:(lia)) as (Hts & Hsc). rewrite Hts. simpl.
    pose proof (level_scores_overflow 20 (T 5%nat) 0 r1 Hsc ltac:(lia)) as H.
    simpl in H. unfold enumerate. by rewrite H. }
  split; [exact Hs|]. unfold add_subject_data. rewrite Hx. simpl. by rewrite Hs.
Qed.

(** X13. A trial without a ['score'] ends the call with [KeyError]: the
    scores of the trials before it were written to a row that is dropped. *)
Theorem trial_without_score_raises
    (new_ExperimentData : string → result (@ExperimentData Qc))
    (self : Statistics) (p : string) (exp_data : @ExperimentData Qc)
    (T : nat → list (gmap string Qc)) (n0 i0 : nat) (t0 : gmap string Qc) :
  new_ExperimentData p = Ok exp_data →
  (1 ≤ n0 ≤ 5)%nat → (i0 < 5)%nat →
  (∀ n, (1 ≤ n ≤ n0)%nat → get_trials exp_data n = Ok (T n)) →
  (∀ n, (1 ≤ n < n0)%nat → (length (T n) ≤ 5)%nat) →
  (∀ n i t, (n < n0 ∨ n = n0 ∧ i < i0)%nat → (1 ≤ n)%nat →
            T n !! i = Some t → is_Some (t !! "score")) →
  T n0 !! i0 = Some t0 → t0 !! "score" = None →
  subject_scores exp_data = Raise (KeyError "score") ∧
  add_subject_data new_ExperimentData self p = Raise (KeyError "score").
Proof.
  intros Hx Hn0 Hi0 HT Hlen Hsc H0 Hno.
  assert (subject_scores exp_data = Raise (KeyError "score")) as Hs.
  { unfold subject_scores, range.
    replace (seq 1 (6 - 1)) with (seq 1 (n0 - 1) ++ n0 :: seq (S n0) (5 - n0)).
    2:{ assert (n0 = 1 ∨ n0 = 2 ∨ n0 = 3 ∨ n0 = 4 ∨ n0 = 5)%nat as Hc by lia.
        destruct Hc as [->|[->|[->|[->| ->]]]]; reflexivity. }
    rewrite for_fold_app.
    destruct (levels_scores_ok exp_data T
                (λ n i, default 0 (T n !! i ≫= (λ t, t !! "score"))) (n0 - 1) 1
                (replicate 25 0)) as (r1 & Hr1 & Hl1 & _); [lia|lia|done| |].
    { intros n Hn. split_and!; [apply HT; lia|apply Hlen; lia|].
      intros i t Hi. rewrite Hi. simpl.
      destruct (Hsc n i t ltac:(lia) ltac:(lia) Hi) as [x Hx']. by rewrite Hx'. }
    change (zeros 1 25) with [replicate 25 (0 : Qc)]. rewrite Hr1.
    cbn [mbind result_mbind result_bind for_fold].
    rewrite (HT n0) by lia. cbn [mbind result_mbind result_bind]. unfold enumerate.
    rewrite (level_scores_keyerror ((n0 - 1) * 5) (T n0) i0 t0 0 r1); [done|done|done| |lia].
    intros j t Hj Ht. apply (Hsc n0 j t); [lia|lia|done]. }
  split; [exact Hs|]. unfold add_subject_data. rewrite Hx. simpl. by rewrite Hs.
Qed.

(** *** What the calls leave *)

Section calls.

Variable new_ExperimentData : string → result (@ExperimentData Qc).
Variable np : Numpy.

Local Abbreviation add_subject_data :=
  (Statistics.add_subject_data new_ExperimentData) (only parsing).
Local Abbreviation add_subjects :=
  (Statistics.add_subjects new_ExperimentData) (only parsing).
Local Abbreviation loads := (Statistics.loads new_ExperimentData) (only parsing).

(** One successful call leaves a matrix of at least one row, one row longer
    than the stored one at most, whose rows have 25 entries when those of
    the stored one have. *)
Lemma add_subject_data_shape (self self' : Statistics) (p : string) (k : nat) :
  match data self with
  | Bools _ => True
  | Floats2 m => (length m ≤ k)%nat ∧ Forall (λ row, length row = 25%nat) m
  end →
  add_subject_data self p = Ok self' →
  ∃ m, data self' = Floats2 m ∧ (1 ≤ length m ≤ S k)%nat ∧
       Forall (λ row, length row = 25%nat) m.
Proof.
  intros Hinv H. unfold Statistics.add_subject_data in H.
  destruct (new_ExperimentData p) as [exp_data|e]; [|done]. simpl in H.
  destruct (subject_scores exp_data) as [d|e] eqn:Hd; [|done]. simpl in H.
  apply subject_scores_shape in Hd as (r & -> & Hr).
  destruct (any (data self)).
  - destruct (data self) as [v|m]; [done|]. simpl in H.
    case_decide; [|done]. injection H as <-. destruct Hinv as [Hk H25].
    exists (m ++ [r]). split_and!; [done|rewrite length_app; simpl; lia..|].
    apply Forall_app. split; [done|]. by constructor.
  - injection H as <-. exists [r]. split_and!; [done|simpl; lia..|].
    by constructor.
Qed.

Lemma add_subjects_shape (paths : list string) (self self' : Statistics) (k : nat) :
  match data self with
  | Bools _ => True
  | Floats2 m => (length m ≤ k)%nat ∧ Forall (λ row, length row = 25%nat) m
  end →
  paths ≠ [] →
  add_subjects self paths = Ok self' →
  ∃ m, data self' = Floats2 m ∧ (1 ≤ length m ≤ k + length paths)%nat ∧
       Forall (λ row, length row = 25%nat) m.
Proof.
  revert self k. induction paths as [|p paths IH]; intros self k Hinv Hne H; [done|].
  unfold Statistics.add_subjects in H. simpl in H.
  destruct (Statistics.add_subject_data new_ExperimentData self p) as [s1|e] eqn:E;
    [|done].
  simpl in H. destruct (add_subject_data_shape self s1 p k Hinv E) as (m1 & Hm1 & Hl1 & H1).
  destruct paths as [|p' paths].
  - simpl in H. injection H as <-. exists m1. split_and!; [done|simpl; lia..|done].
  - destruct (IH s1 (S k)) as (m & Hm & Hl & H25); [|done|exact H|].
    + rewrite Hm1. split; [lia|done].
    + exists m. split_and!; [done|simpl in *; lia..|done].
Qed.

(** X14. Called on a new object for subjects whose files load, in order,
    [add_subject_data] leaves the rows of the subjects from the first one
    with a nonzero score on (of the last subject alone when there is none
    before it): the subjects before that one, whose scores are all zero,
    are dropped, and once a row with a nonzero score is stored every later
    subject is kept, all-zero ones too. *)
Theorem calls_leave_stored_rows (paths : list string) (rows : list (list Qc)) :
  Forall2 loads paths rows → paths ≠ [] →
  add_subjects __init__ paths = Ok {| data := Floats2 (stored_rows rows) |} ∧
  ∃ dropped, rows = dropped ++ stored_rows rows ∧
             Forall (λ r, existsb truthy r = false) dropped ∧
             stored_rows rows ≠ [] ∧
             (∀ r rest, stored_rows rows = r :: rest → rest ≠ [] →
                        existsb truthy r = true).
Proof.
  intros HF Hne. split; [by apply add_subjects_from_falsy|].
  assert (rows ≠ []) as Hr by (destruct HF; done).
  destruct (stored_rows_spec rows Hr) as (dropped & Hd & Hz & Hs).
  exists dropped. split_and!; [done..|].
  clear. induction rows as [|r0 rows IH]; [done|].
  destruct rows as [|r1 rows]; [intros r rest [= <- <-]; done|].
  cbn [stored_rows]. destruct (existsb truthy r0) eqn:E.
  - by intros r rest [= <- <-].
  - exact IH.
Qed.

(** X15. What is stored is the array of [__init__] or, after any successful
    call, a matrix of at least one row and at most one row per call whose
    rows have 25 entries. On the array of [__init__] the two averages raise
    (there is no axis 1 to average along); after any successful call they
    return: one row of 5 means per stored row, and 5 global means. *)
Theorem averages_return_after_a_call :
  average_scores_all_subjects np __init__ = Raise AxisError ∧
  global_average_scores np __init__ = Raise AxisError ∧
  ∀ paths self', paths ≠ [] →
    add_subjects __init__ paths = Ok self' →
    ∃ m avg g,
      data self' = Floats2 m ∧ (1 ≤ length m ≤ length paths)%nat ∧
      Forall (λ row, length row = 25%nat) m ∧
      average_scores_all_subjects np self' = Ok avg ∧
      length avg = length m ∧ Forall (λ a, length a = 5%nat) avg ∧
      global_average_scores np self' = Ok g ∧ length g = 5%nat.
Proof.
  split_and!; [reflexivity..|].
  intros paths self' Hne H.
  destruct (add_subjects_shape paths __init__ self' 0 I Hne H) as (m & Hm & Hl & H25).
  destruct self' as [d]. simpl in Hm. subst d.
  set (avg := map (λ row, map (level_mean np row) (seq 1 5)) m).
  assert (Forall (λ a : list Qc, length a = 5%nat) avg) as H5.
  { apply List.Forall_forall. intros a Ha. apply in_map_iff in Ha as (row & <- & _).
    reflexivity. }
  exists m, avg, (mean_axis0 np avg). split_and!; [done|lia..|done| | | | |].
  - apply average_scores_all_subjects_ok.
  - unfold avg. by rewrite length_map.
  - exact H5.
  - unfold global_average_scores. by rewrite average_scores_all_subjects_ok.
  - unfold mean_axis0. rewrite length_map, length_seq.
    apply ncols_five; [|done]. unfold avg. destruct m; [simpl in Hl; lia|done].
Qed.

End calls.

(** *** The global averages *)

Lemma column_of_means (np : Numpy) (m : list (list Qc)) (n : nat) :
  (1 ≤ n ≤ 5)%nat →
  omap (λ a : list Qc, a !! (n - 1)%nat)
       (map (λ row, map (level_mean np row) (seq 1 5)) m)
  = map (λ row, level_mean np row n) m.
Proof.
  intros Hn. induction m as [|row m IH]; [done|].
  cbn [map omap list_omap]. rewrite level_mean_lookup by done.
  fold (@omap list _ (list Qc) Qc). by rewrite IH.
Qed.


(** *** The theorems on the logs of the examples *)

Lemma demo_trials_score (k : Z) (n i : nat) (t : gmap string Qc) :
  demo_trials k n !! i = Some t → t !! "score" = Some (demo_score k n i).
Proof.
  intros Hi. unfold demo_trials in Hi.
  apply list_lookup_fmap_Some in Hi as (j & -> & Hj).
  apply lookup_seq in Hj as [-> _]. apply lookup_singleton_eq.
Qed.

(** X11, on the log with [n - 1] trials at level [n]. *)
Lemma missing_trials_score_zero_witness :
  ∃ r, subject_scores demo_short = Ok [r] ∧
       ∀ n i, (1 ≤ n ≤ 5)%nat →
              (length (take (n - 1) (demo_trials 1 n)) ≤ i < 5)%nat →
              r !! ((n - 1) * 5 + i)%nat = Some 0.
Proof.
  apply (missing_trials_score_zero demo_short
           (λ n, take (n - 1) (demo_trials 1 n)) (demo_score 1)).
  intros n Hn. split_and!; [reflexivity|rewrite length_take; simpl; lia|].
  intros i t Hi. apply lookup_take_Some in Hi as [Hi _].
  by apply demo_trials_score.
Defined.

(** X12, on the log with six trials at level 5. *)
Lemma sixth_trial_of_level_5_raises_witness :
  subject_scores demo_long = Raise IndexError ∧
  add_subject_data (λ _, Ok demo_long) __init__ "long.csv" = Raise IndexError.
Proof.
  apply (sixth_trial_of_level_5_raises (λ _, Ok demo_long) __init__ "long.csv"
           demo_long
           (λ n, map (λ i, {[ "score" := demo_score 1 n i ]})
                     (seq 0 (if decide (n = 5%nat) then 6 else 5)))).
  - reflexivity.
  - intros n Hn. split; [reflexivity|]. intros i t Hi.
    apply list_lookup_fmap_Some in Hi as (j & -> & _).
    eexists. apply lookup_singleton_eq.
  - intros n Hn. rewrite length_map, length_seq. rewrite decide_False by lia. lia.
  - simpl. lia.
Defined.

(** X13, on the log whose second trial of level 2 has no score. *)
Lemma trial_without_score_raises_witness :
  subject_scores demo_noscore = Raise (KeyError "score") ∧
  add_subject_data (λ _, Ok demo_noscore) __init__ "noscore.csv"
  = Raise (KeyError "score").
Proof.
  apply (trial_without_score_raises (λ _, Ok demo_noscore) __init__ "noscore.csv"
           demo_noscore demo_noscore_trials 2 1 {[ "start" := 0 ]}).
  - reflexivity.
  - lia.
  - lia.
  - reflexivity.
  - intros n Hn. unfold demo_noscore_trials. rewrite decide_False by lia. simpl. lia.
  - intros n i t Hc Hn Hi. unfold demo_noscore_trials in Hi.
    destruct (decide (n = 2%nat)) as [->|Hne].
    + rewrite list_lookup_insert_ne in Hi by lia.
      eexists. by apply demo_trials_score.
    + eexists. by apply demo_trials_score.
  - reflexivity.
  - apply lookup_singleton_ne. discriminate.
Defined.

(** X14, on the files of the three subjects: the two all-zero subjects
    before subject 1 are dropped, the one after it is kept. *)
Lemma calls_leave_stored_rows_witness :
  add_subjects demo_files __init__
    ["zero.csv"; "zero.csv"; "one.csv"; "zero.csv"; "two.csv"]
  = Ok {| data := Floats2 [demo_row 1; replicate 25 0; demo_row 2] |}.
Proof.
  apply (calls_leave_stored_rows demo_files
           ["zero.csv"; "zero.csv"; "one.csv"; "zero.csv"; "two.csv"]
           [replicate 25 0; replicate 25 0; demo_row 1; replicate 25 0; demo_row 2]).
  - repeat constructor;
      [exact demo_loads_zero | exact demo_loads_zero | exact demo_loads_one
      | exact demo_loads_zero | exact demo_loads_two].
  - discriminate.
Defined.


End StatisticsMore.

(** ** The plots *)

Module AxisPlotFacts.

Import AxisPlot.

Local Open Scope Qc_scope.

Section plots.

Context {Colour : Type}.

Local Abbreviation Plt := (@AxisPlot.Plt Colour) (only parsing).
Local Abbreviation call := (@AxisPlot.call Colour) (only parsing).
Local Abbreviation Pyplot := (@AxisPlot.Pyplot Colour) (only parsing).

(** *** The monad and the loops *)

Lemma plt_eta {A} (m : Plt A) : MkPlt (drawn m) (ended m) = m.
Proof. by destruct m. Qed.

Lemma plt_lift_ok_bind {A B} (a : A) (f : A → Plt B) : lift (Ok a) ≫= f = f a.
Proof. unfold mbind, Plt_bind, plt_bind, lift. simpl. apply plt_eta. Qed.

Lemma item_Some {A} (l : list A) (i : nat) (x : A) : l !! i = Some x → item l i = Ok x.
Proof. unfold item. by intros ->. Qed.

Lemma item_None {A} (l : list A) (i : nat) :
  (length l ≤ i)%nat → item l i = Raise IndexError.
Proof. intros H. unfold item. by rewrite (lookup_ge_None_2 l i H). Qed.

Lemma plt_for_ok {A} (xs : list A) (body : A → Plt unit) (g : A → call) :
  (∀ x, x ∈ xs → body x = MkPlt [g x] (Ok tt)) →
  for_ xs body = MkPlt (map g xs) (Ok tt).
Proof.
  induction xs as [|x xs IH]; intros H; [done|].
  cbn [for_]. rewrite (H x) by left. rewrite IH; [done|].
  intros y Hy. apply H. by right.
Qed.

(** A loop over indices whose rounds make the calls [g i]. *)
Lemma plt_for_indices_ok (n a : nat) (body : nat → Plt unit) (g : nat → option call) :
  (∀ i, (a ≤ i < a + n)%nat → ∃ c, g i = Some c ∧ body i = MkPlt [c] (Ok tt)) →
  for_ (seq a n) body = MkPlt (omap g (seq a n)) (Ok tt) ∧
  length (omap g (seq a n)) = n ∧
  ∀ j, (j < n)%nat → omap g (seq a n) !! j = g (a + j)%nat.
Proof.
  revert a. induction n as [|n IH]; intros a H.
  - split_and!; [done|done|]. intros j Hj. lia.
  - destruct (H a ltac:(lia)) as (c & Hg & Hb).
    destruct (IH (S a)) as (Hfor & Hlen & Hlook).
    { intros i Hi. apply H. lia. }
    cbn [seq for_ omap list_omap]. fold (@omap list _ nat call).
    rewrite Hg, Hb, Hfor. split_and!; [done|simpl; by rewrite Hlen|].
    intros [|j] Hj; [by rewrite Nat.add_0_r|].
    simpl. rewrite Hlook by lia. f_equal. lia.
Qed.

(** A loop that stops at the round of [x0]. *)
Lemma plt_for_raise {A} (pre post : list A) (x0 : A) (body : A → Plt unit) e :
  (∀ x, x ∈ pre → ended (body x) = Ok tt) →
  ended (body x0) = Raise e →
  ended (for_ (pre ++ x0 :: post) body) = Raise e.
Proof.
  induction pre as [|x pre IH]; intros Hpre H0.
  - cbn [app for_]. unfold mbind, Plt_bind, plt_bind. by rewrite H0.
  - cbn [app for_]. unfold mbind, Plt_bind, plt_bind.
    rewrite (Hpre x) by left. cbn [ended]. apply IH; [|done].
    intros y Hy. apply Hpre. by right.
Qed.

Lemma every_second_lookup {A} (l : list A) (i : nat) :
  every_second l !! i = l !! (2 * i)%nat.
Proof.
  revert l. induction i as [|i IH]; intros l.
  - by destruct l as [|x [|y l]].
  - replace (2 * S i)%nat with (S (S (2 * i))) by lia.
    destruct l as [|x [|y l]]; [done|done|]. cbn [every_second]. apply IH.
Qed.

Lemma x_axis_length (n : nat) : length (x_axis n) = n.
Proof. unfold x_axis. by rewrite length_map, length_seq. Qed.

Lemma dashed_round (d0 : list Qc) (y : Qc) :
  (d ← lift (Ok d0);
   d' ← lift (Ok d0);
   plot (x_axis (length d)) (replicate (length d') y)
        (PlotDashed (x_axis (length d)) (replicate (length d') y)))
  = (MkPlt [dashed_of (length d0) y] (Ok tt) : Plt unit).
Proof.
  rewrite !plt_lift_ok_bind.
  unfold plot. by rewrite x_axis_length, length_replicate, decide_True.
Qed.

Lemma line_round (P : Pyplot) (data : list (list Qc)) (labels : list string)
    (x : list Qc) (k i : nat) (d : list Qc) (l : string) (c : Colour) :
  data !! i = Some d → labels !! i = Some l → colours P !! k = Some c →
  length x = length d →
  (d ← lift (item data i);
   l ← lift (item labels i);
   c ← lift (item (colours P) k);
   plot x d (PlotLine x d l c))
  = (MkPlt [PlotLine x d l c] (Ok tt) : Plt unit).
Proof.
  intros Hd Hl Hc Hlen.
  rewrite (item_Some _ _ _ Hd), (item_Some _ _ _ Hl), (item_Some _ _ _ Hc).
  rewrite !plt_lift_ok_bind. unfold plot. by rewrite decide_True.
Qed.

(** *** The guard *)

Lemma bind_no_assertion {A B} (m : Plt A) (f : A → Plt B) :
  ended m ≠ Raise AssertionError →
  (∀ a, ended (f a) ≠ Raise AssertionError) →
  ended (m ≫= f) ≠ Raise AssertionError.
Proof.
  intros Hm Hf. unfold mbind, Plt_bind, plt_bind.
  destruct (ended m) as [a|e]; simpl; [apply Hf|].
  intros [= ->]. by apply Hm.
Qed.

Lemma for_no_assertion {A} (xs : list A) (body : A → Plt unit) :
  (∀ x, ended (body x) ≠ Raise AssertionError) →
  ended (for_ xs body) ≠ Raise AssertionError.
Proof.
  intros H. induction xs as [|x xs IH]; [done|].
  cbn [for_]. apply bind_no_assertion; [apply H|done].
Qed.

Lemma item_no_assertion {A} (l : list A) (i : nat) :
  ended (lift (item l i) : Plt A) ≠ Raise AssertionError.
Proof. unfold item. by destruct (l !! i). Qed.

Lemma plot_no_assertion (x y : list Qc) (c : call) :
  ended (plot x y c) ≠ Raise AssertionError.
Proof. unfold plot. by case_decide. Qed.

Ltac no_assertion :=
  repeat first
    [ apply item_no_assertion | apply plot_no_assertion
    | apply for_no_assertion; intros ?
    | apply bind_no_assertion; [|intros ?]
    | discriminate ].

(** X17. Each of the three functions first asserts that it is given as
    many labels as data sets, and asserts nothing else: it ends with
    [AssertionError] exactly when the two numbers differ, and has then made
    no call of pyplot, so that no figure is created; when they agree it
    creates the figure and cleans the plot first, whatever happens next. *)
Theorem assertion_error_iff_lengths_differ (P : Pyplot) (data : list (list Qc))
    (labels : list string) :
  (ended (loss_axisplot P data labels) = Raise AssertionError
   ↔ length data ≠ length labels) ∧
  (ended (accuracy_axisplot P data labels) = Raise AssertionError
   ↔ length data ≠ length labels) ∧
  (ended (acc_distribution_plot P data labels) = Raise AssertionError
   ↔ length data ≠ length labels) ∧
  (length data ≠ length labels →
   drawn (loss_axisplot P data labels) = [] ∧
   drawn (accuracy_axisplot P data labels) = [] ∧
   drawn (acc_distribution_plot P data labels) = []) ∧
  (length data = length labels →
   ∃ r1 r2 r3,
     drawn (loss_axisplot P data labels) = Subplots :: CleanPlot :: r1 ∧
     drawn (accuracy_axisplot P data labels) = Subplots :: CleanPlot :: r2 ∧
     drawn (acc_distribution_plot P data labels) = Subplots :: CleanPlot :: r3).
Proof.
  destruct (decide (length data = length labels)) as [Heq|Hne].
  - assert (ended (loss_axisplot P data labels) ≠ Raise AssertionError
            ∧ ended (accuracy_axisplot P data labels) ≠ Raise AssertionError
            ∧ ended (acc_distribution_plot P data labels) ≠ Raise AssertionError)
      as (H1 & H2 & H3).
    { unfold loss_axisplot, accuracy_axisplot, acc_distribution_plot.
      rewrite !bool_decide_eq_true_2 by done. cbv zeta.
      split_and!; no_assertion. }
    split_and!; [tauto..|done|].
    intros _. unfold loss_axisplot, accuracy_axisplot, acc_distribution_plot.
    rewrite !bool_decide_eq_true_2 by done.
    eexists _, _, _. split_and!; reflexivity.
  - unfold loss_axisplot, accuracy_axisplot, acc_distribution_plot.
    rewrite !bool_decide_eq_false_2 by done.
    split_and!; [done..|].
    intros Heq. by destruct Hne.
Qed.

(** X18. Without any data set (and any label) the three functions differ:
    [loss_axisplot] and [accuracy_axisplot] end with [IndexError] at
    [data[0]], after they have created a figure (and, for the first, set
    the labels of the axes); [acc_distribution_plot] returns, having drawn
    the axes, the vertical lines and an empty legend. *)
Theorem plots_of_nothing (P : Pyplot) :
  loss_axisplot P [] []
  = MkPlt [Subplots; CleanPlot; Xlabel "Epochs" 12; Ylabel "Loss" 12]
          (Raise IndexError) ∧
  accuracy_axisplot P [] [] = MkPlt [Subplots; CleanPlot] (Raise IndexError) ∧
  acc_distribution_plot P [] []
  = MkPlt ([Subplots; CleanPlot; Xlim 0 1; Ylim (-1) 25;
            Xlabel "Accuracy" 12; Ylabel "Participants" 12;
            Xticks (arange P (Q2Qc (1 # 10)) (Q2Qc (11 # 10)) (Q2Qc (2 # 10)))]
           ++ map Axvline (arange P (Q2Qc (1 # 10)) (Q2Qc (11 # 10)) (Q2Qc (1 # 10)))
           ++ [Legend None]) (Ok tt).
Proof.
  split_and!; [reflexivity..|].
  unfold acc_distribution_plot. cbv zeta.
  rewrite (plt_for_ok _ _ Axvline) by done. reflexivity.
Qed.

(** *** The distribution of the accuracies *)

Lemma count_above_le (th : Qc) (data : list Qc) :
  (count_above th data ≤ length data)%nat.
Proof. unfold count_above. apply length_filter. Qed.

Lemma count_above_mono (th th' : Qc) (data : list Qc) :
  th ≤ th' → (count_above th' data ≤ count_above th data)%nat.
Proof.
  intros Hle. unfold count_above. induction data as [|x data IH]; [done|].
  rewrite !filter_cons.
  destruct (decide (th' < x)) as [H'|H'].
  - rewrite decide_True by (by eapply Qcle_lt_trans). simpl. lia.
  - destruct (decide (th < x)); simpl; lia.
Qed.

(** X19. The numbers [acc_distribution_plot] plots for an approach are, at
    each threshold of [steps], the number of the approach's accuracies that
    are strictly above the threshold: one row per approach, one count per
    threshold, none above the number of accuracies of the approach, and a
    count at a threshold is at most the count at any lower threshold. *)
Theorem plot_data_counts (steps : list Qc) (accuracies : list (list Qc)) :
  length (plot_data steps accuracies) = length accuracies ∧
  ∀ i data, accuracies !! i = Some data →
    ∃ row, plot_data steps accuracies !! i = Some row ∧
           length row = length steps ∧
           (∀ k th, steps !! k = Some th →
                    row !! k = Some (length (filter (λ x, th < x) data))) ∧
           Forall (λ c, (c ≤ length data)%nat) row ∧
           (∀ k k' th th' c c',
              steps !! k = Some th → steps !! k' = Some th' → th ≤ th' →
              row !! k = Some c → row !! k' = Some c' → (c' ≤ c)%nat).
Proof.
  split; [unfold plot_data; by rewrite length_map|].
  intros i data Hi. exists (map (λ th, count_above th data) steps).
  split_and!.
  - unfold plot_data. by rewrite list_lookup_fmap, Hi.
  - by rewrite length_map.
  - intros k th Hk. by rewrite list_lookup_fmap, Hk.
  - apply List.Forall_forall. intros c Hc.
    apply in_map_iff in Hc as (th & <- & _). apply count_above_le.
  - intros k k' th th' c c' Hk Hk' Hle Hc Hc'.
    rewrite list_lookup_fmap, Hk in Hc. rewrite list_lookup_fmap, Hk' in Hc'.
    injection Hc as <-. injection Hc' as <-. by apply count_above_mono.
Qed.

(** X20. Given as many labels as approaches and a colour at every second
    place for each approach ([colours()[::2][i]] is [colours()[2 i]]),
    [acc_distribution_plot] returns: after the axes and the vertical lines
    it has drawn one series per approach, in order, with the approach's
    label and colour, of the counts of the approach's accuracies above each
    threshold of [np.arange(0, 1.05, 0.05)], and then the legend. *)
Theorem acc_distribution_plot_draws (P : Pyplot) (accuracies : list (list Qc))
    (labels : list string) :
  length accuracies = length labels →
  (2 * length accuracies ≤ S (length (colours P)))%nat →
  ∃ series,
    acc_distribution_plot P accuracies labels
    = MkPlt ([Subplots; CleanPlot; Xlim 0 1; Ylim (-1) 25;
              Xlabel "Accuracy" 12; Ylabel "Participants" 12;
              Xticks (arange P (Q2Qc (1 # 10)) (Q2Qc (11 # 10)) (Q2Qc (2 # 10)))]
             ++ map Axvline (arange P (Q2Qc (1 # 10)) (Q2Qc (11 # 10)) (Q2Qc (1 # 10)))
             ++ series ++ [Legend None]) (Ok tt) ∧
    length series = length accuracies ∧
    ∀ i data l c,
      accuracies !! i = Some data → labels !! i = Some l →
      colours P !! (2 * i)%nat = Some c →
      series !! i
      = Some (PlotPoints (arange P 0 (Q2Qc (105 # 100)) (Q2Qc (5 # 100)))
                (numbers (map (λ th, length (filter (λ x, th < x) data))
                              (arange P 0 (Q2Qc (105 # 100)) (Q2Qc (5 # 100)))))
                l c).
Proof.
  intros Hlen Hcol.
  set (steps := arange P 0 (Q2Qc (105 # 100)) (Q2Qc (5 # 100))).
  set (g := λ i : nat,
         data ← accuracies !! i; l ← labels !! i; c ← colours P !! (2 * i)%nat;
         Some (PlotPoints steps
                 (numbers (map (λ th, count_above th data) steps)) l c)).
  destruct (plt_for_indices_ok (length (plot_data steps accuracies)) 0
              (λ i, pd ← lift (item (plot_data steps accuracies) i);
                    l ← lift (item labels i);
                    c ← lift (item (every_second (colours P)) i);
                    plot steps (numbers pd) (PlotPoints steps (numbers pd) l c))
              g) as (Hfor & Hl & Hlook).
  { intros i Hi. unfold plot_data in Hi. rewrite length_map in Hi.
    destruct (lookup_lt_is_Some_2 accuracies i ltac:(lia)) as [data Hd].
    destruct (lookup_lt_is_Some_2 labels i ltac:(lia)) as [l Hla].
    destruct (lookup_lt_is_Some_2 (colours P) (2 * i) ltac:(lia)) as [c Hc].
    exists (PlotPoints steps (numbers (map (λ th, count_above th data) steps)) l c).
    split; [unfold g; by rewrite Hd, Hla, Hc|].
    rewrite (item_Some _ i (map (λ th, count_above th data) steps)).
    2:{ unfold plot_data. by rewrite list_lookup_fmap, Hd. }
    rewrite (item_Some _ _ _ Hla).
    rewrite (item_Some _ i c) by (by rewrite every_second_lookup).
    rewrite !plt_lift_ok_bind. unfold plot, numbers.
    by rewrite !length_map, decide_True. }
  exists (omap g (seq 0 (length (plot_data steps accuracies)))). split_and!.
  - unfold acc_distribution_plot. cbv zeta. fold steps.
    rewrite bool_decide_eq_true_2 by done.
    rewrite (plt_for_ok _ _ Axvline) by done.
    unfold range. rewrite Nat.sub_0_r, Hfor. reflexivity.
  - rewrite Hl. unfold plot_data. by rewrite length_map.
  - intros i data l c Hd Hla Hc.
    rewrite Hlook.
    + unfold g. cbn [Nat.add]. by rewrite Hd, Hla, Hc.
    + unfold plot_data. rewrite length_map. by eapply lookup_lt_Some.
Qed.

(** *** The curves over the epochs *)

Lemma plt_bind_ok {A B} (m : Plt A) (f : A → Plt B) t a t' r :
  m = MkPlt t (Ok a) → f a = MkPlt t' r → m ≫= f = MkPlt (t ++ t') r.
Proof. intros -> H. unfold mbind, Plt_bind, plt_bind. cbn. by rewrite H. Qed.

Lemma plt_bind_raise {A B} (m : Plt A) (f : A → Plt B) t e :
  m = MkPlt t (Raise e) → m ≫= f = MkPlt t (Raise e).
Proof. by intros ->. Qed.

(** The loop that draws the data sets, with the colour [k i] for the data
    set [i]. *)
Lemma lines_loop (P : Pyplot) (data : list (list Qc)) (labels : list string)
    (d0 : list Qc) (k : nat → nat) :
  length data = length labels →
  Forall (λ d, length d = length d0) data →
  (∀ i, (i < length data)%nat → (k i < length (colours P))%nat) →
  ∃ series,
    for_ (range 0 (length data))
         (λ i, d ← lift (item data i);
               l ← lift (item labels i);
               c ← lift (item (colours P) (k i));
               plot (x_axis (length d0)) d (PlotLine (x_axis (length d0)) d l c))
    = MkPlt series (Ok tt) ∧
    length series = length data ∧
    ∀ i d l c,
      data !! i = Some d → labels !! i = Some l → colours P !! k i = Some c →
      series !! i = Some (PlotLine (x_axis (length d0)) d l c).
Proof.
  intros Hlen Hall Hcol.
  set (g := λ i : nat,
         d ← data !! i; l ← labels !! i; c ← colours P !! k i;
         Some (PlotLine (x_axis (length d0)) d l c)).
  destruct (plt_for_indices_ok (length data) 0
              (λ i, d ← lift (item data i);
                    l ← lift (item labels i);
                    c ← lift (item (colours P) (k i));
                    plot (x_axis (length d0)) d (PlotLine (x_axis (length d0)) d l c))
              g) as (Hfor & Hl & Hlook).
  { intros i Hi.
    destruct (lookup_lt_is_Some_2 data i ltac:(lia)) as [d Hd].
    destruct (lookup_lt_is_Some_2 labels i ltac:(lia)) as [l Hla].
    destruct (lookup_lt_is_Some_2 (colours P) (k i) ltac:(apply Hcol; lia)) as [c Hc].
    exists (PlotLine (x_axis (length d0)) d l c).
    split; [unfold g; by rewrite Hd, Hla, Hc|].
    apply line_round; [done..|]. rewrite x_axis_length. symmetry.
    rewrite List.Forall_forall in Hall. apply Hall.
    apply list_elem_of_In. by eapply list_elem_of_lookup_2. }
  exists (omap g (seq 0 (length data))). split_and!.
  - unfold range. by rewrite Nat.sub_0_r.
  - done.
  - intros i d l c Hd Hla Hc. rewrite Hlook by (by eapply lookup_lt_Some).
    unfold g. cbn [Nat.add]. by rewrite Hd, Hla, Hc.
Qed.

(** X21. Given as many labels as data sets, at least one data set, data
    sets of one length [n] and a colour for each, [accuracy_axisplot]
    returns: it has drawn the dashed lines of [np.arange(0, 1, 0.1)] over
    the epochs [1..n], set the axes, then drawn the data sets in order over
    the epochs [1..n], the data set [i] with the label [i] and the colour
    [i], and then the legend. *)
Theorem accuracy_axisplot_draws (P : Pyplot) (data : list (list Qc))
    (labels : list string) (d0 : list Qc) :
  length data = length labels → data !! 0%nat = Some d0 →
  Forall (λ d, length d = length d0) data →
  (length data ≤ length (colours P))%nat →
  ∃ series,
    accuracy_axisplot P data labels
    = MkPlt ([Subplots; CleanPlot]
             ++ map (dashed_of (length d0)) (arange P 0 1 (Q2Qc (1 # 10)))
             ++ [Ylim 0 1; Yticks (arange P (Q2Qc (2 # 10)) 1 (Q2Qc (2 # 10))) 10;
                 Xlabel "Epochs" 12; Ylabel "Accuracy" 12]
             ++ series ++ [Legend (Some "upper right")]) (Ok tt) ∧
    length series = length data ∧
    ∀ i d l c,
      data !! i = Some d → labels !! i = Some l → colours P !! i = Some c →
      series !! i = Some (PlotLine (x_axis (length d0)) d l c).
Proof.
  intros Hlen H0 Hall Hcol.
  destruct (lines_loop P data labels d0 (λ i, i) Hlen Hall) as (series & Hfor & Hl & Hs).
  { intros i Hi. lia. }
  exists series. split_and!; [|done|done].
  unfold accuracy_axisplot. rewrite bool_decide_eq_true_2 by done.
  rewrite (item_Some _ _ _ H0). etransitivity.
  { repeat (eapply plt_bind_ok;
            [first [ exact Hfor
                   | apply (plt_for_ok _ _ (dashed_of (length d0)));
                     intros y _; apply dashed_round
                   | reflexivity ]
            |cbv beta zeta]).
    reflexivity. }
  reflexivity.
Qed.

(** X22. [loss_axisplot] takes the colour [i + 2] for the data set [i]: given
    as many labels as data sets, at least one data set and data sets of one
    length [n], it returns when [colours()] has two colours more than there
    are data sets, having drawn them in order over the epochs [1..n], then
    a dashed line at each tick of the y axis but the first and the last,
    then the legend; with fewer colours it ends with [IndexError]. *)
Theorem loss_axisplot_needs_two_more_colours (P : Pyplot)
    (data : list (list Qc)) (labels : list string) (d0 : list Qc) :
  length data = length labels → data !! 0%nat = Some d0 →
  Forall (λ d, length d = length d0) data →
  ((length data + 2 ≤ length (colours P))%nat →
   ∃ series,
     loss_axisplot P data labels
     = MkPlt ([Subplots; CleanPlot; Xlabel "Epochs" 12; Ylabel "Loss" 12]
              ++ series
              ++ map (dashed_of (length d0)) (inner (yticks_loc P data))
              ++ [Legend (Some "upper right")]) (Ok tt) ∧
     length series = length data ∧
     ∀ i d l c,
       data !! i = Some d → labels !! i = Some l →
       colours P !! (i + 2)%nat = Some c →
       series !! i = Some (PlotLine (x_axis (length d0)) d l c)) ∧
  ((length (colours P) < length data + 2)%nat →
   ended (loss_axisplot P data labels) = Raise IndexError).
Proof.
  intros Hlen H0 Hall. split.
  - intros Hcol.
    destruct (lines_loop P data labels d0 (λ i, (i + 2)%nat) Hlen Hall)
      as (series & Hfor & Hl & Hs).
    { intros i Hi. lia. }
    exists series. split_and!; [|done|done].
    unfold loss_axisplot. rewrite bool_decide_eq_true_2 by done.
    rewrite (item_Some _ _ _ H0). etransitivity.
    { repeat (eapply plt_bind_ok;
              [first [ exact Hfor
                     | apply (plt_for_ok _ _ (dashed_of (length d0)));
                       intros y _; apply dashed_round
                     | reflexivity ]
              |cbv beta zeta]).
      reflexivity. }
    reflexivity.
  - intros Hcol.
    pose proof (lookup_lt_Some _ _ _ H0) as Hne.
    set (i0 := (length (colours P) - 2)%nat).
    assert (ended (for_ (range 0 (length data))
              (λ i, d ← lift (item data i);
                    l ← lift (item labels i);
                    c ← lift (item (colours P) (i + 2));
                    plot (x_axis (length d0)) d
                         (PlotLine (x_axis (length d0)) d l c)))
            = Raise IndexError) as Hloop.
    { unfold range. rewrite Nat.sub_0_r.
      replace (length data) with (i0 + S (length data - S i0))%nat by lia.
      rewrite seq_app. cbn [seq Nat.add].
      apply plt_for_raise.
      - intros i Hi. apply elem_of_seq in Hi.
        destruct (lookup_lt_is_Some_2 data i ltac:(lia)) as [d Hd].
        destruct (lookup_lt_is_Some_2 labels i ltac:(lia)) as [l Hla].
        destruct (lookup_lt_is_Some_2 (colours P) (i + 2) ltac:(lia)) as [c Hc].
        rewrite (line_round P data labels _ (i + 2) i d l c); [done..|].
        rewrite x_axis_length. symmetry.
        rewrite List.Forall_forall in Hall. apply Hall.
        apply list_elem_of_In. by eapply list_elem_of_lookup_2.
      - destruct (lookup_lt_is_Some_2 data i0 ltac:(lia)) as [d Hd].
        destruct (lookup_lt_is_Some_2 labels i0 ltac:(lia)) as [l Hla].
        rewrite (item_Some _ _ _ Hd), (item_Some _ _ _ Hla), !plt_lift_ok_bind.
        rewrite item_None by lia. reflexivity. }
    destruct (for_ _ _) as [tl rl] eqn:El in Hloop. cbn [ended] in Hloop. subst rl.
    assert (∃ t, loss_axisplot P data labels = MkPlt t (Raise IndexError))
      as [t ->]; [|reflexivity].
    eexists. unfold loss_axisplot. rewrite bool_decide_eq_true_2 by done.
    rewrite (item_Some _ _ _ H0).
    do 6 (eapply plt_bind_ok; [reflexivity|cbv beta zeta]).
    eapply plt_bind_raise. exact El.
Qed.

End plots.

(** *** The theorems on the curves and accuracies of the examples *)

(** In exact arithmetic [np.arange(0, 1.05, 0.05)] has the 21 thresholds 0,
    0.05, ..., 1; of the accuracies 0.3, 0.5 and 0.9 three are above the
    thresholds below 0.3, two above those from 0.3 on, one from 0.5 on and
    none from 0.9 on. *)
Example demo_distribution :
  plot_data (demo_arange 0 (Q2Qc (105 # 100)) (Q2Qc (5 # 100)))
            [[Q2Qc (3 # 10); Q2Qc (5 # 10); Q2Qc (9 # 10)]]
  = [[3; 3; 3; 3; 3; 3; 2; 2; 2; 2; 1; 1; 1; 1; 1; 1; 1; 1; 0; 0; 0]]%nat.
Proof. vm_compute. reflexivity. Qed.

(** X17, on two curves and one label. *)
Lemma assertion_error_iff_lengths_differ_witness :
  drawn (loss_axisplot (demo_pyplot demo_colours) demo_curves ["train"]) = [] ∧
  drawn (accuracy_axisplot (demo_pyplot demo_colours) demo_curves ["train"]) = [] ∧
  drawn (acc_distribution_plot (demo_pyplot demo_colours) demo_curves ["train"]) = [].
Proof.
  apply (assertion_error_iff_lengths_differ (demo_pyplot demo_colours) demo_curves
           ["train"]).
  simpl. lia.
Defined.

(** X20, on the accuracies of two approaches. *)
Lemma acc_distribution_plot_draws_witness :
  ∃ series,
    acc_distribution_plot (demo_pyplot demo_colours) demo_accuracies ["a"; "b"]
    = MkPlt ([Subplots; CleanPlot; Xlim 0 1; Ylim (-1) 25;
              Xlabel "Accuracy" 12; Ylabel "Participants" 12;
              Xticks (demo_arange (Q2Qc (1 # 10)) (Q2Qc (11 # 10)) (Q2Qc (2 # 10)))]
             ++ map Axvline (demo_arange (Q2Qc (1 # 10)) (Q2Qc (11 # 10)) (Q2Qc (1 # 10)))
             ++ series ++ [Legend None]) (Ok tt) ∧
    length series = length demo_accuracies ∧
    ∀ i data l c,
      demo_accuracies !! i = Some data → ["a"; "b"] !! i = Some l →
      demo_colours !! (2 * i)%nat = Some c →
      series !! i
      = Some (PlotPoints (demo_arange 0 (Q2Qc (105 # 100)) (Q2Qc (5 # 100)))
                (numbers (map (λ th, length (filter (λ x, th < x) data))
                              (demo_arange 0 (Q2Qc (105 # 100)) (Q2Qc (5 # 100)))))
                l c).
Proof.
  apply (acc_distribution_plot_draws (demo_pyplot demo_colours) demo_accuracies
           ["a"; "b"]).
  - reflexivity.
  - simpl. lia.
Defined.

(** X21, on the curves of two models. *)
Lemma accuracy_axisplot_draws_witness :
  ∃ series,
    accuracy_axisplot (demo_pyplot demo_colours) demo_curves ["train"; "val"]
    = MkPlt ([Subplots; CleanPlot]
             ++ map (dashed_of 2) (demo_arange 0 1 (Q2Qc (1 # 10)))
             ++ [Ylim 0 1; Yticks (demo_arange (Q2Qc (2 # 10)) 1 (Q2Qc (2 # 10))) 10;
                 Xlabel "Epochs" 12; Ylabel "Accuracy" 12]
             ++ series ++ [Legend (Some "upper right")]) (Ok tt) ∧
    length series = length demo_curves ∧
    ∀ i d l c,
      demo_curves !! i = Some d → ["train"; "val"] !! i = Some l →
      demo_colours !! i = Some c →
      series !! i = Some (PlotLine (x_axis 2) d l c).
Proof.
  apply (accuracy_axisplot_draws (demo_pyplot demo_colours) demo_curves
           ["train"; "val"] [Q2Qc (5 # 10); Q2Qc (6 # 10)]).
  - reflexivity.
  - reflexivity.
  - repeat constructor.
  - simpl. lia.
Defined.

(** X22, on the curves of two models: with three colours the second curve
    has no colour. *)
Lemma loss_axisplot_needs_two_more_colours_witness :
  ended (loss_axisplot (demo_pyplot ["c0"; "c1"; "c2"]) demo_curves ["train"; "val"])
  = Raise IndexError.
Proof.
  apply (loss_axisplot_needs_two_more_colours (demo_pyplot ["c0"; "c1"; "c2"])
           demo_curves ["train"; "val"] [Q2Qc (5 # 10); Q2Qc (6 # 10)]).
  - reflexivity.
  - reflexivity.
  - repeat constructor.
  - simpl. lia.
Defined.

End AxisPlotFacts.
